(** * WebSocket communication hub: a shallow embedding and its properties

    The development follows the Python sources module by module:
    [storage/database.py] (the SQLite schema), [messaging/offline_queue.py],
    [storage/message_store.py], [rooms/room_manager.py],
    [websocket/connection_pool.py], [websocket/connection_manager.py],
    [messaging/message_handler.py], [hub/communication_hub.py] and the
    [message] event handler of [api/app.py]; then [rooms/room_store.py],
    [hub/message_router.py], [websocket/connection_state.py],
    [messaging/message_queue.py], [hub/broadcast_manager.py] and the
    [register], [disconnect] and [join_room] event handlers.

    Conventions of the embedding.
    - Python dictionaries used as registries are [gmap]s; lists are lists.
    - A SQLite table is the list of its rows in rowid order.  A method that
      opens a cursor is a computation in the state monad [sql] over the
      database; every SQL statement of the source is one primitive.
    - [CURRENT_TIMESTAMP] and [time.time()] are read from the environment:
      the reading is passed to the method as an integer [now].
    - User ids are integers (the schema declares them INTEGER); connection
      ids, session ids and room ids are strings.
    - [cursor.execute] binds its parameters before the statement runs and
      raises for a value it cannot bind (see [binds]).  The methods of the
      stores are modelled on parameters that bind; the calls that take
      their parameters from a client have a second form, [..._or_raise],
      that checks them first, and the event handlers use that form. *)

From Stdlib Require Import ZArith Lia Sorting.Sorted Sorting.Permutation.
From stdpp Require Import gmap strings list fin_maps.

Set Default Proof Using "Type".

(** ** Python values

    The JSON-like values that travel in message dictionaries.  A dictionary
    is the list of its items in insertion order, with pairwise distinct
    keys as long as it is built with [dict_set]. *)

#[local] Unset Elimination Schemes.
Inductive pyval : Type :=
  | PNone
  | PBool (b : bool)
  | PInt (z : Z)
  | PStr (s : string)
  | PList (l : list pyval)
  | PDict (d : list (string * pyval)).
#[local] Set Elimination Schemes.

Abbreviation pydict := (list (string * pyval)).

(** Python truthiness: [bool(v)]. *)
Definition truthy (v : pyval) : bool :=
  match v with
  | PNone => false
  | PBool b => b
  | PInt z => negb (z =? 0)%Z
  | PStr s => negb (String.eqb s EmptyString)
  | PList l => match l with [] => false | _ => true end
  | PDict d => match d with [] => false | _ => true end
  end.

(** [k in d] *)
Fixpoint dict_has (k : string) (d : pydict) : bool :=
  match d with
  | [] => false
  | (k', _) :: d' => if String.eqb k k' then true else dict_has k d'
  end.

(** [d.get(k)] as an option; [d.get(k)] itself is [dict_get_or k PNone]. *)
Fixpoint dict_lookup (k : string) (d : pydict) : option pyval :=
  match d with
  | [] => None
  | (k', v) :: d' => if String.eqb k k' then Some v else dict_lookup k d'
  end.

(** [d.get(k, dflt)] *)
Definition dict_get_or (k : string) (dflt : pyval) (d : pydict) : pyval :=
  match dict_lookup k d with
  | Some v => v
  | None => dflt
  end.

(** [d.get(k)] *)
Definition dict_get (k : string) (d : pydict) : pyval := dict_get_or k PNone d.

(** [d[k] = v]: replaces in place, or appends a new item. *)
Fixpoint dict_set (k : string) (v : pyval) (d : pydict) : pydict :=
  match d with
  | [] => [(k, v)]
  | (k', v') :: d' =>
      if String.eqb k k' then (k', v) :: d' else (k', v') :: dict_set k v d'
  end.

(** [v in strs] for a list of strings: [==] between a [str] and a value of
    another type is [False]. *)
Definition py_in_strs (v : pyval) (strs : list string) : bool :=
  match v with
  | PStr s => existsb (String.eqb s) strs
  | _ => false
  end.

(** ** Parameters that bind

    sqlite3 binds [None], booleans, strings and the integers of 64 bits.
    For a longer integer [cursor.execute] raises [OverflowError], for a
    list or a dictionary [ProgrammingError] ([InterfaceError] before
    Python 3.11); the statement does not run and nothing is written. *)

Definition fits_int64 (z : Z) : bool :=
  (- 2 ^ 63 <=? z)%Z && (z <? 2 ^ 63)%Z.

Definition binds (v : pyval) : bool :=
  match v with
  | PNone | PBool _ | PStr _ => true
  | PInt z => fits_int64 z
  | PList _ | PDict _ => false
  end.

(** The values that are no dictionary key: [dict.get] raises [TypeError]
    for them. *)
Definition unhashable (v : pyval) : bool :=
  match v with
  | PList _ | PDict _ => true
  | _ => false
  end.

(** The values a column of INTEGER affinity stores as they are passed:
    [None] and the integers that bind.  A boolean is stored as 0 or 1 and
    a string that reads as a number as that number. *)
Definition kept_by_integer_column (v : pyval) : bool :=
  match v with
  | PNone => true
  | PInt z => fits_int64 z
  | _ => false
  end.

(** ** The database ([storage/database.py]) *)

(** [rooms(room_id PK, room_name, created_by, created_at, is_private, max_members)] *)
Record room_row : Type := mk_room_row {
  room_room_id : string;
  room_room_name : string;
  room_created_by : Z;
  room_created_at : Z;
  room_is_private : bool;
  room_max_members : Z
}.

(** [room_members(room_id, user_id, joined_at, PK (room_id, user_id))] *)
Record member_row : Type := mk_member_row {
  member_room_id : string;
  member_user_id : Z;
  member_joined_at : Z
}.

(** [messages(id PK AUTOINCREMENT, sender_id, recipient_id, room_id,
    message_type, content, delivered, created_at, delivered_at)].
    [content] is the JSON text, identified with the value it encodes. *)
Record message_row : Type := mk_message_row {
  msg_id : Z;
  msg_sender_id : pyval;
  msg_recipient_id : option Z;
  msg_room_id : option string;
  msg_message_type : string;
  msg_content : option pyval;
  msg_delivered : bool;
  msg_created_at : Z;
  msg_delivered_at : option Z
}.

(** The three tables the hub logic uses, and the AUTOINCREMENT counter of
    [messages] (SQLite's [sqlite_sequence]: the largest id ever handed out). *)
Record Database : Type := mk_Database {
  rooms : list room_row;
  room_members : list member_row;
  messages : list message_row;
  messages_seq : Z
}.

(** [init_database] on a fresh file. *)
Definition init_database : Database :=
  {| rooms := []; room_members := []; messages := []; messages_seq := 0 |}.

(** ** Cursor computations *)

Definition sql (A : Type) : Type := Database -> A * Database.

Definition sql_ret {A} (a : A) : sql A := fun db => (a, db).

Definition sql_bind {A B} (c : sql A) (k : A -> sql B) : sql B :=
  fun db => k (fst (c db)) (snd (c db)).

Declare Scope sql_scope.
Delimit Scope sql_scope with sql.
Notation "'let*' x := c 'in' k" := (sql_bind c (fun x => k))
  (at level 10, x name, c at level 100, k at level 200) : sql_scope.

(** Running a method: its result, and the database it leaves. *)
Definition result_of {A} (c : sql A) (db : Database) : A := fst (c db).
Definition db_after {A} (c : sql A) (db : Database) : Database := snd (c db).

(** [SELECT * FROM messages WHERE p] *)
Definition select_messages (p : message_row -> bool) : sql (list message_row) :=
  fun db => (List.filter p (messages db), db).

(** [DELETE FROM messages WHERE p] *)
Definition delete_messages (p : message_row -> bool) : sql unit :=
  fun db =>
    (tt, {| rooms := rooms db; room_members := room_members db;
            messages := List.filter (fun r => negb (p r)) (messages db);
            messages_seq := messages_seq db |}).

(** [UPDATE messages SET f WHERE p] *)
Definition update_messages (p : message_row -> bool)
    (f : message_row -> message_row) : sql unit :=
  fun db =>
    (tt, {| rooms := rooms db; room_members := room_members db;
            messages := List.map (fun r => if p r then f r else r) (messages db);
            messages_seq := messages_seq db |}).

(** [INSERT INTO messages (sender_id, recipient_id, room_id, message_type,
    content, delivered) VALUES (...)]: the id is the successor of the
    AUTOINCREMENT counter, [created_at] defaults to the current timestamp
    and [delivered_at] to NULL.  Returns [cursor.lastrowid].  This is the
    statement on parameters that are bound; the row shows [sender] as it
    was passed, which is what the column stores when
    [kept_by_integer_column sender] holds. *)
Definition insert_message (now : Z) (sender : pyval) (recipient : option Z)
    (room : option string) (type : string) (content : option pyval)
    (delivered : bool) : sql Z :=
  fun db =>
    let new_id := (messages_seq db + 1)%Z in
    (new_id,
     {| rooms := rooms db; room_members := room_members db;
        messages := messages db ++
          [ {| msg_id := new_id; msg_sender_id := sender;
               msg_recipient_id := recipient; msg_room_id := room;
               msg_message_type := type; msg_content := content;
               msg_delivered := delivered; msg_created_at := now;
               msg_delivered_at := None |} ];
        messages_seq := new_id |}).

(** [ORDER BY created_at ASC]: a stable sort of the selected rows, so that
    rows with equal timestamps stay in rowid order. *)
Fixpoint insert_by_created_at (r : message_row) (l : list message_row)
    : list message_row :=
  match l with
  | [] => [r]
  | x :: l' =>
      if (msg_created_at r <=? msg_created_at x)%Z then r :: l
      else x :: insert_by_created_at r l'
  end.

Fixpoint order_by_created_at (l : list message_row) : list message_row :=
  match l with
  | [] => []
  | r :: l' => insert_by_created_at r (order_by_created_at l')
  end.

(** The order in which a query answered from an integer key returns its
    rows: ascending.  ([room_members] is read through the index of its
    primary key (room_id, user_id), [connection_state] by its rowid, which
    is [user_id].) *)
Fixpoint insert_by_id (z : Z) (l : list Z) : list Z :=
  match l with
  | [] => [z]
  | x :: l' => if (z <=? x)%Z then z :: l else x :: insert_by_id z l'
  end.

Fixpoint order_by_id (l : list Z) : list Z :=
  match l with
  | [] => []
  | z :: l' => insert_by_id z (order_by_id l')
  end.

(** The same for a text key, compared byte by byte ([rooms] is read
    through the index of its primary key [room_id]). *)
Fixpoint insert_by_text (s : string) (l : list string) : list string :=
  match l with
  | [] => [s]
  | x :: l' => if String.leb s x then s :: l else x :: insert_by_text s l'
  end.

Fixpoint order_by_text (l : list string) : list string :=
  match l with
  | [] => []
  | s :: l' => insert_by_text s (order_by_text l')
  end.

(** [WHERE recipient_id = ? AND delivered = 0] *)
Definition undelivered_for (user_id : Z) (r : message_row) : bool :=
  match msg_recipient_id r with
  | Some u => (u =? user_id)%Z && negb (msg_delivered r)
  | None => false
  end.

(** [WHERE id = ?] *)
Definition has_id (message_id : Z) (r : message_row) : bool :=
  (msg_id r =? message_id)%Z.

(** [SET delivered = 1, delivered_at = CURRENT_TIMESTAMP] *)
Definition set_delivered (now : Z) (r : message_row) : message_row :=
  {| msg_id := msg_id r; msg_sender_id := msg_sender_id r;
     msg_recipient_id := msg_recipient_id r; msg_room_id := msg_room_id r;
     msg_message_type := msg_message_type r; msg_content := msg_content r;
     msg_delivered := true; msg_created_at := msg_created_at r;
     msg_delivered_at := Some now |}.

(** ** The offline queue ([messaging/offline_queue.py]) *)

Module OfflineQueue.
Local Open Scope sql_scope.

(** The dictionaries that [get_messages] returns. *)
Record queued_message : Type := mk_queued_message {
  id : Z;
  sender_id : pyval;
  content : pyval;
  created_at : Z
}.

Definition add_message (max_messages : Z) (now : Z) (user_id : Z)
    (message : pyval) (sender_id : pyval) : sql Z :=
  let* rows := select_messages (undelivered_for user_id) in
  let count := Z.of_nat (length rows) in
  let* _ :=
    if (max_messages <=? count)%Z then
      let* oldest := select_messages (undelivered_for user_id) in
      match order_by_created_at oldest with
      | [] => sql_ret tt
      | r :: _ => delete_messages (has_id (msg_id r))
      end
    else sql_ret tt in
  insert_message now sender_id (Some user_id) None "offline" (Some message) false.

Definition get_messages (user_id : Z) : sql (list queued_message) :=
  let* rows := select_messages (undelivered_for user_id) in
  sql_ret
    (List.map
       (fun row =>
          {| id := msg_id row;
             sender_id := msg_sender_id row;
             content := match msg_content row with
                        | Some v => v
                        | None => PDict []
                        end;
             created_at := msg_created_at row |})
       (order_by_created_at rows)).

Definition mark_delivered (now : Z) (message_id : Z) : sql unit :=
  update_messages (has_id message_id) (set_delivered now).

Definition get_queue_size (user_id : Z) : sql Z :=
  let* rows := select_messages (undelivered_for user_id) in
  sql_ret (Z.of_nat (length rows)).
End OfflineQueue.

(** [DELETE FROM messages WHERE p], with [cursor.rowcount]: the number of
    rows deleted. *)
Definition delete_messages_rowcount (p : message_row -> bool) : sql Z :=
  fun db => (Z.of_nat (length (List.filter p (messages db))),
             snd (delete_messages p db)).

(** ** The message store ([storage/message_store.py]) *)

Module MessageStore.
Local Open Scope sql_scope.

Record stored_message : Type := mk_stored_message {
  id : Z;
  sender_id : pyval;
  message_type : string;
  content : pyval;
  created_at : Z
}.

(** [content_json = json.dumps(content) if content else None] *)
Definition save_message (now : Z) (sender_id : pyval) (recipient_id : option Z)
    (room_id : option string) (message_type : string) (content : pyval) : sql Z :=
  let content_json := if truthy content then Some content else None in
  insert_message now sender_id recipient_id room_id message_type content_json false.

Definition get_undelivered_messages (user_id : Z) : sql (list stored_message) :=
  let* rows := select_messages (undelivered_for user_id) in
  sql_ret
    (List.map
       (fun row =>
          {| id := msg_id row;
             sender_id := msg_sender_id row;
             message_type := msg_message_type row;
             content := match msg_content row with
                        | Some v => v
                        | None => PDict []
                        end;
             created_at := msg_created_at row |})
       (order_by_created_at rows)).

Definition mark_delivered (now : Z) (message_id : Z) : sql unit :=
  update_messages (has_id message_id) (set_delivered now).

(** [DELETE FROM messages WHERE datetime(created_at) < datetime('now',
    '-' || ? || ' days')], returning [cursor.rowcount].  Timestamps count
    seconds, so the cutoff is [now - 86400 * days]; [days] is a number of
    days, not negative. *)
Definition delete_old_messages (now : Z) (days : nat) : sql Z :=
  let cutoff := (now - 86400 * Z.of_nat days)%Z in
  delete_messages_rowcount (fun r => (msg_created_at r <? cutoff)%Z).

(** [save_message] on any parameters.  [None] is the exception that
    [cursor.execute] raises when [sender_id] or [recipient_id] does not
    bind; the INSERT does not run then.  ([room_id], [message_type] and
    the JSON text of [content] are strings or [None].) *)
Definition save_message_or_raise (now : Z) (sender_id : pyval)
    (recipient_id : option Z) (room_id : option string) (message_type : string)
    (content : pyval) : sql (option Z) :=
  if binds sender_id
     && match recipient_id with
        | Some user_id => fits_int64 user_id
        | None => true
        end
  then
    let* message_id := save_message now sender_id recipient_id room_id message_type
                         content in
    sql_ret (Some message_id)
  else sql_ret None.

End MessageStore.

(** ** The room manager ([rooms/room_manager.py]) *)

(** [SELECT max_members FROM rooms WHERE room_id = ?], [fetchone()] *)
Definition select_max_members (room_id : string) : sql (option Z) :=
  fun db =>
    (match List.filter (fun r => String.eqb (room_room_id r) room_id) (rooms db) with
     | [] => None
     | r :: _ => Some (room_max_members r)
     end, db).

(** [SELECT COUNT( * ) FROM room_members WHERE room_id = ?] *)
Definition count_members (room_id : string) : sql Z :=
  fun db =>
    (Z.of_nat (length (List.filter (fun m => String.eqb (member_room_id m) room_id)
                                   (room_members db))), db).

(** [SELECT user_id FROM room_members WHERE room_id = ?], answered from
    the primary-key index: the members in ascending order. *)
Definition select_member_ids (room_id : string) : sql (list Z) :=
  fun db =>
    (order_by_id
       (List.map member_user_id
          (List.filter (fun m => String.eqb (member_room_id m) room_id)
             (room_members db))),
     db).

(** [INSERT INTO rooms ...]: [false] stands for the [IntegrityError] that the
    primary key on [room_id] raises, in which case nothing is written. *)
Definition insert_room (now : Z) (room_id room_name : string) (created_by : Z)
    (is_private : bool) (max_members : Z) : sql bool :=
  fun db =>
    if existsb (fun r => String.eqb (room_room_id r) room_id) (rooms db)
    then (false, db)
    else (true,
          {| rooms := rooms db ++
               [ {| room_room_id := room_id; room_room_name := room_name;
                    room_created_by := created_by; room_created_at := now;
                    room_is_private := is_private;
                    room_max_members := max_members |} ];
             room_members := room_members db;
             messages := messages db;
             messages_seq := messages_seq db |}).

(** [INSERT INTO room_members (room_id, user_id)]: [false] stands for the
    [IntegrityError] of the primary key on [(room_id, user_id)].  SQLite
    does not enforce the foreign key unless asked to, and the code does
    not ask. *)
Definition insert_member (now : Z) (room_id : string) (user_id : Z) : sql bool :=
  fun db =>
    if existsb (fun m => String.eqb (member_room_id m) room_id
                         && (member_user_id m =? user_id)%Z) (room_members db)
    then (false, db)
    else (true,
          {| rooms := rooms db;
             room_members := room_members db ++
               [ {| member_room_id := room_id; member_user_id := user_id;
                    member_joined_at := now |} ];
             messages := messages db;
             messages_seq := messages_seq db |}).

(** [DELETE FROM room_members WHERE room_id = ? AND user_id = ?] *)
Definition delete_member (room_id : string) (user_id : Z) : sql unit :=
  fun db =>
    (tt, {| rooms := rooms db;
            room_members :=
              List.filter (fun m => negb (String.eqb (member_room_id m) room_id
                                          && (member_user_id m =? user_id)%Z))
                          (room_members db);
            messages := messages db;
            messages_seq := messages_seq db |}).

(** [SELECT room_id FROM room_members WHERE user_id = ?] *)
Definition select_room_ids_of (user_id : Z) : sql (list string) :=
  fun db =>
    (List.map member_room_id
       (List.filter (fun m => (member_user_id m =? user_id)%Z) (room_members db)),
     db).

(** [SELECT * FROM rooms WHERE room_id = ?], [fetchone()] *)
Definition select_room (room_id : string) : sql (option room_row) :=
  fun db =>
    (match List.filter (fun r => String.eqb (room_room_id r) room_id) (rooms db) with
     | [] => None
     | r :: _ => Some r
     end, db).

(** [SELECT room_id FROM rooms], answered from the primary-key index: the
    room ids in ascending order. *)
Definition select_all_room_ids : sql (list string) :=
  fun db => (order_by_text (List.map room_room_id (rooms db)), db).

(** [DELETE FROM room_members WHERE room_id = ?] *)
Definition delete_members_of (room_id : string) : sql unit :=
  fun db =>
    (tt, {| rooms := rooms db;
            room_members :=
              List.filter (fun m => negb (String.eqb (member_room_id m) room_id))
                          (room_members db);
            messages := messages db;
            messages_seq := messages_seq db |}).

(** [DELETE FROM rooms WHERE room_id = ?] *)
Definition delete_room_row (room_id : string) : sql unit :=
  fun db =>
    (tt, {| rooms := List.filter (fun r => negb (String.eqb (room_room_id r) room_id))
                                 (rooms db);
            room_members := room_members db;
            messages := messages db;
            messages_seq := messages_seq db |}).

Module RoomManager.
Local Open Scope sql_scope.

(** The [IntegrityError] is caught and logged: the method returns nothing
    either way. *)
Definition create_room (now : Z) (room_id room_name : string) (created_by : Z)
    (is_private : bool) (max_members : Z) : sql unit :=
  let* _ := insert_room now room_id room_name created_by is_private max_members in
  sql_ret tt.

Definition join_room (now : Z) (room_id : string) (user_id : Z) : sql bool :=
  let* room := select_max_members room_id in
  match room with
  | None => sql_ret false
  | Some max_members =>
      let* current_count := count_members room_id in
      if (max_members <=? current_count)%Z then sql_ret false
      else
        let* inserted := insert_member now room_id user_id in
        if inserted then sql_ret true else sql_ret true
  end.

Definition leave_room (room_id : string) (user_id : Z) : sql unit :=
  delete_member room_id user_id.

(** [join_room] on any user id: [None] is the [OverflowError] that the
    INSERT raises for an id of more than 64 bits.  It is not the
    [IntegrityError] the method catches, and it is raised only after the
    two checks, which bind the room id alone. *)
Definition join_room_or_raise (now : Z) (room_id : string) (user_id : Z)
    : sql (option bool) :=
  let* room := select_max_members room_id in
  match room with
  | None => sql_ret (Some false)
  | Some max_members =>
      let* current_count := count_members room_id in
      if (max_members <=? current_count)%Z then sql_ret (Some false)
      else if fits_int64 user_id then
        let* inserted := insert_member now room_id user_id in
        if inserted then sql_ret (Some true) else sql_ret (Some true)
      else sql_ret None
  end.

Definition get_room_members (room_id : string) : sql (list Z) :=
  select_member_ids room_id.

(** The [member_count] field of [get_room_info], [None] for an unknown
    room. *)
Definition get_member_count (room_id : string) : sql (option Z) :=
  let* room := select_max_members room_id in
  match room with
  | None => sql_ret None
  | Some _ => let* n := count_members room_id in sql_ret (Some n)
  end.
Definition get_user_rooms (user_id : Z) : sql (list string) :=
  select_room_ids_of user_id.

(** The dictionary [get_room_info] returns. *)
Record room_view : Type := mk_room_view {
  room_id : string;
  room_name : string;
  created_by : Z;
  is_private : bool;
  max_members : Z;
  view_member_count : Z
}.

Definition get_room_info (room_id : string) : sql (option room_view) :=
  let* row := select_room room_id in
  match row with
  | Some row =>
      let* member_count := count_members room_id in
      sql_ret (Some {| room_id := room_room_id row;
                       room_name := room_room_name row;
                       created_by := room_created_by row;
                       is_private := room_is_private row;
                       max_members := room_max_members row;
                       view_member_count := member_count |})
  | None => sql_ret None
  end.

(** The loop of [list_rooms] over the selected ids. *)
Fixpoint room_infos (room_ids : list string) : sql (list room_view) :=
  match room_ids with
  | [] => sql_ret []
  | room_id :: rest =>
      let* room_info := get_room_info room_id in
      let* others := room_infos rest in
      sql_ret (match room_info with
               | Some info => info :: others
               | None => others
               end)
  end.

Definition list_rooms : sql (list room_view) :=
  let* room_ids := select_all_room_ids in
  room_infos room_ids.

End RoomManager.

(** ** The room store ([rooms/room_store.py]) *)

Module RoomStore.
Local Open Scope sql_scope.

(** [INSERT OR IGNORE INTO rooms (room_id, room_name, created_by,
    is_private)]: [max_members] takes the column default, 100, and a
    taken id is ignored. *)
Definition save_room (now : Z) (room_id room_name : string) (created_by : Z)
    (is_private : bool) : sql unit :=
  let* _ := insert_room now room_id room_name created_by is_private 100 in
  sql_ret tt.

Definition delete_room (room_id : string) : sql unit :=
  let* _ := delete_members_of room_id in
  delete_room_row room_id.

(** [dict(row)], all columns. *)
Definition get_room (room_id : string) : sql (option room_row) :=
  select_room room_id.

End RoomStore.


(** ** Connection pool ([websocket/connection_pool.py]) *)

(** [l.remove(x)]: drops the first occurrence of [x].  The callers below
    check [x in l] first, where Python would otherwise raise. *)
Fixpoint list_remove_first (x : string) (l : list string) : list string :=
  match l with
  | [] => []
  | y :: l' => if String.eqb x y then l' else y :: list_remove_first x l'
  end.

(** [x in l] *)
Definition list_mem (x : string) (l : list string) : bool :=
  existsb (String.eqb x) l.

Module ConnectionPool.

Record t : Type := mk {
  max_connections_per_user : Z;
  user_connections : gmap Z (list string)
}.

(** [ConnectionPool(max_connections_per_user)] *)
Definition init (max_connections_per_user : Z) : t :=
  {| max_connections_per_user := max_connections_per_user;
     user_connections := ∅ |}.

Definition can_add_connection (user_id : Z) (pool : t) : bool :=
  match user_connections pool !! user_id with
  | None => true
  | Some conns => (Z.of_nat (length conns) <? max_connections_per_user pool)%Z
  end.

(** Returns the flag and the pool as the call leaves it. *)
Definition add_connection (user_id : Z) (connection_id : string) (pool : t)
    : bool * t :=
  if negb (can_add_connection user_id pool) then (false, pool)
  else
    let conns := match user_connections pool !! user_id with
                 | None => []
                 | Some conns => conns
                 end in
    (true,
     {| max_connections_per_user := max_connections_per_user pool;
        user_connections :=
          <[user_id := conns ++ [connection_id]]> (user_connections pool) |}).

Definition remove_connection (user_id : Z) (connection_id : string) (pool : t) : t :=
  match user_connections pool !! user_id with
  | None => pool
  | Some conns =>
      if list_mem connection_id conns then
        match list_remove_first connection_id conns with
        | [] =>
            {| max_connections_per_user := max_connections_per_user pool;
               user_connections := delete user_id (user_connections pool) |}
        | conns' =>
            {| max_connections_per_user := max_connections_per_user pool;
               user_connections := <[user_id := conns']> (user_connections pool) |}
        end
      else pool
  end.

Definition get_user_connection_count (user_id : Z) (pool : t) : Z :=
  match user_connections pool !! user_id with
  | None => 0
  | Some conns => Z.of_nat (length conns)
  end.

End ConnectionPool.

(** ** Connection registry ([websocket/connection_manager.py]) *)

Module ConnectionManager.

Record connection_info : Type := mk_connection_info {
  connection_id : string;
  user_id : Z;
  sid : string;
  connected_at : Z;
  last_activity : Z
}.

Record t : Type := mk {
  connections : gmap string connection_info;
  user_connections : gmap Z (list string)
}.

(** [ConnectionManager()] *)
Definition init : t := {| connections := ∅; user_connections := ∅ |}.

(** [t_connected] and [t_activity] are the two readings of [time.time()]. *)
Definition add_connection (t_connected t_activity : Z) (connection_id : string)
    (user_id : Z) (sid : string) (cm : t) : t :=
  let connection_info :=
    {| connection_id := connection_id; user_id := user_id; sid := sid;
       connected_at := t_connected; last_activity := t_activity |} in
  let conns := match user_connections cm !! user_id with
               | None => []
               | Some conns => conns
               end in
  {| connections := <[connection_id := connection_info]> (connections cm);
     user_connections := <[user_id := conns ++ [connection_id]]> (user_connections cm) |}.

(** [None] is the [ValueError] of [list.remove] when the record's user does
    not list the id. *)
Definition remove_connection (connection_id : string) (cm : t) : option t :=
  match connections cm !! connection_id with
  | None => Some cm
  | Some connection_info =>
      let user_id := user_id connection_info in
      let connections' := delete connection_id (connections cm) in
      match user_connections cm !! user_id with
      | None => Some {| connections := connections';
                        user_connections := user_connections cm |}
      | Some conns =>
          if list_mem connection_id conns then
            match list_remove_first connection_id conns with
            | [] => Some {| connections := connections';
                            user_connections := delete user_id (user_connections cm) |}
            | conns' => Some {| connections := connections';
                                user_connections :=
                                  <[user_id := conns']> (user_connections cm) |}
            end
          else None
      end
  end.

Definition get_connection (connection_id : string) (cm : t) : option connection_info :=
  connections cm !! connection_id.

Definition get_user_connections (user_id : Z) (cm : t) : list string :=
  match user_connections cm !! user_id with
  | None => []
  | Some conns => conns
  end.

Definition is_user_online (user_id : Z) (cm : t) : bool :=
  match user_connections cm !! user_id with
  | None => false
  | Some conns => (0 <? Z.of_nat (length conns))%Z
  end.

Definition update_activity (now : Z) (connection_id : string) (cm : t) : t :=
  match connections cm !! connection_id with
  | None => cm
  | Some info =>
      {| connections :=
           <[connection_id :=
               {| connection_id := ConnectionManager.connection_id info;
                  user_id := user_id info; sid := sid info;
                  connected_at := connected_at info; last_activity := now |}]>
             (connections cm);
         user_connections := user_connections cm |}
  end.

(** The dictionary [get_stats] returns. *)
Record stats : Type := mk_stats {
  total_connections : nat;
  online_users : nat;
  connections_by_user : gmap Z nat
}.

Definition get_stats (cm : t) : stats :=
  {| total_connections := size (connections cm);
     online_users := size (user_connections cm);
     connections_by_user := (fun conn_ids : list string => length conn_ids)
                              <$> user_connections cm |}.

End ConnectionManager.

(** [s.replace(old, '')] for a non-empty [old]: the occurrences of [old]
    are found from left to right and do not overlap.  [skip] counts the
    characters of the occurrence just found that are still to be dropped. *)
Fixpoint remove_from (old : string) (skip : nat) (s : string) : string :=
  match s with
  | EmptyString => EmptyString
  | String c s' =>
      match skip with
      | S k => remove_from old k s'
      | O =>
          if String.prefix old s
          then remove_from old (String.length old - 1) s'
          else String c (remove_from old 0 s')
      end
  end.

Definition str_remove (old s : string) : string := remove_from old 0 s.

(** ** Message handler ([messaging/message_handler.py]) *)

Module MessageHandler.

(** The handler's only state is [message_count]; [process_message] returns
    the processed dictionary and the new count. *)
Definition process_message (now : Z) (message : pydict) (sender_id : pyval)
    (message_count : Z) : pydict * Z :=
  let message_count := (message_count + 1)%Z in
  let processed :=
    [ ("id", PInt message_count);
      ("sender_id", sender_id);
      ("content", dict_get_or "content" (PStr EmptyString) message);
      ("type", dict_get_or "type" (PStr "text") message);
      ("timestamp", PInt now) ] in
  let processed :=
    if dict_has "recipient_id" message
    then dict_set "recipient_id" (dict_get "recipient_id" message) processed
    else processed in
  let processed :=
    if dict_has "room_id" message
    then dict_set "room_id" (dict_get "room_id" message) processed
    else processed in
  (processed, message_count).

Definition valid_types : list string := ["text"; "image"; "file"; "notification"].

Definition validate_message (message : pyval) : bool :=
  match message with
  | PDict message =>
      if negb (dict_has "content" message) then false
      else if truthy (dict_get "type" message)
              && negb (py_in_strs (dict_get "type" message) valid_types)
      then false
      else true
  | _ => false
  end.
(** The dictionary is changed in place and returned. *)
Definition sanitize_message (message : pydict) : pydict :=
  match dict_get "content" message with
  | PStr content =>
      let sanitized_content := str_remove "</script>" (str_remove "<script>" content) in
      dict_set "content" (PStr sanitized_content) message
  | _ => message
  end.

End MessageHandler.

(** ** The transport

    The hub only issues emit commands; what the transport was asked to do
    is the list of these commands in order. *)

Inductive target : Type :=
  | ToCaller                 (** [emit(...)] inside an event handler *)
  | ToSession (sid : string) (** [socketio.emit(..., room=sid)] *)
  | ToAll.                   (** [socketio.emit(...)] *)

Record emission : Type := mk_emission {
  event : string;
  payload : pyval;
  to : target
}.

(** How an event handler ends: it returns, or an exception leaves it.
    Either way [issued] is what it asked of the transport until then, and
    [s] the state of the components it works on. *)
Inductive outcome (E S : Type) : Type :=
  | Returned (issued : list E) (s : S)
  | Raised (issued : list E) (s : S).
Arguments Returned {E S} issued s.
Arguments Raised {E S} issued s.

Definition state_of {E S} (o : outcome E S) : S :=
  match o with
  | Returned _ s => s
  | Raised _ s => s
  end.

Definition issued_by {E S} (o : outcome E S) : list E :=
  match o with
  | Returned issued _ => issued
  | Raised issued _ => issued
  end.

Definition has_raised {E S} (o : outcome E S) : bool :=
  match o with
  | Returned _ _ => false
  | Raised _ _ => true
  end.

(** ** Communication hub ([hub/communication_hub.py]) *)

Module CommunicationHub.
Local Open Scope sql_scope.

(** The loop over [connection_ids]: one emit per id that has a record. *)
Fixpoint emit_to_connections (cm : ConnectionManager.t) (message : pydict)
    (connection_ids : list string) : list emission :=
  match connection_ids with
  | [] => []
  | conn_id :: rest =>
      match ConnectionManager.get_connection conn_id cm with
      | Some conn_info =>
          {| event := "message"; payload := PDict message;
             to := ToSession (ConnectionManager.sid conn_info) |}
          :: emit_to_connections cm message rest
      | None => emit_to_connections cm message rest
      end
  end.

(** Returns the emits issued; the store is the state of the computation. *)
Definition send_to_user (cm : ConnectionManager.t) (now : Z) (user_id : Z)
    (message : pydict) : sql (list emission) :=
  let connection_ids := ConnectionManager.get_user_connections user_id cm in
  match connection_ids with
  | _ :: _ => sql_ret (emit_to_connections cm message connection_ids)
  | [] =>
      let* _ := MessageStore.save_message now (dict_get "sender_id" message)
                  (Some user_id) None "direct" (PDict message) in
      sql_ret []
  end.

(** [send_to_user] on any message: [None] when [save_message] raised,
    which leaves the message neither emitted nor stored. *)
Definition send_to_user_or_raise (cm : ConnectionManager.t) (now : Z) (user_id : Z)
    (message : pydict) : sql (option (list emission)) :=
  let connection_ids := ConnectionManager.get_user_connections user_id cm in
  match connection_ids with
  | _ :: _ => sql_ret (Some (emit_to_connections cm message connection_ids))
  | [] =>
      let* saved := MessageStore.save_message_or_raise now
                      (dict_get "sender_id" message) (Some user_id) None "direct"
                      (PDict message) in
      match saved with
      | Some _ => sql_ret (Some [])
      | None => sql_ret None
      end
  end.

(** The same loop for a payload of any JSON type. *)
Fixpoint emit_value_to_connections (cm : ConnectionManager.t) (message : pyval)
    (connection_ids : list string) : list emission :=
  match connection_ids with
  | [] => []
  | conn_id :: rest =>
      match ConnectionManager.get_connection conn_id cm with
      | Some conn_info =>
          {| event := "message"; payload := message;
             to := ToSession (ConnectionManager.sid conn_info) |}
          :: emit_value_to_connections cm message rest
      | None => emit_value_to_connections cm message rest
      end
  end.

(** [send_to_user] on a stored content, which need not be a dictionary:
    the source calls [message.get] only on the offline branch, where a
    content of another type raises [AttributeError] ([None]). *)
Definition send_content_to_user (cm : ConnectionManager.t) (now : Z) (user_id : Z)
    (content : pyval) : sql (option (list emission)) :=
  match content with
  | PDict message =>
      let* emitted := send_to_user cm now user_id message in
      sql_ret (Some emitted)
  | _ =>
      match ConnectionManager.get_user_connections user_id cm with
      | _ :: _ =>
          sql_ret (Some (emit_value_to_connections cm content
                           (ConnectionManager.get_user_connections user_id cm)))
      | [] => sql_ret None
      end
  end.

(** [socketio.emit('broadcast', message)] *)
Definition broadcast_all (message : pydict) : list emission :=
  [ {| event := "broadcast"; payload := PDict message; to := ToAll |} ].

(** The emit goes to the transport group named by the [room=] argument,
    here the room id; then the message is saved to the room's history. *)
Definition send_to_room (now : Z) (room_id : string) (message : pydict)
    : sql (list emission) :=
  let* _ := MessageStore.save_message now (dict_get "sender_id" message)
              None (Some room_id) "room" (PDict message) in
  sql_ret [ {| event := "room_message"; payload := PDict message;
               to := ToSession room_id |} ].

(** [send_to_room] on any message: the emit comes first, so that it has
    been issued also when [save_message] then raises. *)
Definition send_to_room_or_raise (now : Z) (room_id : string) (message : pydict)
    : sql (outcome emission unit) :=
  let emitted := [ {| event := "room_message"; payload := PDict message;
                      to := ToSession room_id |} ] in
  let* saved := MessageStore.save_message_or_raise now
                  (dict_get "sender_id" message) None (Some room_id) "room"
                  (PDict message) in
  match saved with
  | Some _ => sql_ret (Returned emitted tt)
  | None => sql_ret (Raised emitted tt)
  end.

(** The loop of [deliver_queued_messages] over the messages read at its
    start.  The [k]-th clock reading of the run is [clock k]: a message
    takes one for the save of [send_to_user] and one for [mark_delivered].
    [None] when [send_to_user] raised; the messages before are then
    delivered and marked, the others untouched. *)
Fixpoint deliver_each (cm : ConnectionManager.t) (clock : nat -> Z) (k : nat)
    (user_id : Z) (msgs : list MessageStore.stored_message)
    : sql (option (list emission)) :=
  match msgs with
  | [] => sql_ret (Some [])
  | msg :: rest =>
      let* sent := send_content_to_user cm (clock k) user_id
                     (MessageStore.content msg) in
      match sent with
      | None => sql_ret None
      | Some emitted =>
          let* _ := MessageStore.mark_delivered (clock (S k)) (MessageStore.id msg) in
          let* later := deliver_each cm clock (S (S k)) user_id rest in
          sql_ret (option_map (fun l => emitted ++ l) later)
      end
  end.

Definition deliver_queued_messages (cm : ConnectionManager.t) (clock : nat -> Z)
    (user_id : Z) : sql (option (list emission)) :=
  let* messages := MessageStore.get_undelivered_messages user_id in
  deliver_each cm clock 0 user_id messages.

End CommunicationHub.

(** ** The [message] event handler ([api/app.py]) *)

Module App.
Local Open Scope sql_scope.

(** A recipient id as a key of the registry: [True == 1] and [False == 0]
    in Python.  [None] for the values this model has no user id for (a
    string would be used as it is by the source; a list or a dictionary
    is unhashable). *)
Definition as_user_id (v : pyval) : option Z :=
  match v with
  | PInt z => Some z
  | PBool b => Some (if b then 1 else 0)%Z
  | _ => None
  end.

(** The state the handler touches: the handler's counter and the database
    (the registry is only read).  The handler raises when [send_to_user]
    does, after the message was processed and before [message_sent]: at
    the registry lookup for a recipient id that is unhashable, at
    [save_message] for ids that do not bind.  The result is [None] only
    for a recipient id that is a non-empty string, for which this model
    has no user id (see [as_user_id]). *)
Definition handle_message (cm : ConnectionManager.t) (now : Z) (data : pydict)
    (message_count : Z) : sql (option (outcome emission Z)) :=
  let sender_id := dict_get "sender_id" data in
  let recipient_id := dict_get "recipient_id" data in
  let content := dict_get "content" data in
  if negb (truthy sender_id) || negb (truthy content) then
    sql_ret (Some (Returned
                     [ {| event := "error";
                          payload := PDict [("message",
                                             PStr "sender_id and content required")];
                          to := ToCaller |} ] message_count))
  else
    let (message, message_count') :=
      MessageHandler.process_message now data sender_id message_count in
    let sent :=
      {| event := "message_sent";
         payload := PDict [("status", PStr "success");
                           ("message_id", dict_get "id" message)];
         to := ToCaller |} in
    if truthy recipient_id then
      match as_user_id recipient_id with
      | Some user_id =>
          let* sending := CommunicationHub.send_to_user_or_raise cm now user_id
                            message in
          match sending with
          | Some emitted => sql_ret (Some (Returned (emitted ++ [sent]) message_count'))
          | None => sql_ret (Some (Raised [] message_count'))
          end
      | None =>
          if unhashable recipient_id then sql_ret (Some (Raised [] message_count'))
          else sql_ret None
      end
    else sql_ret (Some (Returned [sent] message_count')).

End App.

(** ** Vocabulary of the properties *)

(** The rows [get_messages] and [get_queue_size] select. *)
Definition undelivered_rows (user_id : Z) (db : Database) : list message_row :=
  List.filter (undelivered_for user_id) (messages db).

(** Not younger than: the order of [ORDER BY created_at ASC]. *)
Definition created_le (a b : message_row) : Prop :=
  (msg_created_at a <= msg_created_at b)%Z.

(** The oldest undelivered row of a recipient: the row the eviction
    subquery [ORDER BY created_at ASC LIMIT 1] selects. *)
Definition oldest_undelivered (user_id : Z) (db : Database) : option message_row :=
  match order_by_created_at (undelivered_rows user_id db) with
  | [] => None
  | r :: _ => Some r
  end.

(** Running the same method [n] times in a row, keeping every result. *)
Fixpoint repeat_sql {A} (n : nat) (c : sql A) : sql (list A) :=
  match n with
  | O => sql_ret []
  | S n' => (let* a := c in let* rest := repeat_sql n' c in sql_ret (a :: rest))%sql
  end.

(** [for msg in messages: queue.mark_delivered(msg['id'])]; the [k]-th call
    of the run reads the timestamp [clock k]. *)
Fixpoint mark_all (clock : nat -> Z) (k : nat) (ids : list Z) : sql unit :=
  match ids with
  | [] => sql_ret tt
  | message_id :: rest =>
      (let* _ := OfflineQueue.mark_delivered (clock k) message_id in
       mark_all clock (S k) rest)%sql
  end.

(** Drain a recipient's queue, then mark every returned message delivered. *)
Definition drain_and_mark (clock : nat -> Z) (user_id : Z)
    : sql (list OfflineQueue.queued_message) :=
  (let* drained := OfflineQueue.get_messages user_id in
   let* _ := mark_all clock 0 (List.map OfflineQueue.id drained) in
   sql_ret drained)%sql.

(** The calls a client can make on an [OfflineQueue]. *)
Inductive queue_op : Type :=
  | AddMessage (now : Z) (user_id : Z) (message : pyval) (sender_id : pyval)
  | GetMessages (user_id : Z)
  | MarkDelivered (now : Z) (message_id : Z)
  | GetQueueSize (user_id : Z).

(** One call on a queue built with [max_messages], results dropped. *)
Definition run_queue_op (max_messages : Z) (op : queue_op) (db : Database) : Database :=
  match op with
  | AddMessage now user_id message sender_id =>
      db_after (OfflineQueue.add_message max_messages now user_id message sender_id) db
  | GetMessages user_id => db_after (OfflineQueue.get_messages user_id) db
  | MarkDelivered now message_id =>
      db_after (OfflineQueue.mark_delivered now message_id) db
  | GetQueueSize user_id => db_after (OfflineQueue.get_queue_size user_id) db
  end.

Definition run_queue_ops (max_messages : Z) (ops : list queue_op) (db : Database)
    : Database :=
  fold_left (fun db op => run_queue_op max_messages op db) ops db.

(** Every method of the code that reads or writes the [messages] table:
    those of the queue, and those of the message store, through which the
    hub writes. *)
Inductive message_op : Type :=
  | OfQueue (op : queue_op)
  | SaveMessage (now : Z) (sender_id : pyval) (recipient_id : option Z)
      (room_id : option string) (message_type : string) (content : pyval)
  | GetUndeliveredMessages (user_id : Z)
  | StoreMarkDelivered (now : Z) (message_id : Z)
  | DeleteOldMessages (now : Z) (days : nat).

Definition run_message_op (max_messages : Z) (op : message_op) (db : Database)
    : Database :=
  match op with
  | OfQueue op => run_queue_op max_messages op db
  | SaveMessage now sender_id recipient_id room_id message_type content =>
      db_after (MessageStore.save_message now sender_id recipient_id room_id
                  message_type content) db
  | GetUndeliveredMessages user_id =>
      db_after (MessageStore.get_undelivered_messages user_id) db
  | StoreMarkDelivered now message_id =>
      db_after (MessageStore.mark_delivered now message_id) db
  | DeleteOldMessages now days =>
      db_after (MessageStore.delete_old_messages now days) db
  end.

(** What [get_queue_size] answers. *)
Definition queue_size (user_id : Z) (db : Database) : Z :=
  result_of (OfflineQueue.get_queue_size user_id) db.

(** Message ids are pairwise distinct and were all handed out by the
    AUTOINCREMENT counter. *)
Definition ids_ok (db : Database) : Prop :=
  List.NoDup (List.map msg_id (messages db))
  /\ List.Forall (fun r => (msg_id r <= messages_seq db)%Z) (messages db).

(** The row that [add_message] inserts. *)
Definition offline_row (new_id now user_id : Z) (message sender_id : pyval) : message_row :=
  {| msg_id := new_id; msg_sender_id := sender_id;
     msg_recipient_id := Some user_id; msg_room_id := None;
     msg_message_type := "offline"; msg_content := Some message;
     msg_delivered := false; msg_created_at := now;
     msg_delivered_at := None |}.

(** [WHERE NOT (id = ?)]: the rows a [DELETE ... WHERE id = ?] keeps. *)
Definition without_id (message_id : Z) (l : list message_row) : list message_row :=
  List.filter (fun r => negb (has_id message_id r)) l.

(** What the room manager reads: a room's [max_members] ([None] for an
    unknown room), its member count, and whether a user is a member. *)
Definition room_capacity (room_id : string) (db : Database) : option Z :=
  result_of (select_max_members room_id) db.

Definition member_count (room_id : string) (db : Database) : Z :=
  result_of (count_members room_id) db.

Definition is_member (room_id : string) (user_id : Z) (db : Database) : bool :=
  existsb (fun m => String.eqb (member_room_id m) room_id
                    && (member_user_id m =? user_id)%Z) (room_members db).

(** The calls a client can make on a [RoomManager] that change the room
    directory. *)
Inductive room_op : Type :=
  | CreateRoom (now : Z) (room_id room_name : string) (created_by : Z)
      (is_private : bool) (max_members : Z)
  | JoinRoom (now : Z) (room_id : string) (user_id : Z)
  | LeaveRoom (room_id : string) (user_id : Z).

Definition run_room_op (op : room_op) (db : Database) : Database :=
  match op with
  | CreateRoom now room_id room_name created_by is_private max_members =>
      db_after (RoomManager.create_room now room_id room_name created_by
                  is_private max_members) db
  | JoinRoom now room_id user_id => db_after (RoomManager.join_room now room_id user_id) db
  | LeaveRoom room_id user_id => db_after (RoomManager.leave_room room_id user_id) db
  end.

Definition run_room_ops (ops : list room_op) (db : Database) : Database :=
  fold_left (fun db op => run_room_op op db) ops db.

(** The database after a membership row was appended. *)
Definition with_member (now : Z) (room_id : string) (user_id : Z) (db : Database)
    : Database :=
  {| rooms := rooms db;
     room_members := room_members db ++
       [ {| member_room_id := room_id; member_user_id := user_id;
            member_joined_at := now |} ];
     messages := messages db;
     messages_seq := messages_seq db |}.

(** The database after a room row was appended. *)
Definition with_room (now : Z) (room_id room_name : string) (created_by : Z)
    (is_private : bool) (max_members : Z) (db : Database) : Database :=
  {| rooms := rooms db ++
       [ {| room_room_id := room_id; room_room_name := room_name;
            room_created_by := created_by; room_created_at := now;
            room_is_private := is_private; room_max_members := max_members |} ];
     room_members := room_members db;
     messages := messages db;
     messages_seq := messages_seq db |}.

(** Every membership row names a known room, and no room with a
    non-negative capacity holds more members than its capacity. *)
Definition rooms_ok (db : Database) : Prop :=
  (forall m, In m (room_members db) -> room_capacity (member_room_id m) db <> None)
  /\ (forall room_id max_members,
        room_capacity room_id db = Some max_members ->
        (0 <= max_members)%Z -> (member_count room_id db <= max_members)%Z).

(** The calls a client can make on a [ConnectionPool]. *)
Inductive pool_op : Type :=
  | PoolAdd (user_id : Z) (connection_id : string)
  | PoolRemove (user_id : Z) (connection_id : string).

Definition run_pool_op (op : pool_op) (pool : ConnectionPool.t) : ConnectionPool.t :=
  match op with
  | PoolAdd user_id connection_id =>
      snd (ConnectionPool.add_connection user_id connection_id pool)
  | PoolRemove user_id connection_id =>
      ConnectionPool.remove_connection user_id connection_id pool
  end.

Definition run_pool_ops (ops : list pool_op) (pool : ConnectionPool.t)
    : ConnectionPool.t :=
  fold_left (fun pool op => run_pool_op op pool) ops pool.

(** [self.user_connections.get(user_id, [])] of the pool. *)
Definition pool_connections (user_id : Z) (pool : ConnectionPool.t) : list string :=
  match ConnectionPool.user_connections pool !! user_id with
  | None => []
  | Some conns => conns
  end.

(** Every connection id a user lists has a record in the registry. *)
Definition listed_have_records (cm : ConnectionManager.t) : Prop :=
  forall user_id conn_id,
    In conn_id (ConnectionManager.get_user_connections user_id cm) ->
    ConnectionManager.get_connection conn_id cm <> None.

(** The registries built from the empty one by registering connections
    under ids that are not in use and by removing connections. *)
Inductive built_with_fresh_ids : ConnectionManager.t -> Prop :=
  | built_init : built_with_fresh_ids ConnectionManager.init
  | built_add cm t_connected t_activity connection_id user_id sid :
      built_with_fresh_ids cm ->
      ConnectionManager.get_connection connection_id cm = None ->
      built_with_fresh_ids
        (ConnectionManager.add_connection t_connected t_activity
           connection_id user_id sid cm)
  | built_remove cm connection_id cm' :
      built_with_fresh_ids cm ->
      ConnectionManager.remove_connection connection_id cm = Some cm' ->
      built_with_fresh_ids cm'.

(** The row that [send_to_user] saves for an offline recipient. *)
Definition direct_row (new_id now user_id : Z) (message : pydict) : message_row :=
  {| msg_id := new_id; msg_sender_id := dict_get "sender_id" message;
     msg_recipient_id := Some user_id; msg_room_id := None;
     msg_message_type := "direct";
     msg_content := if truthy (PDict message) then Some (PDict message) else None;
     msg_delivered := false; msg_created_at := now;
     msg_delivered_at := None |}.

(** Two rows that agree in every column but [sender_id]. *)
Definition same_but_sender (r r' : message_row) : Prop :=
  msg_id r = msg_id r'
  /\ msg_recipient_id r = msg_recipient_id r'
  /\ msg_room_id r = msg_room_id r'
  /\ msg_message_type r = msg_message_type r'
  /\ msg_content r = msg_content r'
  /\ msg_delivered r = msg_delivered r'
  /\ msg_created_at r = msg_created_at r'
  /\ msg_delivered_at r = msg_delivered_at r'.

(** The emit that carries [message] to one connection. *)
Definition message_emit (message : pydict) (conn_info : ConnectionManager.connection_info)
    : emission :=
  {| event := "message"; payload := PDict message;
     to := ToSession (ConnectionManager.sid conn_info) |}.

(** The invariant of a registry built with fresh ids: a listed id has a
    record, the record names the user that lists it, and no list repeats
    an id. *)
Definition registry_ok (cm : ConnectionManager.t) : Prop :=
  (forall u c, In c (ConnectionManager.get_user_connections u cm) ->
     exists info, ConnectionManager.get_connection c cm = Some info
                  /\ ConnectionManager.user_id info = u)
  /\ (forall u, List.NoDup (ConnectionManager.get_user_connections u cm)).

(** The emit with which [handle_message] turns a message down. *)
Definition error_emit : emission :=
  {| event := "error";
     payload := PDict [("message", PStr "sender_id and content required")];
     to := ToCaller |}.

(** ** Vocabulary of the further properties *)

(** The registries any sequence of [add_connection] and [remove_connection]
    calls can build, connection ids reused or not. *)
Inductive built_by_calls : ConnectionManager.t -> Prop :=
  | calls_init : built_by_calls ConnectionManager.init
  | calls_add cm t_connected t_activity connection_id user_id sid :
      built_by_calls cm ->
      built_by_calls
        (ConnectionManager.add_connection t_connected t_activity
           connection_id user_id sid cm)
  | calls_remove cm connection_id cm' :
      built_by_calls cm ->
      ConnectionManager.remove_connection connection_id cm = Some cm' ->
      built_by_calls cm'.

(** The sum of the per-user counts of [get_stats]. *)
Definition sum_of_counts (counts : gmap Z nat) : nat :=
  map_fold (fun _ n acc => (n + acc)%nat) 0%nat counts.

(** ** Message router ([hub/message_router.py]) *)

(** [v == s] for a string literal [s]. *)
Definition py_eq_str (v : pyval) (s : string) : bool :=
  match v with
  | PStr s' => String.eqb s' s
  | _ => false
  end.

Module MessageRouter.
Local Open Scope sql_scope.

(** [None] when the recipient id is not an integer or the room id is not a
    string, which the model has no identifier for (see [App.as_user_id]). *)
Definition route_message (cm : ConnectionManager.t) (now : Z) (message : pydict)
    : sql (option (list emission)) :=
  let message_type := dict_get "type" message in
  if py_eq_str message_type "direct" then
    let recipient_id := dict_get "recipient_id" message in
    if truthy recipient_id then
      match App.as_user_id recipient_id with
      | Some user_id =>
          let* emitted := CommunicationHub.send_to_user cm now user_id message in
          sql_ret (Some emitted)
      | None => sql_ret None
      end
    else sql_ret (Some [])
  else if py_eq_str message_type "room" then
    let room_id := dict_get "room_id" message in
    if truthy room_id then
      match room_id with
      | PStr room =>
          let* emitted := CommunicationHub.send_to_room now room message in
          sql_ret (Some emitted)
      | _ => sql_ret None
      end
    else sql_ret (Some [])
  else if py_eq_str message_type "broadcast" then
    sql_ret (Some (CommunicationHub.broadcast_all message))
  else sql_ret (Some []).

End MessageRouter.

(** The row that [send_to_room] saves. *)
Definition room_history_row (new_id now : Z) (room_id : string) (message : pydict)
    : message_row :=
  {| msg_id := new_id; msg_sender_id := dict_get "sender_id" message;
     msg_recipient_id := None; msg_room_id := Some room_id;
     msg_message_type := "room";
     msg_content := if truthy (PDict message) then Some (PDict message) else None;
     msg_delivered := false; msg_created_at := now;
     msg_delivered_at := None |}.

(** [n] direct messages in a row to the same recipient, the [k]-th at the
    clock reading [clock k]; the emits of all of them. *)
Fixpoint send_many (cm : ConnectionManager.t) (clock : nat -> Z) (k : nat)
    (user_id : Z) (msgs : list pydict) : sql (list emission) :=
  match msgs with
  | [] => sql_ret []
  | message :: rest =>
      (let* emitted := CommunicationHub.send_to_user cm (clock k) user_id message in
       let* later := send_many cm clock (S k) user_id rest in
       sql_ret (emitted ++ later))%sql
  end.

(** The number of [add_message] calls in a run. *)
Fixpoint count_adds (ops : list queue_op) : Z :=
  match ops with
  | [] => 0
  | AddMessage _ _ _ _ :: rest => 1 + count_adds rest
  | _ :: rest => count_adds rest
  end.

(** Every [add_message] of the run reads a timestamp later than [t] and
    later than the ones before it: no two enqueues fall into the same
    second, and the clock is never set back. *)
Fixpoint adds_after (t : Z) (ops : list queue_op) : Prop :=
  match ops with
  | [] => True
  | AddMessage now _ _ _ :: rest => (t < now)%Z /\ adds_after now rest
  | _ :: rest => adds_after t rest
  end.

(** Older and with a smaller id. *)
Definition before (a b : message_row) : Prop :=
  (msg_created_at a < msg_created_at b)%Z /\ (msg_id a < msg_id b)%Z.

(** The dictionary [get_messages] builds from a row. *)
Definition queued_of_row (row : message_row) : OfflineQueue.queued_message :=
  {| OfflineQueue.id := msg_id row;
     OfflineQueue.sender_id := msg_sender_id row;
     OfflineQueue.content := match msg_content row with
                             | Some v => v
                             | None => PDict []
                             end;
     OfflineQueue.created_at := msg_created_at row |}.

(** The dictionary [get_undelivered_messages] builds from a row. *)
Definition stored_of_row (row : message_row) : MessageStore.stored_message :=
  {| MessageStore.id := msg_id row;
     MessageStore.sender_id := msg_sender_id row;
     MessageStore.message_type := msg_message_type row;
     MessageStore.content := match msg_content row with
                             | Some v => v
                             | None => PDict []
                             end;
     MessageStore.created_at := msg_created_at row |}.

(** The table lists its rows from old to new, by timestamp and by id alike,
    and no row is younger than [t] or has an id the counter has not
    reached. *)
Definition rows_in_order (t : Z) (db : Database) : Prop :=
  StronglySorted before (messages db)
  /\ List.Forall (fun r => (msg_created_at r <= t)%Z /\ (msg_id r <= messages_seq db)%Z)
       (messages db).

(** The primary key of a membership row. *)
Definition member_key (m : member_row) : string * Z :=
  (member_room_id m, member_user_id m).

(** What the room directory keeps besides [rooms_ok]: no membership pair
    is stored twice, and a room of negative capacity has no member. *)
Definition members_ok (db : Database) : Prop :=
  rooms_ok db
  /\ List.NoDup (List.map member_key (room_members db))
  /\ (forall room_id max_members,
        room_capacity room_id db = Some max_members ->
        (max_members < 0)%Z -> member_count room_id db = 0%Z).

(** ** The presence store ([websocket/connection_state.py])

    The methods touch the [connection_state] table only; the table is the
    list of its rows.  [user_id] is the rowid of the table, and a query
    returns the rows in rowid order. *)

Module ConnectionState.

Definition STATE_ONLINE : string := "online".
Definition STATE_OFFLINE : string := "offline".
Definition STATE_AWAY : string := "away".

(** [connection_state(user_id PK, state, last_seen, updated_at)] *)
Record state_row : Type := mk_state_row {
  user_id : Z;
  state : string;
  last_seen : Z;
  updated_at : Z
}.

(** [INSERT OR REPLACE]: the row of the same user, if any, is deleted and
    the new row inserted.  [last_seen] is the reading of [time.time()],
    [now] that of [CURRENT_TIMESTAMP]. *)
Definition set_state (last_seen now : Z) (user_id : Z) (state : string)
    (table : list state_row) : list state_row :=
  List.filter (fun r => negb (ConnectionState.user_id r =? user_id)%Z) table
  ++ [ {| user_id := user_id; state := state; last_seen := last_seen;
          updated_at := now |} ].

(** The dictionary [{'state': ..., 'last_seen': ...}], or [None]. *)
Definition get_state (user_id : Z) (table : list state_row) : option (string * Z) :=
  match List.filter (fun r => (ConnectionState.user_id r =? user_id)%Z) table with
  | [] => None
  | row :: _ => Some (state row, last_seen row)
  end.



(** [set_state] on any user id: [None] is the [OverflowError] that
    [cursor.execute] raises for an id of more than 64 bits; the table
    stays as it is then. *)
Definition set_state_or_raise (last_seen now : Z) (user_id : Z) (state : string)
    (table : list state_row) : option (list state_row) :=
  if fits_int64 user_id then Some (set_state last_seen now user_id state table)
  else None.

End ConnectionState.




(** ** The in-memory queue ([messaging/message_queue.py]) *)

Module MessageQueue.

(** [max_size] is the [maxlen] of every deque, a length; [queues] is the
    [defaultdict]: reading a missing key stores an empty deque there. *)
Record t : Type := mk {
  max_size : nat;
  queues : gmap Z (list pyval)
}.

Definition init (max_size : nat) : t := {| max_size := max_size; queues := ∅ |}.

(** [self.queues[user_id]], the deque of the user after the access. *)
Definition deque_of (user_id : Z) (q : t) : list pyval :=
  match queues q !! user_id with
  | Some d => d
  | None => []
  end.

(** [deque.append] on a deque of bounded length: a full deque drops its
    leftmost item, and a deque of length 0 keeps nothing. *)
Definition deque_append (maxlen : nat) (d : list pyval) (x : pyval) : list pyval :=
  match maxlen with
  | O => d
  | S _ => if (maxlen <=? length d)%nat then List.tl d ++ [x] else d ++ [x]
  end.

Definition enqueue (user_id : Z) (message : pyval) (q : t) : t :=
  {| max_size := max_size q;
     queues := <[user_id := deque_append (max_size q) (deque_of user_id q) message]>
                 (queues q) |}.

Definition dequeue (user_id : Z) (q : t) : option pyval * t :=
  match deque_of user_id q with
  | x :: rest =>
      (Some x, {| max_size := max_size q; queues := <[user_id := rest]> (queues q) |})
  | [] =>
      (None, {| max_size := max_size q; queues := <[user_id := []]> (queues q) |})
  end.

Definition dequeue_all (user_id : Z) (q : t) : list pyval * t :=
  (deque_of user_id q,
   {| max_size := max_size q; queues := <[user_id := []]> (queues q) |}).

Definition get_queue_size (user_id : Z) (q : t) : nat * t :=
  (length (deque_of user_id q),
   {| max_size := max_size q;
      queues := <[user_id := deque_of user_id q]> (queues q) |}).

Definition clear_queue (user_id : Z) (q : t) : t :=
  {| max_size := max_size q; queues := <[user_id := []]> (queues q) |}.

End MessageQueue.

(** The calls a client can make on a [MessageQueue]. *)
Inductive memory_queue_op : Type :=
  | Enqueue (user_id : Z) (message : pyval)
  | Dequeue (user_id : Z)
  | DequeueAll (user_id : Z)
  | QueueSize (user_id : Z)
  | ClearQueue (user_id : Z).

Definition run_memory_queue_op (op : memory_queue_op) (q : MessageQueue.t)
    : MessageQueue.t :=
  match op with
  | Enqueue user_id message => MessageQueue.enqueue user_id message q
  | Dequeue user_id => snd (MessageQueue.dequeue user_id q)
  | DequeueAll user_id => snd (MessageQueue.dequeue_all user_id q)
  | QueueSize user_id => snd (MessageQueue.get_queue_size user_id q)
  | ClearQueue user_id => MessageQueue.clear_queue user_id q
  end.

Definition run_memory_queue_ops (ops : list memory_queue_op) (q : MessageQueue.t)
    : MessageQueue.t :=
  fold_left (fun q op => run_memory_queue_op op q) ops q.

(** Enqueue a list of messages for one user, first to last. *)
Definition enqueue_all (user_id : Z) (msgs : list pyval) (q : MessageQueue.t)
    : MessageQueue.t :=
  fold_left (fun q m => MessageQueue.enqueue user_id m q) msgs q.

(** The [n] last items of a list. *)
Definition last_n {A} (n : nat) (l : list A) : list A :=
  skipn (length l - n) l.


(** ** Vocabulary for queued delivery to a user without connections *)




(** ** The [register], [disconnect] and [join_room] event handlers ([api/app.py])

    The module-level components the handlers share.  A Python dictionary
    keeps its keys in insertion order, which the map of the registry does
    not: [connection_order] is the key order of
    [connection_manager.connections], kept as the source's dictionary
    keeps it (a new key goes to the end, an overwritten key stays where it
    is, a deleted key is removed). *)

Module Server.
Local Open Scope sql_scope.

Record t : Type := mk {
  connection_manager : ConnectionManager.t;
  connection_order : list string;
  connection_pool : ConnectionPool.t;
  connection_state : list ConnectionState.state_row
}.

(** The components as [api/app.py] creates them: registry and pool are
    new, the [connection_state] table is the one the database file holds
    when the application starts. *)
Definition init (presence : list ConnectionState.state_row) : t :=
  {| connection_manager := ConnectionManager.init;
     connection_order := [];
     connection_pool := ConnectionPool.init 5;
     connection_state := presence |}.

(** [emit('error', {'message': text})] *)
Definition error (text : string) : emission :=
  {| event := "error"; payload := PDict [("message", PStr text)]; to := ToCaller |}.

(** Key order after [connections[connection_id] = ...]. *)
Definition order_set (connection_id : string) (order : list string) : list string :=
  if list_mem connection_id order then order else order ++ [connection_id].

(** [register]: [connection_id] is the [uuid4] string drawn, [request_sid]
    the session id of the calling socket.  The clock readings, in order:
    two for the record of [add_connection], two for [set_state], the
    others for [deliver_queued_messages].  When [set_state] raises, the
    registry and the pool have taken the connection already.  The result
    is [None] when the user id is outside the model (see
    [App.as_user_id]). *)
Definition handle_register (clock : nat -> Z) (connection_id request_sid : string)
    (data : pydict) (s : t) : sql (option (outcome emission t)) :=
  let user_id := dict_get "user_id" data in
  if negb (truthy user_id) then sql_ret (Some (Returned [error "user_id required"] s))
  else
    match App.as_user_id user_id with
    | None => sql_ret None
    | Some uid =>
        if negb (ConnectionPool.can_add_connection uid (connection_pool s))
        then sql_ret (Some (Returned [error "Connection limit reached"] s))
        else
          let cm := ConnectionManager.add_connection (clock 0%nat) (clock 1%nat)
                      connection_id uid request_sid (connection_manager s) in
          let pool := snd (ConnectionPool.add_connection uid connection_id
                             (connection_pool s)) in
          let order := order_set connection_id (connection_order s) in
          match ConnectionState.set_state_or_raise (clock 2%nat) (clock 3%nat) uid
                  ConnectionState.STATE_ONLINE (connection_state s) with
          | None =>
              sql_ret (Some (Raised []
                               {| connection_manager := cm;
                                  connection_order := order;
                                  connection_pool := pool;
                                  connection_state := connection_state s |}))
          | Some presence =>
              let s' := {| connection_manager := cm;
                           connection_order := order;
                           connection_pool := pool;
                           connection_state := presence |} in
              let* delivered := CommunicationHub.deliver_queued_messages cm
                                  (fun k => clock (4 + k)%nat) uid in
              match delivered with
              | None => sql_ret (Some (Raised [] s'))
              | Some emitted =>
                  sql_ret
                    (Some (Returned
                             (emitted ++
                              [ {| event := "registered";
                                   payload :=
                                     PDict [("connection_id", PStr connection_id);
                                            ("user_id", user_id);
                                            ("message",
                                             PStr "Registered successfully")];
                                   to := ToCaller |} ])
                             s'))
              end
          end
    end.

(** The loop of [handle_disconnect]: the first record, in key order, whose
    [sid] is the one of the closing socket. *)
Fixpoint first_with_sid (cm : ConnectionManager.t) (request_sid : string)
    (order : list string) : option (string * ConnectionManager.connection_info) :=
  match order with
  | [] => None
  | conn_id :: rest =>
      match ConnectionManager.get_connection conn_id cm with
      | Some conn_info =>
          if String.eqb (ConnectionManager.sid conn_info) request_sid
          then Some (conn_id, conn_info)
          else first_with_sid cm request_sid rest
      | None => first_with_sid cm request_sid rest
      end
  end.

(** [disconnect]; the clock readings are those of [set_state].  The
    handler emits nothing.  It raises when [remove_connection] does (the
    record is deleted by then, the user's list is not touched) or when
    [set_state] does (registry and pool are updated by then). *)
Definition handle_disconnect (clock : nat -> Z) (request_sid : string) (s : t)
    : outcome emission t :=
  match first_with_sid (connection_manager s) request_sid (connection_order s) with
  | None => Returned [] s
  | Some (conn_id, conn_info) =>
      let user_id := ConnectionManager.user_id conn_info in
      let order := list_remove_first conn_id (connection_order s) in
      match ConnectionManager.remove_connection conn_id (connection_manager s) with
      | None =>
          Raised []
            {| connection_manager :=
                 {| ConnectionManager.connections :=
                      delete conn_id
                        (ConnectionManager.connections (connection_manager s));
                    ConnectionManager.user_connections :=
                      ConnectionManager.user_connections (connection_manager s) |};
               connection_order := order;
               connection_pool := connection_pool s;
               connection_state := connection_state s |}
      | Some cm =>
          let pool := ConnectionPool.remove_connection user_id conn_id
                        (connection_pool s) in
          if negb (ConnectionManager.is_user_online user_id cm) then
            match ConnectionState.set_state_or_raise (clock 0%nat) (clock 1%nat)
                    user_id ConnectionState.STATE_OFFLINE (connection_state s) with
            | Some presence =>
                Returned [] {| connection_manager := cm;
                               connection_order := order;
                               connection_pool := pool;
                               connection_state := presence |}
            | None =>
                Raised [] {| connection_manager := cm;
                             connection_order := order;
                             connection_pool := pool;
                             connection_state := connection_state s |}
            end
          else
            Returned [] {| connection_manager := cm;
                           connection_order := order;
                           connection_pool := pool;
                           connection_state := connection_state s |}
      end
  end.

(** What the [join_room] handler asks of the transport: emits, also with
    [skip_sid], and [join_room] of [flask_socketio] for the calling
    socket. *)
Inductive command : Type :=
  | Emit (e : emission)
  | EmitSkipping (e : emission) (skip_sid : string)
  | JoinTransportRoom (room_id : string).

(** A room id as the room manager has it; [None] for the values this
    model has no room id for. *)
Definition as_room_id (v : pyval) : option string :=
  match v with
  | PStr s => Some s
  | _ => None
  end.

(** [join_room]: the commands issued (the handler works on the database
    alone); it raises, with nothing issued, when the room manager's
    [join_room] does.  [None] when an id is outside the model. *)
Definition handle_join_room (now : Z) (request_sid : string) (data : pydict)
    : sql (option (outcome command unit)) :=
  let room_id := dict_get "room_id" data in
  let user_id := dict_get "user_id" data in
  if negb (truthy room_id) || negb (truthy user_id)
  then sql_ret (Some (Returned [Emit (error "room_id and user_id required")] tt))
  else
    match as_room_id room_id, App.as_user_id user_id with
    | Some rid, Some uid =>
        let* joined := RoomManager.join_room_or_raise now rid uid in
        match joined with
        | None => sql_ret (Some (Raised [] tt))
        | Some true =>
            sql_ret
              (Some (Returned
                       [ JoinTransportRoom rid;
                         Emit {| event := "joined_room";
                                 payload :=
                                   PDict [("room_id", room_id);
                                          ("message",
                                           PStr (String.append "Joined room " rid))];
                                 to := ToCaller |};
                         EmitSkipping {| event := "user_joined";
                                         payload := PDict [("user_id", user_id);
                                                           ("room_id", room_id)];
                                         to := ToSession rid |} request_sid ]
                       tt))
        | Some false => sql_ret (Some (Returned [Emit (error "Failed to join room")] tt))
        end
    | _, _ => sql_ret None
    end.

End Server.

(** The two events, with the clock of each.  The server goes on after a
    handler has raised: a run of events threads the components and the
    database through all of them, and tells whether a handler raised;
    [None] where an event has a user id outside the model. *)
Inductive server_event : Type :=
  | Register (clock : nat -> Z) (connection_id request_sid : string) (data : pydict)
  | Disconnect (clock : nat -> Z) (request_sid : string).

Definition run_server_event (e : server_event) (st : Server.t * Database)
    : option (outcome emission Server.t * Database) :=
  match e with
  | Register clock connection_id request_sid data =>
      let r := Server.handle_register clock connection_id request_sid data
                 (fst st) (snd st) in
      match fst r with
      | Some o => Some (o, snd r)
      | None => None
      end
  | Disconnect clock request_sid =>
      Some (Server.handle_disconnect clock request_sid (fst st), snd st)
  end.

Fixpoint run_server_events (events : list server_event) (st : Server.t * Database)
    : option (bool * (Server.t * Database)) :=
  match events with
  | [] => Some (false, st)
  | e :: rest =>
      match run_server_event e st with
      | Some (o, db) =>
          match run_server_events rest (state_of o, db) with
          | Some (raised, st') => Some (has_raised o || raised, st')
          | None => None
          end
      | None => None
      end
  end.

(** The events whose user id, if any, the model has: absent or falsy, an
    integer, or a boolean. *)
Definition event_in_model (e : server_event) : bool :=
  match e with
  | Register _ _ _ data =>
      negb (truthy (dict_get "user_id" data))
      || match App.as_user_id (dict_get "user_id" data) with
         | Some _ => true
         | None => false
         end
  | Disconnect _ _ => true
  end.

(** The events that register no user id of more than 64 bits. *)
Definition event_id_binds (e : server_event) : bool :=
  match e with
  | Register _ _ _ data =>
      match App.as_user_id (dict_get "user_id" data) with
      | Some uid => fits_int64 uid
      | None => true
      end
  | Disconnect _ _ => true
  end.

(** The presence store lists the user as online. *)
Definition presence_online (user_id : Z) (s : Server.t) : Prop :=
  exists last_seen,
    ConnectionState.get_state user_id (Server.connection_state s)
    = Some (ConnectionState.STATE_ONLINE, last_seen).

(** What the components keep along every run of events that started with
    the presence table [presence]: the registry is one that calls build;
    registry and pool list the same connections for every user, at most
    five; [connection_order] is the key order of the records; and for
    every user whose id binds, the presence store says [online] if the
    registry holds a connection of the user, and otherwise says [offline]
    or what it said at the start. *)
Definition server_ok (presence : list ConnectionState.state_row) (s : Server.t)
    : Prop :=
  built_by_calls (Server.connection_manager s)
  /\ ConnectionManager.user_connections (Server.connection_manager s)
     = ConnectionPool.user_connections (Server.connection_pool s)
  /\ ConnectionPool.max_connections_per_user (Server.connection_pool s) = 5%Z
  /\ (forall u,
        (ConnectionPool.get_user_connection_count u (Server.connection_pool s) <= 5)%Z)
  /\ (forall c, In c (Server.connection_order s)
                <-> ConnectionManager.get_connection c (Server.connection_manager s)
                    <> None)
  /\ List.NoDup (Server.connection_order s)
  /\ (forall u, fits_int64 u = true ->
        (ConnectionManager.is_user_online u (Server.connection_manager s) = true ->
         presence_online u s)
        /\ (ConnectionManager.is_user_online u (Server.connection_manager s) = false ->
            ConnectionState.get_state u (Server.connection_state s)
            = ConnectionState.get_state u presence
            \/ exists last_seen,
                 ConnectionState.get_state u (Server.connection_state s)
                 = Some (ConnectionState.STATE_OFFLINE, last_seen))).

(** Every record of the registry names a user whose id binds. *)
Definition records_bind (s : Server.t) : Prop :=
  forall c info,
    ConnectionManager.get_connection c (Server.connection_manager s) = Some info ->
    fits_int64 (ConnectionManager.user_id info) = true.

(** ** Broadcast manager ([hub/broadcast_manager.py]) *)

Module BroadcastManager.

(** The emits of [broadcast_to_users], in order: for each listed user,
    one per connection of the user that has a record. *)
Definition broadcast_to_users (cm : ConnectionManager.t) (user_ids : list Z)
    (message : pydict) : list emission :=
  flat_map
    (fun user_id =>
       CommunicationHub.emit_to_connections cm message
         (ConnectionManager.get_user_connections user_id cm))
    user_ids.

End BroadcastManager.

(** ** Vocabulary of the last properties *)

(** The record with its [last_activity] replaced. *)
Definition with_last_activity (now : Z) (info : ConnectionManager.connection_info)
    : ConnectionManager.connection_info :=
  {| ConnectionManager.connection_id := ConnectionManager.connection_id info;
     ConnectionManager.user_id := ConnectionManager.user_id info;
     ConnectionManager.sid := ConnectionManager.sid info;
     ConnectionManager.connected_at := ConnectionManager.connected_at info;
     ConnectionManager.last_activity := now |}.

(** The string has no character [<]. *)
Fixpoint no_angle (s : string) : bool :=
  match s with
  | EmptyString => true
  | String c s' => negb (String.eqb (String c EmptyString) "<") && no_angle s'
  end.

(** The number of connection ids the registry lists for the users. *)
Definition listed_connections (cm : ConnectionManager.t) (user_ids : list Z) : nat :=
  list_sum (List.map (fun u => length (ConnectionManager.get_user_connections u cm))
              user_ids).
(** * Properties *)

(** ** The scenarios of the test-suite, replayed on the model *)

(** [test_02_connection_pool], and one step further: three connections are
    admitted, the fourth is refused, and it is admitted once one of the
    three is removed. *)
Example pool_scenario :
  let pool := run_pool_ops [PoolAdd 1 "conn-1"; PoolAdd 1 "conn-2"; PoolAdd 1 "conn-3"]
                (ConnectionPool.init 3) in
  ConnectionPool.get_user_connection_count 1 pool = 3%Z
  /\ fst (ConnectionPool.add_connection 1 "conn-4" pool) = false
  /\ fst (ConnectionPool.add_connection 1 "conn-4"
            (ConnectionPool.remove_connection 1 "conn-1" pool)) = true.
Proof. vm_compute. repeat split. Qed.

(** [test_01_connection_management] *)
Example registry_scenario :
  let cm := ConnectionManager.add_connection 0 0 "conn-1" 1 "sid-1" ConnectionManager.init in
  (ConnectionManager.user_id <$> ConnectionManager.get_connection "conn-1" cm) = Some 1%Z
  /\ (ConnectionManager.remove_connection "conn-1" cm) = Some ConnectionManager.init.
Proof. vm_compute. repeat split. Qed.

(** [test_04_room_messaging] *)
Example room_scenario :
  let db := run_room_ops [CreateRoom 0 "chat-room" "Chat Room" 1 false 100;
                          JoinRoom 1 "chat-room" 1; JoinRoom 2 "chat-room" 2]
              init_database in
  result_of (RoomManager.get_room_members "chat-room") db = [1%Z; 2%Z]
  /\ result_of (RoomManager.get_room_members "chat-room")
       (run_room_op (LeaveRoom "chat-room" 1) db) = [2%Z].
Proof. vm_compute. repeat split. Qed.

(** A room for two: the third user is turned away and the count stays 2. *)
Example full_room_scenario :
  let db := run_room_ops [CreateRoom 0 "general" "General" 1 false 2;
                          JoinRoom 1 "general" 1; JoinRoom 2 "general" 2]
              init_database in
  member_count "general" db = 2%Z
  /\ result_of (RoomManager.join_room 3 "general" 3) db = false
  /\ member_count "general" (db_after (RoomManager.join_room 3 "general" 3) db) = 2%Z.
Proof. vm_compute. repeat split. Qed.

(** [test_06_offline_message_queue] and [test_07_message_delivery] *)
Example queue_scenario :
  let db := run_queue_ops 10
              [AddMessage 5 99 (PDict [("text", PStr "Message 1")]) (PInt 1);
               AddMessage 5 99 (PDict [("text", PStr "Message 2")]) (PInt 2)]
              init_database in
  queue_size 99 db = 2%Z
  /\ List.map OfflineQueue.id (result_of (OfflineQueue.get_messages 99) db) = [1%Z; 2%Z]
  /\ List.map OfflineQueue.id
       (result_of (OfflineQueue.get_messages 99)
          (db_after (OfflineQueue.mark_delivered 6 1) db)) = [2%Z].
Proof. vm_compute. repeat split. Qed.

(** A queue of two receiving a third message: the first one goes. *)
Example eviction_scenario :
  let db := run_queue_ops 2
              [AddMessage 10 99 (PStr "m1") (PInt 1);
               AddMessage 11 99 (PStr "m2") (PInt 1);
               AddMessage 12 99 (PStr "m3") (PInt 1)]
              init_database in
  List.map msg_id (messages db) = [2%Z; 3%Z] /\ queue_size 99 db = 2%Z.
Proof. vm_compute. repeat split. Qed.

(** [test_09_message_handler] *)
Example handler_scenario :
  let raw_message := [("content", PStr "Test message"); ("type", PStr "text");
                      ("recipient_id", PInt 2)] in
  MessageHandler.validate_message (PDict raw_message) = true
  /\ MessageHandler.process_message 7 raw_message (PInt 1) 0
     = ([("id", PInt 1); ("sender_id", PInt 1); ("content", PStr "Test message");
         ("type", PStr "text"); ("timestamp", PInt 7); ("recipient_id", PInt 2)], 1%Z).
Proof. vm_compute. repeat split. Qed.

(** A direct message to a recipient with two live connections reaches both
    sessions and leaves the store empty. *)
Example two_devices_scenario :
  let cm := ConnectionManager.add_connection 1 1 "conn-2" 7 "sid-2"
              (ConnectionManager.add_connection 0 0 "conn-1" 7 "sid-1"
                 ConnectionManager.init) in
  let message := [("id", PInt 1); ("sender_id", PInt 3); ("content", PStr "hello")] in
  List.map to (result_of (CommunicationHub.send_to_user cm 2 7 message) init_database)
  = [ToSession "sid-1"; ToSession "sid-2"]
  /\ db_after (CommunicationHub.send_to_user cm 2 7 message) init_database
     = init_database.
Proof. vm_compute. repeat split. Qed.

(** ** Generic facts about the cursor primitives *)

(** Runs a cursor computation symbolically: the monad is unfolded down to
    the table operations. *)
Ltac run_sql :=
  unfold result_of, db_after, sql_bind, sql_ret, select_messages; simpl.


Lemma filter_none {A} (p : A -> bool) (l : list A) :
  (forall x, In x l -> p x = false) -> List.filter p l = [].
Proof.
  induction l as [|a l IH]; intros H; simpl; [reflexivity|].
  rewrite (H a (or_introl eq_refl)). apply IH. intros x Hx. apply H. now right.
Qed.

Lemma insert_by_created_at_perm r l :
  Permutation (r :: l) (insert_by_created_at r l).
Proof.
  induction l as [|x l IH]; simpl; [reflexivity|].
  destruct (msg_created_at r <=? msg_created_at x)%Z; [reflexivity|].
  etransitivity; [apply perm_swap|]. now apply perm_skip.
Qed.

Lemma order_by_created_at_perm l : Permutation l (order_by_created_at l).
Proof.
  induction l as [|r l IH]; simpl; [reflexivity|].
  etransitivity; [|apply insert_by_created_at_perm]. now apply perm_skip.
Qed.

Lemma insert_by_id_perm z l : Permutation (z :: l) (insert_by_id z l).
Proof.
  induction l as [|x l IH]; simpl; [reflexivity|].
  destruct (z <=? x)%Z; [reflexivity|].
  etransitivity; [apply perm_swap | now apply perm_skip].
Qed.

Lemma order_by_id_perm l : Permutation l (order_by_id l).
Proof.
  induction l as [|z l IH]; simpl; [reflexivity|].
  etransitivity; [|apply insert_by_id_perm]. now apply perm_skip.
Qed.

Lemma order_by_id_in z l : In z (order_by_id l) <-> In z l.
Proof.
  split; apply Permutation_in;
    [apply Permutation_sym, order_by_id_perm | apply order_by_id_perm].
Qed.

Lemma order_by_id_length l : length (order_by_id l) = length l.
Proof. symmetry. apply Permutation_length, order_by_id_perm. Qed.

Lemma insert_by_text_perm x l : Permutation (x :: l) (insert_by_text x l).
Proof.
  induction l as [|y l IH]; simpl; [reflexivity|].
  destruct (String.leb x y); [reflexivity|].
  etransitivity; [apply perm_swap | now apply perm_skip].
Qed.

Lemma order_by_text_perm l : Permutation l (order_by_text l).
Proof.
  induction l as [|x l IH]; simpl; [reflexivity|].
  etransitivity; [|apply insert_by_text_perm]. now apply perm_skip.
Qed.

Lemma insert_by_created_at_sorted r l :
  StronglySorted created_le l -> StronglySorted created_le (insert_by_created_at r l).
Proof.
  induction 1 as [|x l Hs IH Hx]; simpl.
  - repeat constructor.
  - destruct (Z.leb_spec (msg_created_at r) (msg_created_at x)) as [Hle|Hgt].
    + constructor; [constructor; assumption|].
      constructor; [exact Hle|].
      eapply Forall_impl; [exact Hx|]. unfold created_le. intros; lia.
    + constructor; [exact IH|].
      eapply Permutation_Forall; [apply insert_by_created_at_perm|].
      constructor; [unfold created_le; lia | exact Hx].
Qed.

Lemma order_by_created_at_sorted l : StronglySorted created_le (order_by_created_at l).
Proof.
  induction l as [|r l IH]; simpl; [constructor|].
  now apply insert_by_created_at_sorted.
Qed.

(** The first row of the order is an oldest one. *)
Lemma order_by_created_at_head l r rest :
  order_by_created_at l = r :: rest ->
  In r l /\ forall x, In x l -> created_le r x.
Proof.
  intros Hord.
  pose proof (order_by_created_at_perm l) as Hp.
  pose proof (order_by_created_at_sorted l) as Hs.
  rewrite Hord in Hp, Hs. split.
  - apply (Permutation_in r (Permutation_sym Hp)). now left.
  - intros x Hx. apply (Permutation_in _ Hp) in Hx.
    inversion Hs as [|? ? _ Hall]; subst.
    destruct Hx as [<-|Hx]; [unfold created_le; lia|].
    rewrite List.Forall_forall in Hall. now apply Hall.
Qed.

Lemma set_delivered_not_undelivered now u r :
  undelivered_for u (set_delivered now r) = false.
Proof.
  unfold undelivered_for, set_delivered; simpl.
  destruct (msg_recipient_id r); [apply andb_false_r | reflexivity].
Qed.

(** ** The offline queue *)

Lemma queue_size_eq user_id db :
  queue_size user_id db = Z.of_nat (length (undelivered_rows user_id db)).
Proof. reflexivity. Qed.

Lemma get_messages_db user_id db :
  db_after (OfflineQueue.get_messages user_id) db = db.
Proof. reflexivity. Qed.

Lemma get_messages_result user_id db :
  List.map OfflineQueue.id (result_of (OfflineQueue.get_messages user_id) db)
  = List.map msg_id (order_by_created_at (undelivered_rows user_id db)).
Proof.
  unfold OfflineQueue.get_messages. run_sql.
  rewrite List.map_map. reflexivity.
Qed.

Lemma mark_delivered_messages now message_id db :
  messages (db_after (OfflineQueue.mark_delivered now message_id) db)
  = List.map (fun r => if has_id message_id r then set_delivered now r else r)
      (messages db).
Proof. reflexivity. Qed.

(** A row that is still undelivered after a run of [mark_delivered] calls
    was undelivered before, and none of the calls named its id. *)
Lemma mark_all_undelivered clock user_id ids : forall k db r',
  In r' (undelivered_rows user_id (db_after (mark_all clock k ids) db)) ->
  In r' (undelivered_rows user_id db) /\ ~ In (msg_id r') ids.
Proof.
  induction ids as [|i ids IH]; intros k db r' Hin.
  - split; [exact Hin | intros []].
  - change (db_after (mark_all clock k (i :: ids)) db)
      with (db_after (mark_all clock (S k) ids)
              (db_after (OfflineQueue.mark_delivered (clock k) i) db)) in Hin.
    apply IH in Hin as [Hin Hnot].
    unfold undelivered_rows in Hin. apply filter_In in Hin as [Hin Hund].
    rewrite mark_delivered_messages in Hin.
    apply in_map_iff in Hin as (r & Hr & Hrin).
    destruct (has_id i r) eqn:Hid.
    + subst r'. rewrite set_delivered_not_undelivered in Hund. discriminate.
    + subst r'. split.
      * unfold undelivered_rows. apply filter_In. now split.
      * intros [Heq|Hrest]; [|now apply Hnot].
        unfold has_id in Hid. apply Z.eqb_neq in Hid. congruence.
Qed.

(** C5. Draining a recipient's queue returns the dictionaries of exactly
    that recipient's undelivered rows, each row once with its own id,
    sender, content and creation time, the rows taken in non-decreasing
    order of their creation time; after the drain and one
    [mark_delivered] per returned message, whatever the timestamps of the
    calls, the recipient's queue size is 0. *)
Theorem drain_is_ordered_and_mark_empties_queue
    (clock : nat -> Z) (user_id : Z) (db : Database) :
  let drained := result_of (OfflineQueue.get_messages user_id) db in
  (exists rows,
     Permutation rows (undelivered_rows user_id db)
     /\ StronglySorted created_le rows
     /\ drained = List.map queued_of_row rows)
  /\ StronglySorted
       (fun a b => (OfflineQueue.created_at a <= OfflineQueue.created_at b)%Z) drained
  /\ Permutation (List.map OfflineQueue.id drained)
                 (List.map msg_id (undelivered_rows user_id db))
  /\ queue_size user_id (db_after (drain_and_mark clock user_id) db) = 0%Z.
Proof.
  intros drained. split; [|split; [|split]].
  - exists (order_by_created_at (undelivered_rows user_id db)).
    split; [apply Permutation_sym, order_by_created_at_perm|].
    split; [apply order_by_created_at_sorted | reflexivity].
  - subst drained.
    unfold OfflineQueue.get_messages. run_sql.
    fold (undelivered_rows user_id db).
    pose proof (order_by_created_at_sorted (undelivered_rows user_id db)) as Hs.
    induction Hs as [|x l Hs IH Hx]; simpl; constructor.
    + exact IH.
    + apply List.Forall_map. eapply Forall_impl; [exact Hx|]. intros y Hy. exact Hy.
  - subst drained. rewrite get_messages_result.
    apply Permutation_map. symmetry. apply order_by_created_at_perm.
  - rewrite queue_size_eq.
    assert (undelivered_rows user_id (db_after (drain_and_mark clock user_id) db) = [])
      as ->; [|reflexivity].
    unfold undelivered_rows at 1. apply filter_none. intros r Hr.
    destruct (undelivered_for user_id r) eqn:Hund; [exfalso|reflexivity].
    assert (In r (undelivered_rows user_id (db_after (drain_and_mark clock user_id) db)))
      as Hin by (apply filter_In; now split).
    change (db_after (drain_and_mark clock user_id) db)
      with (db_after (mark_all clock 0
              (List.map OfflineQueue.id (result_of (OfflineQueue.get_messages user_id) db)))
              db) in Hin.
    apply mark_all_undelivered in Hin as [Hin Hnot]. apply Hnot.
    rewrite get_messages_result. apply in_map.
    eapply Permutation_in; [apply order_by_created_at_perm | exact Hin].
Qed.

(** What [add_message] leaves in the table: the rows it keeps, then the new
    row. *)
Lemma add_message_messages max_messages now user_id message sender_id db :
  messages (db_after (OfflineQueue.add_message max_messages now user_id message sender_id) db)
  = (if (max_messages <=? queue_size user_id db)%Z then
       match oldest_undelivered user_id db with
       | Some old => without_id (msg_id old) (messages db)
       | None => messages db
       end
     else messages db)
    ++ [offline_row (messages_seq db + 1) now user_id message sender_id].
Proof.
  unfold db_after, OfflineQueue.add_message, sql_bind, select_messages, queue_size,
    result_of, OfflineQueue.get_queue_size, oldest_undelivered, undelivered_rows; simpl.
  destruct (max_messages <=? _)%Z; simpl; [|reflexivity].
  destruct (order_by_created_at _); reflexivity.
Qed.

Lemma add_message_seq max_messages now user_id message sender_id db :
  messages_seq (db_after (OfflineQueue.add_message max_messages now user_id message sender_id) db)
  = (messages_seq db + 1)%Z.
Proof.
  unfold OfflineQueue.add_message. run_sql.
  destruct (max_messages <=? _)%Z; simpl; [|reflexivity].
  destruct (order_by_created_at _); reflexivity.
Qed.

Lemma oldest_undelivered_spec user_id db old :
  oldest_undelivered user_id db = Some old ->
  In old (undelivered_rows user_id db)
  /\ forall r, In r (undelivered_rows user_id db) -> created_le old r.
Proof.
  unfold oldest_undelivered.
  destruct (order_by_created_at (undelivered_rows user_id db)) as [|r rest] eqn:Hord;
    [discriminate|].
  intros [= <-]. eapply order_by_created_at_head; exact Hord.
Qed.

Lemma oldest_undelivered_none user_id db :
  oldest_undelivered user_id db = None -> undelivered_rows user_id db = [].
Proof.
  unfold oldest_undelivered. intros H.
  pose proof (order_by_created_at_perm (undelivered_rows user_id db)) as Hp.
  destruct (order_by_created_at (undelivered_rows user_id db)); [|discriminate].
  symmetry in Hp. now apply Permutation_nil in Hp.
Qed.

Lemma without_id_incl i l r : In r (without_id i l) -> In r l.
Proof. unfold without_id. intros H. now apply filter_In in H. Qed.

(** Deleting by the id of a row that is there shortens every selection
    that contained the row. *)
Lemma filter_without_id_lt (p : message_row -> bool) r0 l :
  In r0 l -> p r0 = true ->
  (length (List.filter p (without_id (msg_id r0) l)) < length (List.filter p l))%nat.
Proof.
  intros Hin Hp.
  assert (forall l', length (List.filter p (without_id (msg_id r0) l'))
                     <= length (List.filter p l'))%nat as Hle.
  { induction l' as [|x l' IH]; simpl; [lia|].
    destruct (has_id (msg_id r0) x); simpl; destruct (p x); simpl; lia. }
  induction l as [|x l IH]; [destruct Hin|].
  destruct Hin as [->|Hin]; simpl.
  - unfold has_id. rewrite Z.eqb_refl. simpl. rewrite Hp. simpl.
    specialize (Hle l). lia.
  - specialize (IH Hin).
    destruct (has_id (msg_id r0) x); simpl; destruct (p x); simpl; lia.
Qed.

(** With pairwise distinct ids, deleting by id removes that one row. *)
Lemma without_id_removes_one r0 l :
  List.NoDup (List.map msg_id l) -> In r0 l ->
  Permutation l (r0 :: without_id (msg_id r0) l).
Proof.
  induction l as [|x l IH]; intros Hnd Hin; [destruct Hin|].
  simpl in Hnd. apply List.NoDup_cons_iff in Hnd as [Hx Hnd].
  destruct Hin as [->|Hin]; simpl.
  - unfold has_id at 1. rewrite Z.eqb_refl. simpl. apply perm_skip.
    assert (without_id (msg_id r0) l = l) as ->; [|reflexivity].
    unfold without_id. clear IH Hnd.
    induction l as [|y l IH]; simpl; [reflexivity|].
    destruct (has_id (msg_id r0) y) eqn:Hy; simpl.
    + exfalso. apply Hx. left. unfold has_id in Hy. now apply Z.eqb_eq in Hy.
    + f_equal. apply IH. intros H. apply Hx. now right.
  - destruct (has_id (msg_id r0) x) eqn:Hid; simpl.
    + exfalso. apply Hx. unfold has_id in Hid. apply Z.eqb_eq in Hid. rewrite Hid.
      now apply in_map.
    + etransitivity; [apply perm_skip, IH; assumption|]. apply perm_swap.
Qed.

Lemma NoDup_map_filter {A B} (f : A -> B) (p : A -> bool) (l : list A) :
  List.NoDup (List.map f l) -> List.NoDup (List.map f (List.filter p l)).
Proof.
  induction l as [|x l IH]; simpl; intros Hnd; [constructor|].
  apply List.NoDup_cons_iff in Hnd as [Hx Hnd].
  destruct (p x); simpl; [|now apply IH].
  apply List.NoDup_cons_iff. split; [|now apply IH].
  intros Hin. apply Hx. apply in_map_iff in Hin as (y & Hy & Hyin).
  apply filter_In in Hyin as [Hyin _]. apply in_map_iff. now exists y.
Qed.

Lemma mark_delivered_ids now message_id db :
  List.map msg_id (messages (db_after (OfflineQueue.mark_delivered now message_id) db))
  = List.map msg_id (messages db).
Proof.
  rewrite mark_delivered_messages, List.map_map. apply List.map_ext.
  intros r. now destruct (has_id message_id r).
Qed.

Lemma ids_ok_init : ids_ok init_database.
Proof. split; constructor. Qed.

Lemma ids_ok_step max_messages op db :
  ids_ok db -> ids_ok (run_queue_op max_messages op db).
Proof.
  intros [Hnd Hle]. destruct op as [now u m s|u|now i|u]; simpl;
    try (split; assumption).
  - assert (exists kept, (forall r, In r kept -> In r (messages db))
              /\ List.NoDup (List.map msg_id kept)
              /\ messages (db_after (OfflineQueue.add_message max_messages now u m s) db)
                 = kept ++ [offline_row (messages_seq db + 1) now u m s])
      as (kept & Hincl & Hkept & Hmsgs).
    { rewrite add_message_messages.
      destruct (max_messages <=? queue_size u db)%Z;
        [destruct (oldest_undelivered u db)|]; eexists; (split; [|split; [|reflexivity]]);
        try assumption; try (intros r Hr; exact Hr).
      - intros r. apply without_id_incl.
      - now apply NoDup_map_filter. }
    rewrite List.Forall_forall in Hle.
    split.
    + rewrite Hmsgs, List.map_app. simpl.
      apply List.NoDup_app; [exact Hkept | repeat constructor; intros [] |].
      intros x Hx [<-|[]].
      apply in_map_iff in Hx as (r & Hr & Hrin). apply Hincl, Hle in Hrin. lia.
    + rewrite Hmsgs, add_message_seq. apply List.Forall_forall. intros r Hr.
      apply in_app_or in Hr as [Hr|[<-|[]]]; simpl; [|lia].
      apply Hincl, Hle in Hr. lia.
  - split.
    + now rewrite mark_delivered_ids.
    + apply List.Forall_forall. intros r' Hr'.
      rewrite mark_delivered_messages in Hr'.
      apply in_map_iff in Hr' as (r & <- & Hr).
      rewrite List.Forall_forall in Hle. specialize (Hle r Hr).
      now destruct (has_id i r).
Qed.

Lemma undelivered_rows_app_new user_id l new_id now u m s :
  List.filter (undelivered_for user_id) (l ++ [offline_row new_id now u m s])
  = List.filter (undelivered_for user_id) l
    ++ (if (u =? user_id)%Z then [offline_row new_id now u m s] else []).
Proof.
  rewrite List.filter_app. f_equal. simpl. unfold undelivered_for; simpl.
  destruct (u =? user_id)%Z; reflexivity.
Qed.

Lemma filter_length_perm {A} (p : A -> bool) (l l' : list A) :
  Permutation l l' -> length (List.filter p l) = length (List.filter p l').
Proof.
  induction 1 as [|x l l' _ IH|x y l|l l' l'' _ IH1 _ IH2]; simpl.
  - reflexivity.
  - destruct (p x); simpl; lia.
  - destruct (p x), (p y); reflexivity.
  - lia.
Qed.

(** One call never lets a queue grow past the bound it was within. *)
Lemma queue_bound_step max_messages op db :
  (1 <= max_messages)%Z ->
  (forall u, (queue_size u db <= max_messages)%Z) ->
  forall u, (queue_size u (run_queue_op max_messages op db) <= max_messages)%Z.
Proof.
  intros Hpos Hb u. destruct op as [now u' m s|u'|now i|u']; simpl; try apply Hb.
  - rewrite queue_size_eq. unfold undelivered_rows.
    rewrite add_message_messages, undelivered_rows_app_new, List.length_app.
    pose proof (Hb u) as Hu. pose proof (Hb u') as Hu'. rewrite queue_size_eq in Hu.
    assert (forall i, length (List.filter (undelivered_for u) (without_id i (messages db)))
                      <= length (undelivered_rows u db))%nat as Hkeep.
    { intros i. unfold without_id, undelivered_rows.
      induction (messages db) as [|x l IH]; simpl; [lia|].
      destruct (has_id i x); simpl; destruct (undelivered_for u x); simpl; lia. }
    destruct (Z.eqb_spec u' u) as [->|Hne]; simpl.
    + destruct (Z.leb_spec max_messages (queue_size u db)) as [Hfull|Hroom].
      * destruct (oldest_undelivered u db) as [old|] eqn:Hold.
        -- apply oldest_undelivered_spec in Hold as [Hin _].
           unfold undelivered_rows in Hin. apply filter_In in Hin as [Hin Hund].
           pose proof (filter_without_id_lt (undelivered_for u) old (messages db) Hin Hund).
           unfold undelivered_rows in Hu. lia.
        -- apply oldest_undelivered_none in Hold. rewrite queue_size_eq, Hold in Hfull.
           simpl in Hfull. lia.
      * rewrite queue_size_eq in Hroom. unfold undelivered_rows in Hroom. lia.
    + destruct (max_messages <=? queue_size u' db)%Z;
        [destruct (oldest_undelivered u' db)|]; simpl;
        try (unfold undelivered_rows in Hu; lia).
      specialize (Hkeep (msg_id m0)). lia.
  - assert (forall l, length (List.filter (undelivered_for u)
              (List.map (fun r => if has_id i r then set_delivered now r else r) l))
            <= length (List.filter (undelivered_for u) l))%nat as Hmark.
    { induction l as [|x l IH]; simpl; [lia|].
      destruct (has_id i x); [rewrite set_delivered_not_undelivered|];
        destruct (undelivered_for u x); simpl; lia. }
    rewrite queue_size_eq. pose proof (Hb u) as Hu. rewrite queue_size_eq in Hu.
    unfold undelivered_rows in *. rewrite mark_delivered_messages.
    specialize (Hmark (messages db)). lia.
Qed.

Lemma queue_invariant max_messages ops : forall db,
  (1 <= max_messages)%Z ->
  ids_ok db -> (forall u, (queue_size u db <= max_messages)%Z) ->
  ids_ok (run_queue_ops max_messages ops db)
  /\ forall u, (queue_size u (run_queue_ops max_messages ops db) <= max_messages)%Z.
Proof.
  induction ops as [|op ops IH]; intros db Hpos Hids Hb; simpl; [now split|].
  apply IH; [exact Hpos | now apply ids_ok_step | now apply queue_bound_step].
Qed.

(** C2, as amended.  For a queue built with a bound [max_messages >= 1] on a
    freshly initialised database, after any sequence of queue calls every
    recipient has at most [max_messages] undelivered messages.  When an
    enqueue for a recipient arrives while the count equals the bound, the
    oldest undelivered row of that recipient (the head of the drain order)
    is the one row deleted, every other row is kept in place, the new row
    is appended, and the count is again the bound. *)
Theorem offline_queue_is_bounded_with_oldest_first_eviction
    (max_messages : Z) (ops : list queue_op) :
  (1 <= max_messages)%Z ->
  let db := run_queue_ops max_messages ops init_database in
  (forall u, (queue_size u db <= max_messages)%Z)
  /\ (forall now u m s,
        queue_size u db = max_messages ->
        let db' := db_after (OfflineQueue.add_message max_messages now u m s) db in
        exists old,
          oldest_undelivered u db = Some old
          /\ In old (undelivered_rows u db)
          /\ (forall r, In r (undelivered_rows u db) -> created_le old r)
          /\ Permutation (messages db) (old :: without_id (msg_id old) (messages db))
          /\ messages db'
             = without_id (msg_id old) (messages db)
               ++ [offline_row (messages_seq db + 1) now u m s]
          /\ queue_size u db' = max_messages).
Proof.
  intros Hpos db.
  destruct (queue_invariant max_messages ops init_database Hpos ids_ok_init)
    as [[Hnd Hseq] Hb]; [intros u; rewrite queue_size_eq; simpl; lia|].
  fold db in Hnd, Hseq, Hb. split; [exact Hb|].
  intros now u m s Hfull db'.
  destruct (oldest_undelivered u db) as [old|] eqn:Hold.
  - exists old. pose proof (oldest_undelivered_spec _ _ _ Hold) as [Hin Hmin].
    assert (In old (messages db) /\ undelivered_for u old = true) as [Hin' Hund]
      by (unfold undelivered_rows in Hin; now apply filter_In in Hin).
    pose proof (without_id_removes_one old (messages db) Hnd Hin') as Hperm.
    assert (messages db' = without_id (msg_id old) (messages db)
                           ++ [offline_row (messages_seq db + 1) now u m s]) as Hmsgs.
    { subst db'. rewrite add_message_messages, Hold, Hfull, Z.leb_refl. reflexivity. }
    repeat split; try assumption.
    rewrite queue_size_eq. unfold undelivered_rows. rewrite Hmsgs.
    rewrite undelivered_rows_app_new, Z.eqb_refl, List.length_app. simpl.
    rewrite <- Hfull, queue_size_eq. unfold undelivered_rows.
    apply (filter_length_perm (undelivered_for u)) in Hperm.
    simpl in Hperm. rewrite Hund in Hperm.
    simpl in Hperm. lia.
  - apply oldest_undelivered_none in Hold. rewrite queue_size_eq, Hold in Hfull.
    simpl in Hfull. lia.
Qed.

Lemma offline_queue_is_bounded_with_oldest_first_eviction_witness :
  (1 <= 2)%Z
  /\ let ops := [AddMessage 10 99 (PStr "m1") (PInt 1);
                 AddMessage 11 99 (PStr "m2") (PInt 2)] in
     let db := run_queue_ops 2 ops init_database in
     (forall u, (queue_size u db <= 2)%Z)
     /\ (forall now u m s,
           queue_size u db = 2%Z ->
           let db' := db_after (OfflineQueue.add_message 2 now u m s) db in
           exists old,
             oldest_undelivered u db = Some old
             /\ In old (undelivered_rows u db)
             /\ (forall r, In r (undelivered_rows u db) -> created_le old r)
             /\ Permutation (messages db) (old :: without_id (msg_id old) (messages db))
             /\ messages db'
                = without_id (msg_id old) (messages db)
                  ++ [offline_row (messages_seq db + 1) now u m s]
             /\ queue_size u db' = 2%Z).
Proof.
  split; [lia|].
  apply (offline_queue_is_bounded_with_oldest_first_eviction 2
           [AddMessage 10 99 (PStr "m1") (PInt 1);
            AddMessage 11 99 (PStr "m2") (PInt 2)]).
  lia.
Defined.

(** C2 as stated fails for a bound of 0: the first enqueue finds the count
    equal to the bound, has no row to delete, and inserts, so the queue
    holds one message. *)
Lemma offline_queue_bound_zero_is_exceeded :
  let db := run_queue_ops 0 [AddMessage 10 99 (PStr "m1") (PInt 1)] init_database in
  queue_size 99 init_database = 0%Z
  /\ messages db = [offline_row 1 10 99 (PStr "m1") (PInt 1)]
  /\ queue_size 99 db = 1%Z
  /\ ~ (queue_size 99 db <= 0)%Z.
Proof.
  vm_compute. repeat split; try reflexivity. intros H. apply H. reflexivity.
Qed.

Lemma repeat_get_messages n user_id db :
  db_after (repeat_sql n (OfflineQueue.get_messages user_id)) db = db
  /\ result_of (repeat_sql n (OfflineQueue.get_messages user_id)) db
     = List.repeat (result_of (OfflineQueue.get_messages user_id) db) n.
Proof.
  induction n as [|n [IHdb IHres]]; [now split|].
  change (db_after (repeat_sql (S n) (OfflineQueue.get_messages user_id)) db)
    with (db_after (repeat_sql n (OfflineQueue.get_messages user_id)) db).
  change (result_of (repeat_sql (S n) (OfflineQueue.get_messages user_id)) db)
    with (result_of (OfflineQueue.get_messages user_id) db
          :: result_of (repeat_sql n (OfflineQueue.get_messages user_id)) db).
  rewrite IHres. now split.
Qed.

Lemma queue_op_removes max_messages op db u r :
  In r (undelivered_rows u db) ->
  ~ In r (undelivered_rows u (run_queue_op max_messages op db)) ->
  (exists now, op = MarkDelivered now (msg_id r))
  \/ (exists now u' m s old,
        op = AddMessage now u' m s
        /\ (max_messages <= queue_size u' db)%Z
        /\ oldest_undelivered u' db = Some old
        /\ msg_id old = msg_id r).
Proof.
  intros Hin Hout.
    assert (In r (messages db) /\ undelivered_for u r = true) as [Hr Hund]
      by (unfold undelivered_rows in Hin; now apply filter_In in Hin).
    destruct op as [now u' m s|u'|now i|u']; simpl in Hout;
      try (exfalso; apply Hout; exact Hin).
    + right.
      unfold undelivered_rows in Hout. rewrite add_message_messages in Hout.
      destruct (Z.leb_spec max_messages (queue_size u' db)) as [Hfull|Hroom].
      * destruct (oldest_undelivered u' db) as [old|] eqn:Hold.
        -- exists now, u', m, s, old. repeat split; try assumption.
           destruct (has_id (msg_id old) r) eqn:Hid.
           ++ unfold has_id in Hid. apply Z.eqb_eq in Hid. now symmetry.
           ++ exfalso. apply Hout. apply filter_In. split; [|exact Hund].
              apply in_or_app. left. unfold without_id. apply filter_In.
              split; [exact Hr | now rewrite Hid].
        -- exfalso. apply Hout. apply filter_In. split; [|exact Hund].
           apply in_or_app. now left.
      * exfalso. apply Hout. apply filter_In. split; [|exact Hund].
        apply in_or_app. now left.
    + left. exists now. f_equal.
      destruct (has_id i r) eqn:Hid.
      * unfold has_id in Hid. apply Z.eqb_eq in Hid. now symmetry.
      * exfalso. apply Hout. unfold undelivered_rows. rewrite mark_delivered_messages.
        apply filter_In. split; [|exact Hund].
        apply in_map_iff. exists r. now rewrite Hid.
Qed.

(** C10, as amended.  Draining is a pure read: after any number of
    [get_messages] calls the database (rows, flags, timestamps, counter)
    is the one before, every call returned the same list, and every
    recipient's queue size is unchanged.  Over all the methods that touch
    the [messages] table, a row leaves a recipient's undelivered rows in
    three ways only: a [mark_delivered] of its id, of the queue or of the
    store; an [add_message] whose eviction deletes its id; or a
    [delete_old_messages] whose cutoff lies after its creation time, and
    every such sweep does remove it. *)
Theorem get_messages_is_a_pure_read (max_messages : Z) :
  (forall n user_id db,
     db_after (repeat_sql n (OfflineQueue.get_messages user_id)) db = db
     /\ result_of (repeat_sql n (OfflineQueue.get_messages user_id)) db
        = List.repeat (result_of (OfflineQueue.get_messages user_id) db) n
     /\ forall u,
          queue_size u (db_after (repeat_sql n (OfflineQueue.get_messages user_id)) db)
          = queue_size u db)
  /\ (forall op db u r,
        In r (undelivered_rows u db) ->
        ~ In r (undelivered_rows u (run_message_op max_messages op db)) ->
        (exists now, op = OfQueue (MarkDelivered now (msg_id r))
                     \/ op = StoreMarkDelivered now (msg_id r))
        \/ (exists now u' m s old,
              op = OfQueue (AddMessage now u' m s)
              /\ (max_messages <= queue_size u' db)%Z
              /\ oldest_undelivered u' db = Some old
              /\ msg_id old = msg_id r)
        \/ (exists now days,
              op = DeleteOldMessages now days
              /\ (msg_created_at r < now - 86400 * Z.of_nat days)%Z))
  /\ (forall now days db u r,
        In r (undelivered_rows u db) ->
        (msg_created_at r < now - 86400 * Z.of_nat days)%Z ->
        ~ In r (undelivered_rows u
                  (run_message_op max_messages (DeleteOldMessages now days) db))).
Proof.
  split; [|split].
  - intros n user_id db. destruct (repeat_get_messages n user_id db) as [Hdb Hres].
    repeat split; [exact Hdb | exact Hres |]. intros u. now rewrite Hdb.
  - intros op db u r Hin Hout.
    assert (In r (messages db) /\ undelivered_for u r = true) as [Hr Hund]
      by (unfold undelivered_rows in Hin; now apply filter_In in Hin).
    destruct op as [op|now s rcp room type content|u'|now i|now days];
      cbn [run_message_op] in Hout.
    + destruct (queue_op_removes max_messages op db u r Hin Hout)
        as [[now ->]|(now & u' & m & s & old & -> & Hfull & Hold & Hid)].
      * left. exists now. now left.
      * right. left. now exists now, u', m, s, old.
    + exfalso. apply Hout. unfold undelivered_rows.
      change (messages (db_after (MessageStore.save_message now s rcp room type content) db))
        with (messages db ++
              [ {| msg_id := messages_seq db + 1; msg_sender_id := s;
                   msg_recipient_id := rcp; msg_room_id := room;
                   msg_message_type := type;
                   msg_content := if truthy content then Some content else None;
                   msg_delivered := false; msg_created_at := now;
                   msg_delivered_at := None |} ]).
      rewrite List.filter_app. apply in_or_app. now left.
    + exfalso. apply Hout. exact Hin.
    + left. exists now. right. f_equal.
      destruct (has_id i r) eqn:Hid.
      * unfold has_id in Hid. apply Z.eqb_eq in Hid. now symmetry.
      * exfalso. apply Hout. unfold undelivered_rows.
        change (messages (db_after (MessageStore.mark_delivered now i) db))
          with (List.map (fun r => if has_id i r then set_delivered now r else r)
                  (messages db)).
        apply filter_In. split; [|exact Hund].
        apply in_map_iff. exists r. now rewrite Hid.
    + right. right. exists now, days. split; [reflexivity|].
      destruct (Z.lt_ge_cases (msg_created_at r) (now - 86400 * Z.of_nat days))
        as [Hlt|Hge]; [exact Hlt|].
      exfalso. apply Hout. unfold undelivered_rows.
      change (messages (db_after (MessageStore.delete_old_messages now days) db))
        with (List.filter
                (fun r => negb (msg_created_at r <? now - 86400 * Z.of_nat days)%Z)
                (messages db)).
      apply filter_In. split; [|exact Hund]. apply filter_In. split; [exact Hr|].
      apply negb_true_iff, Z.ltb_ge. exact Hge.
  - intros now days db u r _ Hlt Hin. cbn [run_message_op] in Hin.
    unfold undelivered_rows in Hin. apply filter_In in Hin as [Hin _].
    change (messages (db_after (MessageStore.delete_old_messages now days) db))
      with (List.filter
              (fun r => negb (msg_created_at r <? now - 86400 * Z.of_nat days)%Z)
              (messages db)) in Hin.
    apply filter_In in Hin as [_ Hkeep]. apply negb_true_iff, Z.ltb_ge in Hkeep. lia.
Qed.

(** C10 as stated fails: the retention sweep of the message store deletes
    a queued message that was neither marked delivered nor evicted. *)
Lemma retention_sweep_removes_an_undelivered_message :
  let db := db_after (OfflineQueue.add_message 100 0 7 (PStr "hello") (PInt 3))
              init_database in
  let db' := db_after (MessageStore.delete_old_messages (31 * 86400) 30) db in
  List.map msg_delivered (messages db) = [false]
  /\ queue_size 7 db = 1%Z
  /\ messages db' = []
  /\ queue_size 7 db' = 0%Z.
Proof. repeat split. Qed.

(** ** Marking delivered *)

Lemma set_delivered_twice t1 t2 r :
  set_delivered t2 (set_delivered t1 r) = set_delivered t2 r.
Proof. reflexivity. Qed.

(** C8, as amended.  [mark_delivered] is one-way on the delivered flag and
    on the nullness of [delivered_at]: the rows with the id get
    [delivered = 1] and [delivered_at = now], and no call turns a set flag
    or a set timestamp back.  It is not idempotent on the timestamp: a
    second call on the same id overwrites [delivered_at], leaving the table
    as if only the second call had been made; it is a no-op exactly on
    the rows whose [delivered_at] already holds the second call's reading.
    The store's [mark_delivered] is the same update. *)
Theorem mark_delivered_is_one_way_and_last_call_wins :
  MessageStore.mark_delivered = OfflineQueue.mark_delivered
  /\ (forall now message_id db r',
        In r' (messages (db_after (OfflineQueue.mark_delivered now message_id) db)) ->
        msg_id r' = message_id ->
        msg_delivered r' = true /\ msg_delivered_at r' = Some now)
  /\ (forall now message_id db,
        Forall2
          (fun r r' =>
             msg_id r' = msg_id r
             /\ msg_sender_id r' = msg_sender_id r
             /\ msg_recipient_id r' = msg_recipient_id r
             /\ msg_room_id r' = msg_room_id r
             /\ msg_message_type r' = msg_message_type r
             /\ msg_content r' = msg_content r
             /\ msg_created_at r' = msg_created_at r
             /\ (msg_delivered r = true -> msg_delivered r' = true)
             /\ (msg_delivered_at r <> None -> msg_delivered_at r' <> None))
          (messages db)
          (messages (db_after (OfflineQueue.mark_delivered now message_id) db)))
  /\ (forall t1 t2 message_id db,
        db_after (OfflineQueue.mark_delivered t2 message_id)
          (db_after (OfflineQueue.mark_delivered t1 message_id) db)
        = db_after (OfflineQueue.mark_delivered t2 message_id) db)
  /\ (forall t1 t2 message_id db,
        (exists r, In r (messages db) /\ msg_id r = message_id) ->
        (db_after (OfflineQueue.mark_delivered t2 message_id)
           (db_after (OfflineQueue.mark_delivered t1 message_id) db)
         = db_after (OfflineQueue.mark_delivered t1 message_id) db
         <-> t2 = t1)).
Proof.
  assert (forall t1 t2 message_id db,
            db_after (OfflineQueue.mark_delivered t2 message_id)
              (db_after (OfflineQueue.mark_delivered t1 message_id) db)
            = db_after (OfflineQueue.mark_delivered t2 message_id) db) as Hlast.
  { intros t1 t2 message_id db.
    unfold db_after, OfflineQueue.mark_delivered, update_messages; simpl.
    f_equal. rewrite List.map_map. apply List.map_ext. intros r.
    destruct (has_id message_id r) eqn:Hid.
    - change (has_id message_id (set_delivered t1 r)) with (has_id message_id r).
      now rewrite Hid.
    - now rewrite Hid. }
  split; [reflexivity|]. split; [|split; [|split; [exact Hlast|]]].
  - intros now message_id db r' Hin Hid. rewrite mark_delivered_messages in Hin.
    apply in_map_iff in Hin as (r & Hr & _).
    destruct (has_id message_id r) eqn:Hhas; subst r'; [now split|].
    unfold has_id in Hhas. apply Z.eqb_neq in Hhas. contradiction.
  - intros now message_id db. rewrite mark_delivered_messages.
    induction (messages db) as [|r l IH]; simpl; constructor; [|exact IH].
    destruct (has_id message_id r); simpl; repeat split; auto; discriminate.
  - intros t1 t2 message_id db (r & Hr & Hid). rewrite Hlast. split.
    + intros Heq. apply (f_equal messages) in Heq.
      rewrite !mark_delivered_messages in Heq.
      assert (has_id message_id r = true) as Hhas
        by (unfold has_id; now apply Z.eqb_eq).
      assert (forall l, In r l ->
                List.map (fun r => if has_id message_id r then set_delivered t2 r else r) l
                = List.map (fun r => if has_id message_id r then set_delivered t1 r else r) l ->
                t2 = t1) as Hmap.
      { induction l as [|x l IH]; intros Hin Hl; [destruct Hin|].
        simpl in Hl. injection Hl as Hx Hl. destruct Hin as [->|Hin]; [|now apply IH].
        rewrite Hhas in Hx. now injection Hx. }
      now apply (Hmap (messages db)).
    + now intros ->.
Qed.

(** C8 as stated fails: a second [mark_delivered] on the same id, one
    clock reading later, changes the stored [delivered_at] again. *)
Lemma mark_delivered_twice_changes_delivered_at :
  let db0 := db_after (OfflineQueue.add_message 100 10 88 (PStr "Test") (PInt 1))
               init_database in
  let db1 := db_after (OfflineQueue.mark_delivered 20 1) db0 in
  let db2 := db_after (OfflineQueue.mark_delivered 30 1) db1 in
  List.map msg_delivered_at (messages db0) = [None]
  /\ List.map msg_delivered_at (messages db1) = [Some 20%Z]
  /\ List.map msg_delivered_at (messages db2) = [Some 30%Z]
  /\ db2 <> db1.
Proof.
  repeat split; try reflexivity. intros H. apply (f_equal messages) in H.
  vm_compute in H. discriminate H.
Qed.

(** ** The room directory *)

(** [join_room] by cases, as the source branches. *)
Lemma join_room_cases now room_id user_id db :
  match room_capacity room_id db with
  | None =>
      result_of (RoomManager.join_room now room_id user_id) db = false
      /\ db_after (RoomManager.join_room now room_id user_id) db = db
  | Some max_members =>
      if (max_members <=? member_count room_id db)%Z then
        result_of (RoomManager.join_room now room_id user_id) db = false
        /\ db_after (RoomManager.join_room now room_id user_id) db = db
      else
        result_of (RoomManager.join_room now room_id user_id) db = true
        /\ db_after (RoomManager.join_room now room_id user_id) db
           = if is_member room_id user_id db then db
             else with_member now room_id user_id db
  end.
Proof.
  unfold room_capacity, member_count, result_of, db_after, RoomManager.join_room, sql_bind.
  destruct (fst (select_max_members room_id db)) as [max_members|] eqn:Hroom;
    [|now split].
  change (snd (select_max_members room_id db)) with db.
  change (snd (count_members room_id db)) with db.
  destruct (max_members <=? fst (count_members room_id db))%Z; [now split|].
  unfold insert_member, is_member.
  destruct (existsb _ (room_members db)); now split.
Qed.

Lemma join_room_or_raise_cases now room_id user_id db :
  RoomManager.join_room_or_raise now room_id user_id db
  = match room_capacity room_id db with
    | None => (Some false, db)
    | Some max_members =>
        if (max_members <=? member_count room_id db)%Z then (Some false, db)
        else if fits_int64 user_id
             then (Some true,
                   if is_member room_id user_id db then db
                   else with_member now room_id user_id db)
             else (None, db)
    end.
Proof.
  unfold room_capacity, member_count, result_of, RoomManager.join_room_or_raise,
    sql_bind.
  destruct (fst (select_max_members room_id db)) as [max_members|] eqn:Hroom;
    [|reflexivity].
  change (snd (select_max_members room_id db)) with db.
  change (snd (count_members room_id db)) with db.
  destruct (max_members <=? fst (count_members room_id db))%Z; [reflexivity|].
  destruct (fits_int64 user_id); [|reflexivity].
  unfold insert_member, is_member.
  now destruct (existsb _ (room_members db)).
Qed.

Lemma room_capacity_none room_id l :
  existsb (fun r => String.eqb (room_room_id r) room_id) l = false ->
  List.filter (fun r => String.eqb (room_room_id r) room_id) l = [].
Proof.
  induction l as [|x l IH]; simpl; [reflexivity|].
  destruct (String.eqb (room_room_id x) room_id); simpl; [discriminate | exact IH].
Qed.

Lemma room_capacity_some room_id l :
  existsb (fun r => String.eqb (room_room_id r) room_id) l = true ->
  List.filter (fun r => String.eqb (room_room_id r) room_id) l <> [].
Proof.
  induction l as [|x l IH]; simpl; [discriminate|].
  destruct (String.eqb (room_room_id x) room_id); simpl; [discriminate | exact IH].
Qed.

Lemma room_capacity_with_room now rid name by_ priv maxm db rid' :
  existsb (fun r => String.eqb (room_room_id r) rid) (rooms db) = false ->
  room_capacity rid' (with_room now rid name by_ priv maxm db)
  = if String.eqb rid rid' then Some maxm else room_capacity rid' db.
Proof.
  intros Hex. unfold room_capacity, result_of, select_max_members, with_room; simpl.
  rewrite List.filter_app; simpl.
  destruct (String.eqb_spec rid rid') as [<-|Hne].
  - now rewrite room_capacity_none.
  - destruct (List.filter _ (rooms db)); reflexivity.
Qed.

Lemma member_count_unknown_room room_id db :
  (forall m, In m (room_members db) -> room_capacity (member_room_id m) db <> None) ->
  room_capacity room_id db = None -> member_count room_id db = 0%Z.
Proof.
  intros Hknown Hnone. unfold member_count, result_of, count_members; simpl.
  rewrite filter_none; [reflexivity|]. intros m Hm.
  destruct (String.eqb_spec (member_room_id m) room_id) as [Heq|]; [|reflexivity].
  exfalso. apply (Hknown m Hm). now rewrite Heq.
Qed.

Lemma rooms_ok_step op db : rooms_ok db -> rooms_ok (run_room_op op db).
Proof.
  intros [Hknown Hcap].
  destruct op as [now rid name by_ priv maxm | now rid u | rid u]; simpl.
  - (* create_room *)
    unfold db_after, RoomManager.create_room, sql_bind, insert_room; simpl.
    destruct (existsb (fun r => String.eqb (room_room_id r) rid) (rooms db)) eqn:Hex;
      simpl; [now split|].
    fold (with_room now rid name by_ priv maxm db).
    assert (room_capacity rid db = None) as Hnew
      by (unfold room_capacity, result_of, select_max_members; simpl;
          now rewrite room_capacity_none).
    split.
    + intros m Hm. rewrite (room_capacity_with_room _ _ _ _ _ _ _ _ Hex).
      destruct (String.eqb rid (member_room_id m)); [discriminate | now apply Hknown].
    + intros rid' maxm' Hsome Hpos.
      rewrite (room_capacity_with_room _ _ _ _ _ _ _ _ Hex) in Hsome.
      destruct (String.eqb_spec rid rid') as [<-|Hne].
      * injection Hsome as <-.
        change (member_count rid _) with (member_count rid db).
        rewrite (member_count_unknown_room rid db Hknown Hnew). exact Hpos.
      * now apply Hcap.
  - (* join_room *)
    pose proof (join_room_cases now rid u db) as Hjoin.
    destruct (room_capacity rid db) as [maxm|] eqn:Hroom;
      [|destruct Hjoin as [_ ->]; now split].
    destruct (Z.leb_spec maxm (member_count rid db)) as [Hfull|Hfree];
      [destruct Hjoin as [_ ->]; now split|].
    destruct Hjoin as [_ ->].
    destruct (is_member rid u db); [now split|].
    split.
    + intros m Hm. change (room_capacity (member_room_id m) (with_member now rid u db))
        with (room_capacity (member_room_id m) db).
      simpl in Hm. apply in_app_or in Hm as [Hm|[<-|[]]]; [now apply Hknown|].
      simpl. now rewrite Hroom.
    + intros rid' maxm' Hsome Hpos.
      change (room_capacity rid' (with_member now rid u db))
        with (room_capacity rid' db) in Hsome.
      unfold member_count, result_of, count_members, with_member; simpl.
      rewrite List.filter_app, List.length_app; simpl.
      specialize (Hcap rid' maxm' Hsome Hpos).
      unfold member_count, result_of, count_members in Hcap, Hfree; simpl in Hcap, Hfree.
      destruct (String.eqb_spec rid rid') as [<-|Hne]; simpl; [|lia].
      rewrite Hroom in Hsome. injection Hsome as <-. lia.
  - (* leave_room *)
    unfold db_after, RoomManager.leave_room, delete_member; simpl.
    split.
    + intros m Hm. simpl in Hm. apply filter_In in Hm as [Hm _]. now apply Hknown.
    + intros rid' maxm' Hsome Hpos. specialize (Hcap rid' maxm' Hsome Hpos).
      unfold member_count, result_of, count_members in *; simpl in *.
      assert (forall l, length (List.filter (fun m => String.eqb (member_room_id m) rid')
                (List.filter (fun m => negb (String.eqb (member_room_id m) rid
                                             && (member_user_id m =? u)%Z)) l))
              <= length (List.filter (fun m => String.eqb (member_room_id m) rid') l))%nat
        as Hlen.
      { induction l as [|x l IH]; simpl; [lia|].
        destruct (negb _); simpl; destruct (String.eqb (member_room_id x) rid');
          simpl; lia. }
      specialize (Hlen (room_members db)). lia.
Qed.

Lemma rooms_ok_run ops : forall db, rooms_ok db -> rooms_ok (run_room_ops ops db).
Proof.
  induction ops as [|op ops IH]; intros db Hok; simpl; [exact Hok|].
  apply IH. now apply rooms_ok_step.
Qed.

(** C4, as amended.  After any sequence of create/join/leave calls on a
    freshly initialised database, a room whose [max_members] is not
    negative never has more members than [max_members].  On any database,
    a join on an unknown room returns [False] and writes nothing, and a
    join while the member count is at or above [max_members] returns
    [False] and writes nothing. *)
Theorem room_member_count_stays_within_capacity (ops : list room_op) :
  let db := run_room_ops ops init_database in
  (forall room_id max_members,
     room_capacity room_id db = Some max_members ->
     (0 <= max_members)%Z -> (member_count room_id db <= max_members)%Z)
  /\ (forall (any : Database) now room_id user_id,
        room_capacity room_id any = None ->
        result_of (RoomManager.join_room now room_id user_id) any = false
        /\ db_after (RoomManager.join_room now room_id user_id) any = any)
  /\ (forall (any : Database) now room_id user_id max_members,
        room_capacity room_id any = Some max_members ->
        (max_members <= member_count room_id any)%Z ->
        result_of (RoomManager.join_room now room_id user_id) any = false
        /\ db_after (RoomManager.join_room now room_id user_id) any = any).
Proof.
  intros db. split; [|split].
  - assert (rooms_ok init_database) as Hinit.
    { split; [intros m []|]. intros rid maxm H. discriminate H. }
    exact (proj2 (rooms_ok_run ops init_database Hinit)).
  - intros db' now rid u Hnone. pose proof (join_room_cases now rid u db') as H.
    now rewrite Hnone in H.
  - intros db' now rid u maxm Hsome Hfull.
    pose proof (join_room_cases now rid u db') as H. rewrite Hsome in H.
    apply Z.leb_le in Hfull. now rewrite Hfull in H.
Qed.

(** C4 as stated fails for a room created with a negative [max_members]:
    its member count, 0, exceeds it. *)
Lemma negative_capacity_room_is_over_capacity :
  let db := run_room_ops [CreateRoom 0 "odd" "Odd" 1 false (-1)] init_database in
  room_capacity "odd" db = Some (-1)%Z
  /\ member_count "odd" db = 0%Z
  /\ ~ (member_count "odd" db <= -1)%Z.
Proof.
  repeat split; try reflexivity. intros H. vm_compute in H. apply H. reflexivity.
Qed.

(** The second of two joins by the same user, after a first that
    succeeded, writes nothing; it returns [True] exactly when the room
    still has a free place. *)
Lemma join_room_twice t1 t2 room_id user_id db :
  result_of (RoomManager.join_room t1 room_id user_id) db = true ->
  let db1 := db_after (RoomManager.join_room t1 room_id user_id) db in
  is_member room_id user_id db1 = true
  /\ db_after (RoomManager.join_room t2 room_id user_id) db1 = db1
  /\ member_count room_id db1
     = (member_count room_id db + if is_member room_id user_id db then 0 else 1)%Z
  /\ (result_of (RoomManager.join_room t2 room_id user_id) db1 = true
      <-> exists max_members,
            room_capacity room_id db1 = Some max_members
            /\ (member_count room_id db1 < max_members)%Z).
Proof.
  intros Hfirst db1.
  pose proof (join_room_cases t1 room_id user_id db) as H1.
  destruct (room_capacity room_id db) as [maxm|] eqn:Hroom;
    [|destruct H1 as [H1 _]; congruence].
  destruct (maxm <=? member_count room_id db)%Z;
    [destruct H1 as [H1 _]; congruence|].
  destruct H1 as [_ Hdb1]. fold db1 in Hdb1.
  assert (room_capacity room_id db1 = Some maxm) as Hroom1
    by (rewrite Hdb1; destruct (is_member room_id user_id db); exact Hroom).
  assert (is_member room_id user_id db1 = true) as Hmem1.
  { rewrite Hdb1. destruct (is_member room_id user_id db) eqn:Hmem; [exact Hmem|].
    unfold is_member, with_member; simpl. rewrite existsb_app; simpl.
    now rewrite String.eqb_refl, Z.eqb_refl, orb_true_r. }
  assert (member_count room_id db1
          = (member_count room_id db + if is_member room_id user_id db then 0 else 1)%Z)
    as Hcount.
  { rewrite Hdb1. destruct (is_member room_id user_id db); [lia|].
    unfold member_count, result_of, count_members, with_member; simpl.
    rewrite List.filter_app, List.length_app; simpl. rewrite String.eqb_refl; simpl. lia. }
  pose proof (join_room_cases t2 room_id user_id db1) as H2.
  rewrite Hroom1, Hmem1 in H2.
  repeat split; try assumption.
  - destruct (maxm <=? member_count room_id db1)%Z; now destruct H2.
  - intros Hsecond. exists maxm. split; [exact Hroom1|].
    destruct (Z.leb_spec maxm (member_count room_id db1)); [|assumption].
    destruct H2 as [H2 _]. congruence.
  - intros (maxm' & Hcap & Hlt). rewrite Hroom1 in Hcap. injection Hcap as <-.
    destruct (Z.leb_spec maxm (member_count room_id db1)); [lia|]. now destruct H2.
Qed.

(** C7, at the failing input.  In a room of capacity 1, user 1 joins
    (success, count 1) and joins again: the second call finds the room
    full before it looks at the membership and returns [False]; the
    membership is unchanged. *)
Theorem second_join_of_a_full_room_is_refused :
  let db0 := run_room_ops [CreateRoom 0 "general" "General" 1 false 1] init_database in
  let db1 := db_after (RoomManager.join_room 1 "general" 1) db0 in
  result_of (RoomManager.join_room 1 "general" 1) db0 = true
  /\ member_count "general" db1 = 1%Z
  /\ result_of (RoomManager.join_room 2 "general" 1) db1 = false
  /\ db_after (RoomManager.join_room 2 "general" 1) db1 = db1.
Proof.
  intros db0 db1.
  assert (result_of (RoomManager.join_room 1 "general" 1) db0 = true) as Hfirst
    by reflexivity.
  destruct (join_room_twice 1 2 "general" 1 db0 Hfirst) as (_ & Hsame & Hcount & Hiff).
  fold db1 in Hsame, Hcount, Hiff.
  split; [exact Hfirst|]. split; [exact Hcount|]. split; [|exact Hsame].
  destruct (result_of (RoomManager.join_room 2 "general" 1) db1) eqn:Hsecond;
    [|reflexivity].
  destruct (proj1 Hiff eq_refl) as (maxm & Hcap & Hlt).
  vm_compute in Hcap. injection Hcap as <-. rewrite Hcount in Hlt.
  vm_compute in Hlt. discriminate Hlt.
Qed.

(** ** The connection pool *)

Lemma pool_count_eq user_id pool :
  ConnectionPool.get_user_connection_count user_id pool
  = Z.of_nat (length (pool_connections user_id pool)).
Proof.
  unfold ConnectionPool.get_user_connection_count, pool_connections.
  now destruct (ConnectionPool.user_connections pool !! user_id).
Qed.

Lemma list_remove_first_length x l :
  list_mem x l = true -> S (length (list_remove_first x l)) = length l.
Proof.
  unfold list_mem. induction l as [|y l IH]; simpl; [discriminate|].
  destruct (String.eqb x y); simpl; [reflexivity|]. intros H. now rewrite IH.
Qed.

(** The pool after a call, seen through [pool_connections]. *)
Lemma pool_add_connections user_id connection_id pool u :
  pool_connections u (snd (ConnectionPool.add_connection user_id connection_id pool))
  = if ConnectionPool.can_add_connection user_id pool && bool_decide (u = user_id)
    then pool_connections u pool ++ [connection_id]
    else pool_connections u pool.
Proof.
  unfold ConnectionPool.add_connection.
  destruct (ConnectionPool.can_add_connection user_id pool); simpl; [|reflexivity].
  unfold pool_connections; simpl. case_bool_decide as Hu.
  - subst u. now rewrite lookup_insert_eq.
  - rewrite lookup_insert_ne by congruence. reflexivity.
Qed.

Lemma pool_remove_connections user_id connection_id pool u :
  pool_connections u (ConnectionPool.remove_connection user_id connection_id pool)
  = if list_mem connection_id (pool_connections user_id pool) && bool_decide (u = user_id)
    then list_remove_first connection_id (pool_connections u pool)
    else pool_connections u pool.
Proof.
  unfold ConnectionPool.remove_connection, pool_connections.
  destruct (ConnectionPool.user_connections pool !! user_id) as [conns|] eqn:Hconns;
    [|reflexivity].
  destruct (list_mem connection_id conns); simpl; [|reflexivity].
  case_bool_decide as Hu.
  - subst u. rewrite Hconns.
    destruct (list_remove_first connection_id conns) eqn:Hrem; simpl.
    + now rewrite lookup_delete_eq.
    + now rewrite lookup_insert_eq.
  - destruct (list_remove_first connection_id conns); simpl.
    + rewrite lookup_delete_ne by congruence. reflexivity.
    + rewrite lookup_insert_ne by congruence. reflexivity.
Qed.

Lemma pool_limit_step op pool :
  ConnectionPool.max_connections_per_user (run_pool_op op pool)
  = ConnectionPool.max_connections_per_user pool.
Proof.
  destruct op as [u c|u c]; simpl.
  - unfold ConnectionPool.add_connection.
    now destruct (negb (ConnectionPool.can_add_connection u pool)).
  - unfold ConnectionPool.remove_connection.
    destruct (ConnectionPool.user_connections pool !! u) as [conns|]; [|reflexivity].
    destruct (list_mem c conns); [|reflexivity].
    now destruct (list_remove_first c conns).
Qed.

Lemma can_add_connection_spec user_id pool :
  (1 <= ConnectionPool.max_connections_per_user pool)%Z ->
  ConnectionPool.can_add_connection user_id pool = true
  <-> (ConnectionPool.get_user_connection_count user_id pool
       < ConnectionPool.max_connections_per_user pool)%Z.
Proof.
  intros Hpos.
  unfold ConnectionPool.can_add_connection, ConnectionPool.get_user_connection_count.
  destruct (ConnectionPool.user_connections pool !! user_id).
  - apply Z.ltb_lt.
  - split; [lia | reflexivity].
Qed.

Lemma pool_count_step op pool u :
  (1 <= ConnectionPool.max_connections_per_user pool)%Z ->
  (ConnectionPool.get_user_connection_count u pool
   <= ConnectionPool.max_connections_per_user pool)%Z ->
  (ConnectionPool.get_user_connection_count u (run_pool_op op pool)
   <= ConnectionPool.max_connections_per_user pool)%Z.
Proof.
  intros Hpos Hle. destruct op as [v c|v c]; simpl; rewrite pool_count_eq.
  - rewrite pool_add_connections.
    destruct (ConnectionPool.can_add_connection v pool) eqn:Hcan; simpl;
      [|now rewrite <- pool_count_eq].
    case_bool_decide as Hu; [|now rewrite <- pool_count_eq].
    subst v. apply can_add_connection_spec in Hcan; [|exact Hpos].
    rewrite pool_count_eq in Hcan. rewrite List.length_app; simpl. lia.
  - rewrite pool_remove_connections.
    destruct (list_mem c (pool_connections v pool)) eqn:Hmem; simpl;
      [|now rewrite <- pool_count_eq].
    case_bool_decide as Hu; [|now rewrite <- pool_count_eq].
    subst v. apply list_remove_first_length in Hmem.
    rewrite pool_count_eq in Hle. lia.
Qed.

Lemma pool_invariant L ops : forall pool,
  (1 <= L)%Z ->
  ConnectionPool.max_connections_per_user pool = L ->
  (forall u, (ConnectionPool.get_user_connection_count u pool <= L)%Z) ->
  ConnectionPool.max_connections_per_user (run_pool_ops ops pool) = L
  /\ forall u, (ConnectionPool.get_user_connection_count u (run_pool_ops ops pool) <= L)%Z.
Proof.
  induction ops as [|op ops IH]; intros pool Hpos Hmax Hle; simpl; [now split|].
  apply IH; [exact Hpos | now rewrite pool_limit_step |].
  intros u. rewrite <- Hmax. apply pool_count_step; rewrite Hmax; [exact Hpos | apply Hle].
Qed.

(** C3, as amended.  For a pool built with a per-user limit [L >= 1], after
    any sequence of add/remove calls no user has more than [L] connections;
    an add for a user whose count equals [L] returns [False] and leaves the
    pool as it was; and after the removal of one of the user's connections
    an add for that user returns [True]. *)
Theorem pool_never_exceeds_limit (L : Z) (ops : list pool_op) :
  (1 <= L)%Z ->
  let pool := run_pool_ops ops (ConnectionPool.init L) in
  (forall u, (ConnectionPool.get_user_connection_count u pool <= L)%Z)
  /\ (forall u c,
        ConnectionPool.get_user_connection_count u pool = L ->
        ConnectionPool.add_connection u c pool = (false, pool))
  /\ (forall u c c',
        In c' (pool_connections u pool) ->
        fst (ConnectionPool.add_connection u c
               (ConnectionPool.remove_connection u c' pool)) = true).
Proof.
  intros Hpos pool.
  destruct (pool_invariant L ops (ConnectionPool.init L) Hpos eq_refl) as [Hmax Hle].
  { intros u. unfold ConnectionPool.get_user_connection_count; simpl.
    rewrite lookup_empty. lia. }
  fold pool in Hmax, Hle. split; [exact Hle|]. split.
  - intros u c Hfull. unfold ConnectionPool.add_connection.
    assert (ConnectionPool.can_add_connection u pool = false) as ->; [|reflexivity].
    destruct (ConnectionPool.can_add_connection u pool) eqn:Hcan; [|reflexivity].
    apply can_add_connection_spec in Hcan; lia.
  - intros u c c' Hin.
    assert (list_mem c' (pool_connections u pool) = true) as Hmem.
    { unfold list_mem. apply existsb_exists. exists c'. split; [exact Hin|].
      apply String.eqb_refl. }
    pose proof (list_remove_first_length _ _ Hmem) as Hlen.
    set (pool' := ConnectionPool.remove_connection u c' pool).
    assert (ConnectionPool.max_connections_per_user pool' = L) as Hmax'
      by (unfold pool'; rewrite <- Hmax; apply (pool_limit_step (PoolRemove u c'))).
    assert (ConnectionPool.can_add_connection u pool' = true) as Hcan.
    { apply can_add_connection_spec; [lia|]. rewrite Hmax', pool_count_eq.
      unfold pool'. rewrite pool_remove_connections, Hmem; simpl.
      rewrite bool_decide_eq_true_2 by reflexivity.
      specialize (Hle u). rewrite pool_count_eq in Hle. lia. }
    unfold ConnectionPool.add_connection. now rewrite Hcan.
Qed.

Lemma pool_never_exceeds_limit_witness :
  (1 <= 3)%Z
  /\ let pool := run_pool_ops [PoolAdd 1 "c1"; PoolAdd 1 "c2"; PoolAdd 1 "c3";
                               PoolAdd 1 "c4"] (ConnectionPool.init 3) in
     (forall u, (ConnectionPool.get_user_connection_count u pool <= 3)%Z)
     /\ (forall u c,
           ConnectionPool.get_user_connection_count u pool = 3%Z ->
           ConnectionPool.add_connection u c pool = (false, pool))
     /\ (forall u c c',
           In c' (pool_connections u pool) ->
           fst (ConnectionPool.add_connection u c
                  (ConnectionPool.remove_connection u c' pool)) = true).
Proof.
  split; [lia|].
  apply (pool_never_exceeds_limit 3
           [PoolAdd 1 "c1"; PoolAdd 1 "c2"; PoolAdd 1 "c3"; PoolAdd 1 "c4"]).
  lia.
Defined.

(** C3 as stated fails for a limit of 0: a user the pool does not know is
    always admitted, so the first add succeeds although the user's count, 0,
    equals the limit, and the count then exceeds it. *)
Lemma pool_limit_zero_is_exceeded :
  let pool := ConnectionPool.init 0 in
  ConnectionPool.get_user_connection_count 1 pool = 0%Z
  /\ fst (ConnectionPool.add_connection 1 "c1" pool) = true
  /\ ConnectionPool.get_user_connection_count 1
       (snd (ConnectionPool.add_connection 1 "c1" pool)) = 1%Z
  /\ snd (ConnectionPool.add_connection 1 "c1" pool) <> pool.
Proof.
  repeat split; try reflexivity.
  intros H. apply (f_equal (ConnectionPool.get_user_connection_count 1)) in H.
  vm_compute in H. discriminate H.
Qed.

(** ** The connection registry *)

(** C9, as amended.  Registering under a connection id that is already
    present does not fail and does not leave the registry unchanged: the
    stored record is replaced by the new one, the id is appended once more
    to the registering user's list, and nothing else changes. *)
Theorem add_connection_overwrites_a_present_id
    (t_connected t_activity : Z) (connection_id : string) (user_id : Z)
    (sid : string) (cm : ConnectionManager.t) :
  ConnectionManager.get_connection connection_id cm <> None ->
  let cm' := ConnectionManager.add_connection t_connected t_activity
               connection_id user_id sid cm in
  ConnectionManager.get_connection connection_id cm'
  = Some {| ConnectionManager.connection_id := connection_id;
            ConnectionManager.user_id := user_id;
            ConnectionManager.sid := sid;
            ConnectionManager.connected_at := t_connected;
            ConnectionManager.last_activity := t_activity |}
  /\ ConnectionManager.get_user_connections user_id cm'
     = ConnectionManager.get_user_connections user_id cm ++ [connection_id]
  /\ (forall c, c <> connection_id ->
        ConnectionManager.get_connection c cm' = ConnectionManager.get_connection c cm)
  /\ (forall u, u <> user_id ->
        ConnectionManager.user_connections cm' !! u
        = ConnectionManager.user_connections cm !! u)
  /\ cm' <> cm.
Proof.
  intros _ cm'. unfold cm', ConnectionManager.add_connection,
    ConnectionManager.get_connection, ConnectionManager.get_user_connections; simpl.
  split; [apply lookup_insert_eq|]. split; [now rewrite lookup_insert_eq|].
  split; [intros c Hc; now rewrite lookup_insert_ne|].
  split; [intros u Hu; now rewrite lookup_insert_ne|].
  intros Heq. apply (f_equal (fun cm => ConnectionManager.user_connections cm !! user_id)) in Heq.
  simpl in Heq. rewrite lookup_insert_eq in Heq.
  destruct (ConnectionManager.user_connections cm !! user_id) as [conns|];
    [|discriminate].
  injection Heq as Heq. apply (f_equal (@length string)) in Heq.
  rewrite List.length_app in Heq. simpl in Heq. lia.
Qed.

Lemma add_connection_overwrites_a_present_id_witness :
  let cm := ConnectionManager.add_connection 0 0 "conn-1" 1 "sid-1" ConnectionManager.init in
  ConnectionManager.get_connection "conn-1" cm <> None
  /\ let cm' := ConnectionManager.add_connection 5 5 "conn-1" 2 "sid-2" cm in
     ConnectionManager.get_connection "conn-1" cm'
     = Some {| ConnectionManager.connection_id := "conn-1";
               ConnectionManager.user_id := 2;
               ConnectionManager.sid := "sid-2";
               ConnectionManager.connected_at := 5;
               ConnectionManager.last_activity := 5 |}
     /\ ConnectionManager.get_user_connections 2 cm'
        = ConnectionManager.get_user_connections 2 cm ++ ["conn-1"]
     /\ (forall c, c <> "conn-1" ->
           ConnectionManager.get_connection c cm' = ConnectionManager.get_connection c cm)
     /\ (forall u, u <> 2%Z ->
           ConnectionManager.user_connections cm' !! u
           = ConnectionManager.user_connections cm !! u)
     /\ cm' <> cm.
Proof.
  assert (ConnectionManager.get_connection "conn-1"
            (ConnectionManager.add_connection 0 0 "conn-1" 1 "sid-1" ConnectionManager.init)
          <> None) as Hpresent.
  { unfold ConnectionManager.get_connection, ConnectionManager.add_connection; simpl.
    rewrite lookup_insert_eq. discriminate. }
  split; [exact Hpresent|].
  exact (add_connection_overwrites_a_present_id 5 5 "conn-1" 2 "sid-2" _ Hpresent).
Defined.

(** C9 as stated fails: a second registration under ["conn-1"] succeeds and
    changes the registry (the record now belongs to user 2, and both users
    list the id). *)
Lemma duplicate_connection_id_is_accepted :
  let cm := ConnectionManager.add_connection 0 0 "conn-1" 1 "sid-1" ConnectionManager.init in
  let cm' := ConnectionManager.add_connection 5 5 "conn-1" 2 "sid-2" cm in
  (ConnectionManager.user_id <$> ConnectionManager.get_connection "conn-1" cm) = Some 1%Z
  /\ (ConnectionManager.user_id <$> ConnectionManager.get_connection "conn-1" cm') = Some 2%Z
  /\ ConnectionManager.get_user_connections 1 cm' = ["conn-1"]
  /\ ConnectionManager.get_user_connections 2 cm' = ["conn-1"]
  /\ cm' <> cm.
Proof.
  repeat split; try (vm_compute; reflexivity).
  intros H. apply (f_equal (ConnectionManager.get_user_connections 2)) in H.
  vm_compute in H. discriminate H.
Qed.

Lemma list_remove_first_in x y l : In y (list_remove_first x l) -> In y l.
Proof.
  induction l as [|z l IH]; simpl; [intros []|].
  destruct (String.eqb x z); [now right|]. intros [->|H]; [now left | right; now apply IH].
Qed.

Lemma list_remove_first_nodup x l :
  List.NoDup l -> List.NoDup (list_remove_first x l) /\ ~ In x (list_remove_first x l).
Proof.
  induction 1 as [|z l Hz Hnd [IHnd IHx]]; simpl; [split; [constructor | intros []]|].
  destruct (String.eqb_spec x z) as [->|Hne]; [now split|].
  split.
  - constructor; [|exact IHnd]. intros H. apply Hz. eapply list_remove_first_in, H.
  - intros [H|H]; [congruence | now apply IHx].
Qed.

Lemma registry_add_connections t_connected t_activity connection_id user_id sid cm u :
  ConnectionManager.get_user_connections u
    (ConnectionManager.add_connection t_connected t_activity connection_id user_id sid cm)
  = if bool_decide (u = user_id)
    then ConnectionManager.get_user_connections u cm ++ [connection_id]
    else ConnectionManager.get_user_connections u cm.
Proof.
  unfold ConnectionManager.get_user_connections, ConnectionManager.add_connection; simpl.
  case_bool_decide as Hu.
  - subst u. now rewrite lookup_insert_eq.
  - rewrite lookup_insert_ne by congruence. reflexivity.
Qed.

Lemma registry_remove_connections connection_id cm cm' info u :
  ConnectionManager.get_connection connection_id cm = Some info ->
  ConnectionManager.remove_connection connection_id cm = Some cm' ->
  ConnectionManager.connections cm'
  = delete connection_id (ConnectionManager.connections cm)
  /\ ConnectionManager.get_user_connections u cm'
     = if bool_decide (u = ConnectionManager.user_id info)
       then list_remove_first connection_id (ConnectionManager.get_user_connections u cm)
       else ConnectionManager.get_user_connections u cm.
Proof.
  unfold ConnectionManager.get_connection, ConnectionManager.remove_connection,
    ConnectionManager.get_user_connections.
  intros ->.
  destruct (ConnectionManager.user_connections cm !! ConnectionManager.user_id info)
    as [conns|] eqn:Hconns.
  - destruct (list_mem connection_id conns); [|discriminate].
    destruct (list_remove_first connection_id conns) as [|c0 rest] eqn:Hrem;
      intros [= <-]; simpl; (split; [reflexivity|]); case_bool_decide as Hu.
    + subst u. now rewrite lookup_delete_eq, Hconns, Hrem.
    + rewrite lookup_delete_ne by congruence. reflexivity.
    + subst u. now rewrite lookup_insert_eq, Hconns, Hrem.
    + rewrite lookup_insert_ne by congruence. reflexivity.
  - intros [= <-]; simpl. split; [reflexivity|]. case_bool_decide as Hu; [|reflexivity].
    subst u. now rewrite Hconns.
Qed.

(** Registries built with fresh ids keep every listed id backed by a
    record. *)
Lemma built_with_fresh_ids_ok cm : built_with_fresh_ids cm -> registry_ok cm.
Proof.
  induction 1 as [|cm t1 t2 c u sid _ [IHrec IHnd] Hfresh|cm c cm' _ [IHrec IHnd] Hrem].
  - split.
    + intros u c. unfold ConnectionManager.get_user_connections; simpl.
      rewrite lookup_empty. intros [].
    + intros u. unfold ConnectionManager.get_user_connections; simpl.
      rewrite lookup_empty. constructor.
  - assert (forall v, ~ In c (ConnectionManager.get_user_connections v cm)) as Hnot.
    { intros v Hin. destruct (IHrec v c Hin) as (info & Hinfo & _). congruence. }
    split.
    + intros v c' Hin. rewrite registry_add_connections in Hin.
      unfold ConnectionManager.get_connection, ConnectionManager.add_connection; simpl.
      destruct (decide (c' = c)) as [->|Hne].
      * rewrite lookup_insert_eq. eexists; split; [reflexivity|]. simpl.
        case_bool_decide as Hv; [now subst v|]. now apply Hnot in Hin.
      * rewrite lookup_insert_ne by congruence. apply IHrec.
        case_bool_decide; [|exact Hin].
        apply in_app_or in Hin as [Hin|[Heq|[]]]; [exact Hin | congruence].
    + intros v. rewrite registry_add_connections. case_bool_decide; [|apply IHnd].
      apply List.NoDup_app; [apply IHnd | repeat constructor; intros [] |].
      intros x Hx [<-|[]]. now apply Hnot in Hx.
  - destruct (ConnectionManager.get_connection c cm) as [info|] eqn:Hinfo.
    + split.
      * intros v c' Hin.
        destruct (registry_remove_connections c cm cm' info v Hinfo Hrem) as [Hconns Hlist].
        rewrite Hlist in Hin.
        assert (In c' (ConnectionManager.get_user_connections v cm) /\ c' <> c)
          as [Hin' Hne].
        { case_bool_decide as Hv.
          - split; [eapply list_remove_first_in, Hin|]. intros ->.
            now apply (list_remove_first_nodup c _ (IHnd v)) in Hin.
          - split; [exact Hin|]. intros ->.
            destruct (IHrec v c Hin) as (info' & Hinfo' & Huser). congruence. }
        unfold ConnectionManager.get_connection. rewrite Hconns.
        rewrite lookup_delete_ne by congruence. now apply IHrec.
      * intros v.
        destruct (registry_remove_connections c cm cm' info v Hinfo Hrem) as [_ ->].
        case_bool_decide; [|apply IHnd]. now apply list_remove_first_nodup.
    + unfold ConnectionManager.remove_connection in Hrem.
      unfold ConnectionManager.get_connection in Hinfo. rewrite Hinfo in Hrem.
      injection Hrem as <-. now split.
Qed.

Lemma built_with_fresh_ids_listed cm : built_with_fresh_ids cm -> listed_have_records cm.
Proof.
  intros Hb u c Hin. destruct (built_with_fresh_ids_ok cm Hb) as [Hrec _].
  destruct (Hrec u c Hin) as (info & -> & _). discriminate.
Qed.

(** ** Direct messages *)

(** The fan-out loop emits once per listed id that has a record, in list
    order. *)
Lemma emit_to_connections_all cm message conns :
  (forall c, In c conns -> ConnectionManager.get_connection c cm <> None) ->
  Forall2
    (fun c e => exists info,
       ConnectionManager.get_connection c cm = Some info /\ e = message_emit message info)
    conns (CommunicationHub.emit_to_connections cm message conns).
Proof.
  induction conns as [|c conns IH]; intros Hrec; simpl; [constructor|].
  destruct (ConnectionManager.get_connection c cm) as [info|] eqn:Hinfo.
  - constructor; [now exists info|]. apply IH. intros c' Hc'. apply Hrec. now right.
  - exfalso. apply (Hrec c); [now left | exact Hinfo].
Qed.

Lemma send_to_user_or_raise_cases cm now user_id message db :
  CommunicationHub.send_to_user_or_raise cm now user_id message db
  = match ConnectionManager.get_user_connections user_id cm with
    | [] =>
        if binds (dict_get "sender_id" message) && fits_int64 user_id
        then (Some [],
              db_after (MessageStore.save_message now (dict_get "sender_id" message)
                          (Some user_id) None "direct" (PDict message)) db)
        else (None, db)
    | c :: conns =>
        (Some (CommunicationHub.emit_to_connections cm message (c :: conns)), db)
    end.
Proof.
  unfold CommunicationHub.send_to_user_or_raise, MessageStore.save_message_or_raise.
  destruct (ConnectionManager.get_user_connections user_id cm); [|reflexivity].
  now destruct (binds (dict_get "sender_id" message) && fits_int64 user_id).
Qed.

Lemma same_but_sender_refl r : same_but_sender r r.
Proof. repeat split. Qed.

(** C1, as amended.  Provided every connection id the registry lists for
    the recipient has a connection record, [send_to_user] does exactly one
    of three things.  If the recipient lists at least one connection, it
    emits the message once to the session of each listed connection, in
    order, and leaves the store as it was.  If the recipient lists none
    and the sender id of the message and the recipient id bind, it emits
    nothing and appends one undelivered row for the recipient to the
    store; the row has the sender id as passed when that is [None] or an
    integer.  If the recipient lists none and one of the two ids does not
    bind, [save_message] raises: nothing is emitted and nothing stored. *)
Theorem send_to_user_delivers_or_stores
    (cm : ConnectionManager.t) (now user_id : Z) (message : pydict) (db : Database) :
  (forall c, In c (ConnectionManager.get_user_connections user_id cm) ->
     ConnectionManager.get_connection c cm <> None) ->
  let sender := dict_get "sender_id" message in
  let call := CommunicationHub.send_to_user_or_raise cm now user_id message in
  let db' := db_after call db in
  (ConnectionManager.get_user_connections user_id cm <> [] ->
     exists emitted,
       result_of call db = Some emitted
       /\ Forall2
            (fun c e => exists info,
               ConnectionManager.get_connection c cm = Some info
               /\ e = message_emit message info)
            (ConnectionManager.get_user_connections user_id cm) emitted
       /\ emitted <> []
       /\ db' = db)
  /\ (ConnectionManager.get_user_connections user_id cm = [] ->
      binds sender = true -> fits_int64 user_id = true ->
      result_of call db = Some []
      /\ (exists row,
            messages db' = messages db ++ [row]
            /\ same_but_sender row (direct_row (messages_seq db + 1) now user_id message)
            /\ (kept_by_integer_column sender = true ->
                row = direct_row (messages_seq db + 1) now user_id message))
      /\ messages_seq db' = (messages_seq db + 1)%Z
      /\ rooms db' = rooms db /\ room_members db' = room_members db)
  /\ (ConnectionManager.get_user_connections user_id cm = [] ->
      binds sender && fits_int64 user_id = false ->
      result_of call db = None /\ db' = db).
Proof.
  intros Hrec sender call db'.
  pose proof (emit_to_connections_all cm message _ Hrec) as Hall.
  pose proof (send_to_user_or_raise_cases cm now user_id message db) as Hcases.
  fold sender call in Hcases. unfold db', result_of, db_after. rewrite Hcases.
  destruct (ConnectionManager.get_user_connections user_id cm) as [|c conns] eqn:Hconns.
  - split; [intros H; now contradiction H|]. split.
    + intros _ Hs Hu. rewrite Hs, Hu. cbn [andb fst snd].
      split; [reflexivity|]. split; [|repeat split].
      exists (direct_row (messages_seq db + 1) now user_id message).
      split; [reflexivity|]. split; [apply same_but_sender_refl | reflexivity].
    + intros _ ->. now split.
  - split; [|split; intros H; discriminate H].
    intros _. eexists. split; [reflexivity|]. split; [exact Hall|]. split; [|reflexivity].
    intros Hnil. rewrite Hnil in Hall. inversion Hall.
Qed.

Lemma send_to_user_delivers_or_stores_witness :
  let cm := ConnectionManager.add_connection 1 1 "conn-2" 7 "sid-2"
              (ConnectionManager.add_connection 0 0 "conn-1" 7 "sid-1"
                 ConnectionManager.init) in
  let message := [("id", PInt 1); ("sender_id", PInt 3); ("content", PStr "hello")] in
  (forall c, In c (ConnectionManager.get_user_connections 7 cm) ->
     ConnectionManager.get_connection c cm <> None)
  /\ let sender := dict_get "sender_id" message in
     let call := CommunicationHub.send_to_user_or_raise cm 2 7 message in
     let db' := db_after call init_database in
     (ConnectionManager.get_user_connections 7 cm <> [] ->
        exists emitted,
          result_of call init_database = Some emitted
          /\ Forall2
               (fun c e => exists info,
                  ConnectionManager.get_connection c cm = Some info
                  /\ e = message_emit message info)
               (ConnectionManager.get_user_connections 7 cm) emitted
          /\ emitted <> []
          /\ db' = init_database)
     /\ (ConnectionManager.get_user_connections 7 cm = [] ->
         binds sender = true -> fits_int64 7 = true ->
         result_of call init_database = Some []
         /\ (exists row,
               messages db' = messages init_database ++ [row]
               /\ same_but_sender row
                    (direct_row (messages_seq init_database + 1) 2 7 message)
               /\ (kept_by_integer_column sender = true ->
                   row = direct_row (messages_seq init_database + 1) 2 7 message))
         /\ messages_seq db' = (messages_seq init_database + 1)%Z
         /\ rooms db' = rooms init_database
         /\ room_members db' = room_members init_database)
     /\ (ConnectionManager.get_user_connections 7 cm = [] ->
         binds sender && fits_int64 7 = false ->
         result_of call init_database = None /\ db' = init_database).
Proof.
  intros cm message.
  assert (forall c, In c (ConnectionManager.get_user_connections 7 cm) ->
            ConnectionManager.get_connection c cm <> None) as Hrec.
  { apply built_with_fresh_ids_listed.
    apply built_add; [apply built_add; [apply built_init | reflexivity] | reflexivity]. }
  split; [exact Hrec|].
  exact (send_to_user_delivers_or_stores cm 2 7 message init_database Hrec).
Defined.

(** C1 as stated fails on a registry in which a listed id has lost its
    record.  After two registrations under ["conn-1"] (users 1 and 2) and
    its removal, user 1 still lists ["conn-1"] but no record exists: a
    message to user 1 is neither emitted nor stored, and nothing is
    raised. *)
Lemma message_to_stale_connection_is_dropped :
  let cm := ConnectionManager.add_connection 1 1 "conn-1" 2 "sid-2"
              (ConnectionManager.add_connection 0 0 "conn-1" 1 "sid-1"
                 ConnectionManager.init) in
  let message := [("id", PInt 1); ("sender_id", PInt 3); ("content", PStr "hello")] in
  exists cm',
    ConnectionManager.remove_connection "conn-1" cm = Some cm'
    /\ ConnectionManager.get_user_connections 1 cm' = ["conn-1"]
    /\ ConnectionManager.get_connection "conn-1" cm' = None
    /\ result_of (CommunicationHub.send_to_user_or_raise cm' 2 1 message) init_database
       = Some []
    /\ db_after (CommunicationHub.send_to_user_or_raise cm' 2 1 message) init_database
       = init_database.
Proof.
  eexists. split; [vm_compute; reflexivity|].
  repeat split; vm_compute; reflexivity.
Qed.

(** ** Validation *)

Lemma dict_has_lookup k d : dict_has k d = true <-> dict_lookup k d <> None.
Proof.
  induction d as [|[k' v] d IH]; simpl; [split; [discriminate | congruence]|].
  destruct (String.eqb k k'); [split; [discriminate | reflexivity] | exact IH].
Qed.

Lemma py_in_strs_spec v strs :
  py_in_strs v strs = true <-> exists s, v = PStr s /\ In s strs.
Proof.
  split.
  - destruct v; simpl; try discriminate. intros H.
    apply existsb_exists in H as (x & Hx & Heq). apply String.eqb_eq in Heq.
    subst x. now exists s.
  - intros (s & -> & Hin). simpl. apply existsb_exists. exists s.
    split; [exact Hin | apply String.eqb_refl].
Qed.

Lemma dict_lookup_set_other k k' v d :
  k' <> k -> dict_lookup k' (dict_set k v d) = dict_lookup k' d.
Proof.
  intros Hne. induction d as [|[k0 v0] d IH]; simpl.
  - destruct (String.eqb_spec k' k); [congruence | reflexivity].
  - destruct (String.eqb_spec k k0) as [->|Hk]; simpl.
    + destruct (String.eqb_spec k' k0); [congruence | reflexivity].
    + destruct (String.eqb k' k0); [reflexivity | exact IH].
Qed.

Lemma dict_lookup_set_same k v d : dict_lookup k (dict_set k v d) = Some v.
Proof.
  induction d as [|[k0 v0] d IH]; simpl; [now rewrite String.eqb_refl|].
  destruct (String.eqb_spec k k0) as [->|Hk]; simpl.
  - now rewrite String.eqb_refl.
  - destruct (String.eqb_spec k k0); [congruence | exact IH].
Qed.

Lemma process_message_stamps now data sender_id message_count :
  let processed := fst (MessageHandler.process_message now data sender_id message_count) in
  snd (MessageHandler.process_message now data sender_id message_count)
  = (message_count + 1)%Z
  /\ dict_get "id" processed = PInt (message_count + 1)
  /\ dict_get "sender_id" processed = sender_id
  /\ dict_get "content" processed = dict_get_or "content" (PStr EmptyString) data
  /\ dict_get "type" processed = dict_get_or "type" (PStr "text") data.
Proof.
  intros processed. split; [reflexivity|].
  assert (forall k, k <> "recipient_id" -> k <> "room_id" ->
            dict_lookup k processed
            = dict_lookup k
                [("id", PInt (message_count + 1)); ("sender_id", sender_id);
                 ("content", dict_get_or "content" (PStr EmptyString) data);
                 ("type", dict_get_or "type" (PStr "text") data);
                 ("timestamp", PInt now)]) as Hbase.
  { intros k Hk1 Hk2. unfold processed, MessageHandler.process_message. cbn [fst].
    destruct (dict_has "recipient_id" data), (dict_has "room_id" data);
      rewrite ?dict_lookup_set_other by assumption; reflexivity. }
  assert (forall k, k <> "recipient_id" -> k <> "room_id" ->
            dict_get k processed
            = dict_get k
                [("id", PInt (message_count + 1)); ("sender_id", sender_id);
                 ("content", dict_get_or "content" (PStr EmptyString) data);
                 ("type", dict_get_or "type" (PStr "text") data);
                 ("timestamp", PInt now)]) as Hget.
  { intros k Hk1 Hk2. unfold dict_get, dict_get_or. now rewrite Hbase. }
  rewrite !Hget by discriminate. repeat split.
Qed.

(** C6, as amended.  [validate_message] accepts a message iff it is a
    dictionary that has a [content] key, whatever the value, and whose
    [type], when present and truthy, is one of text, image, file,
    notification.  The [message] handler does not call it: it turns a
    message down, emitting one error event and storing nothing, iff
    [sender_id] or [content] is missing or falsy.  Every other message is
    processed, keeping its [type] whatever it is, and routed by its
    recipient id.  Without a recipient (missing or falsy) it is answered
    with [message_sent].  To an integer or boolean recipient with
    connections it is emitted to each of them and then answered; for
    such a recipient without connections it is saved as one undelivered
    row, if the sender id and the recipient id bind, and then answered,
    and otherwise the handler raises with nothing emitted, nothing saved
    and no answer.
    For a recipient id that is a non-empty list or dictionary the
    registry lookup raises, with the same outcome.  (A recipient id that
    is a non-empty string is not covered.) *)
Theorem validation_checks_key_presence_and_handler_checks_truthiness :
  (forall message,
     MessageHandler.validate_message message = true
     <-> exists d,
           message = PDict d
           /\ dict_lookup "content" d <> None
           /\ (truthy (dict_get "type" d) = true ->
               exists s, dict_get "type" d = PStr s
                         /\ In s ["text"; "image"; "file"; "notification"]))
  /\ (forall cm now data message_count db,
        truthy (dict_get "sender_id" data) = false
        \/ truthy (dict_get "content" data) = false ->
        App.handle_message cm now data message_count db
        = (Some (Returned [error_emit] message_count), db))
  /\ (forall cm now data message_count db,
        truthy (dict_get "sender_id" data) = true ->
        truthy (dict_get "content" data) = true ->
        let sender := dict_get "sender_id" data in
        let processed :=
          fst (MessageHandler.process_message now data sender message_count) in
        let sent :=
          {| event := "message_sent";
             payload := PDict [("status", PStr "success");
                               ("message_id", PInt (message_count + 1)%Z)];
             to := ToCaller |} in
        dict_get "type" processed = dict_get_or "type" (PStr "text") data
        /\ dict_get "content" processed = dict_get "content" data
        /\ (truthy (dict_get "recipient_id" data) = false ->
            App.handle_message cm now data message_count db
            = (Some (Returned [sent] (message_count + 1)%Z), db))
        /\ (forall user_id,
              truthy (dict_get "recipient_id" data) = true ->
              App.as_user_id (dict_get "recipient_id" data) = Some user_id ->
              match ConnectionManager.get_user_connections user_id cm with
              | [] =>
                  if binds sender && fits_int64 user_id then
                    exists row,
                      App.handle_message cm now data message_count db
                      = (Some (Returned [sent] (message_count + 1)%Z),
                         {| rooms := rooms db; room_members := room_members db;
                            messages := messages db ++ [row];
                            messages_seq := (messages_seq db + 1)%Z |})
                      /\ same_but_sender row
                           (direct_row (messages_seq db + 1) now user_id processed)
                      /\ (kept_by_integer_column sender = true ->
                          row = direct_row (messages_seq db + 1) now user_id processed)
                  else
                    App.handle_message cm now data message_count db
                    = (Some (Raised [] (message_count + 1)%Z), db)
              | c :: conns =>
                  App.handle_message cm now data message_count db
                  = (Some (Returned
                             (CommunicationHub.emit_to_connections cm processed
                                (c :: conns) ++ [sent])
                             (message_count + 1)%Z), db)
              end)
        /\ (truthy (dict_get "recipient_id" data) = true ->
            unhashable (dict_get "recipient_id" data) = true ->
            App.handle_message cm now data message_count db
            = (Some (Raised [] (message_count + 1)%Z), db))).
Proof.
  split; [|split].
  - intros message. unfold MessageHandler.validate_message. split.
    + destruct message as [| | | | |d]; try discriminate.
      destruct (dict_has "content" d) eqn:Hcontent; simpl; [|discriminate].
      intros H. exists d. split; [reflexivity|].
      split; [now apply dict_has_lookup|]. intros Htype. rewrite Htype in H. simpl in H.
      apply (proj1 (py_in_strs_spec _ MessageHandler.valid_types)).
      destruct (py_in_strs (dict_get "type" d) MessageHandler.valid_types);
        [reflexivity | discriminate].
    + intros (d & -> & Hcontent & Htype).
      apply dict_has_lookup in Hcontent. rewrite Hcontent. simpl.
      destruct (truthy (dict_get "type" d)); simpl; [|reflexivity].
      assert (py_in_strs (dict_get "type" d) MessageHandler.valid_types = true) as ->
        by (apply (proj2 (py_in_strs_spec _ MessageHandler.valid_types)); now apply Htype).
      reflexivity.
  - intros cm now data message_count db Hfalsy. unfold App.handle_message.
    assert (negb (truthy (dict_get "sender_id" data))
            || negb (truthy (dict_get "content" data)) = true) as ->; [|reflexivity].
    destruct Hfalsy as [-> | ->]; [reflexivity | apply orb_true_r].
  - intros cm now data message_count db Hsender Hcontent sender processed sent.
    subst sender.
    destruct (process_message_stamps now data (dict_get "sender_id" data) message_count)
      as (Hcount & Hid & Hsid & Hcont & Htype).
    fold processed in Hid, Hsid, Hcont, Htype.
    assert (dict_get "content" processed = dict_get "content" data) as Hsame.
    { rewrite Hcont. unfold dict_get, dict_get_or in *.
      destruct (dict_lookup "content" data); [reflexivity | discriminate]. }
    assert (forall db0,
              App.handle_message cm now data message_count db0
              = if truthy (dict_get "recipient_id" data) then
                  match App.as_user_id (dict_get "recipient_id" data) with
                  | Some user_id =>
                      (match fst (CommunicationHub.send_to_user_or_raise cm now user_id
                                    processed db0) with
                       | Some emitted =>
                           Some (Returned (emitted ++ [sent]) (message_count + 1)%Z)
                       | None => Some (Raised [] (message_count + 1)%Z)
                       end,
                       snd (CommunicationHub.send_to_user_or_raise cm now user_id
                              processed db0))
                  | None =>
                      (if unhashable (dict_get "recipient_id" data)
                       then Some (Raised [] (message_count + 1)%Z) else None, db0)
                  end
                else (Some (Returned [sent] (message_count + 1)%Z), db0)) as Hrun.
    { intros db0. unfold App.handle_message. rewrite Hsender, Hcontent.
      cbn [negb orb].
      destruct (MessageHandler.process_message now data (dict_get "sender_id" data)
                  message_count)
        as [message count'] eqn:Hprocess.
      assert (message = processed) as Hmessage
        by (unfold processed; rewrite ?Hprocess; reflexivity).
      assert (count' = (message_count + 1)%Z) as Hcount'
        by (rewrite ?Hprocess in Hcount; exact Hcount).
      rewrite Hmessage, Hcount'.
      rewrite Hid. fold sent.
      destruct (truthy (dict_get "recipient_id" data)); [|reflexivity].
      destruct (App.as_user_id (dict_get "recipient_id" data));
        [|now destruct (unhashable (dict_get "recipient_id" data))].
      unfold sql_bind.
      now destruct (fst (CommunicationHub.send_to_user_or_raise cm now z processed db0)). }
    split; [exact Htype|]. split; [exact Hsame|]. split; [|split].
    + intros Hnone. rewrite Hrun, Hnone. reflexivity.
    + intros user_id Hsome Huser. rewrite Hrun, Hsome, Huser.
      rewrite send_to_user_or_raise_cases, Hsid.
      destruct (ConnectionManager.get_user_connections user_id cm); [|reflexivity].
      destruct (binds (dict_get "sender_id" data) && fits_int64 user_id);
        [|reflexivity].
      exists (direct_row (messages_seq db + 1) now user_id processed).
      split; [|split; [apply same_but_sender_refl | reflexivity]].
      unfold direct_row. rewrite Hsid. reflexivity.
    + intros Hsome Hkey. rewrite Hrun, Hsome.
      destruct (dict_get "recipient_id" data); try discriminate Hkey; reflexivity.
Qed.

(** C6 as stated fails twice over: [validate_message] accepts an empty
    content, and the handler stores a message of type ["bogus"], which
    [validate_message] rejects, for an offline recipient. *)
Lemma empty_content_is_valid_and_bad_type_is_stored :
  let data := [("sender_id", PInt 1); ("recipient_id", PInt 2);
               ("content", PStr "hi"); ("type", PStr "bogus")] in
  MessageHandler.validate_message (PDict [("content", PStr EmptyString)]) = true
  /\ MessageHandler.validate_message (PDict data) = false
  /\ (List.map msg_recipient_id
        (messages (db_after (App.handle_message ConnectionManager.init 10 data 0)
                     init_database)) = [Some 2%Z])
  /\ (List.map msg_content
        (messages (db_after (App.handle_message ConnectionManager.init 10 data 0)
                     init_database))
      = [Some (PDict [("id", PInt 1); ("sender_id", PInt 1); ("content", PStr "hi");
                      ("type", PStr "bogus"); ("timestamp", PInt 10);
                      ("recipient_id", PInt 2)])]).
Proof.
  repeat split; vm_compute; reflexivity.
Qed.

(** * Further properties of the code *)

(** ** The connection registry under any sequence of calls *)

Lemma list_remove_first_other x y l :
  y <> x -> In y l -> In y (list_remove_first x l).
Proof.
  intros Hne. induction l as [|z l IH]; simpl; [intros []|].
  destruct (String.eqb_spec x z) as [->|Hxz].
  - intros [Heq|Hin]; [congruence | exact Hin].
  - intros [->|Hin]; [now left | right; now apply IH].
Qed.

Lemma list_mem_in x l : list_mem x l = true <-> In x l.
Proof.
  unfold list_mem. rewrite existsb_exists. split.
  - intros (y & Hy & Heq). apply String.eqb_eq in Heq. now subst y.
  - intros Hin. exists x. split; [exact Hin | apply String.eqb_refl].
Qed.

(** What every registry built by calls satisfies: a record's user lists the
    record's id, and no user is left with an empty list. *)
Lemma built_by_calls_inv cm :
  built_by_calls cm ->
  (forall c info,
     ConnectionManager.get_connection c cm = Some info ->
     In c (ConnectionManager.get_user_connections (ConnectionManager.user_id info) cm))
  /\ (forall u l, ConnectionManager.user_connections cm !! u = Some l -> l <> []).
Proof.
  induction 1 as [|cm t1 t2 c u sid _ [IHrec IHne]|cm c cm' _ [IHrec IHne] Hrem].
  - split; [intros c info H | intros u l H];
      unfold ConnectionManager.get_connection in *; simpl in H;
      rewrite lookup_empty in H; discriminate.
  - split.
    + intros c' info Hinfo. rewrite registry_add_connections.
      unfold ConnectionManager.get_connection, ConnectionManager.add_connection in Hinfo;
        simpl in Hinfo.
      destruct (decide (c' = c)) as [->|Hne].
      * rewrite lookup_insert_eq in Hinfo. injection Hinfo as <-. simpl.
        rewrite bool_decide_eq_true_2 by reflexivity. apply in_or_app. right. now left.
      * rewrite lookup_insert_ne in Hinfo by congruence.
        case_bool_decide; [apply in_or_app; left|]; now apply IHrec.
    + intros v l. unfold ConnectionManager.add_connection; simpl.
      destruct (decide (v = u)) as [->|Hne].
      * rewrite lookup_insert_eq. intros [= <-].
        now destruct (ConnectionManager.user_connections cm !! u) as [[|]|].
      * rewrite lookup_insert_ne by congruence. apply IHne.
  - destruct (ConnectionManager.get_connection c cm) as [info|] eqn:Hinfo.
    + split.
      * intros c' info' Hinfo'.
        destruct (registry_remove_connections c cm cm' info
                    (ConnectionManager.user_id info') Hinfo Hrem) as [Hconns ->].
        unfold ConnectionManager.get_connection in Hinfo'. rewrite Hconns in Hinfo'.
        destruct (decide (c' = c)) as [->|Hne];
          [rewrite lookup_delete_eq in Hinfo'; discriminate|].
        rewrite lookup_delete_ne in Hinfo' by congruence.
        case_bool_decide; [apply list_remove_first_other; [exact Hne|]|]; now apply IHrec.
      * intros v l. unfold ConnectionManager.remove_connection in Hrem.
        unfold ConnectionManager.get_connection in Hinfo. rewrite Hinfo in Hrem.
        destruct (ConnectionManager.user_connections cm !! ConnectionManager.user_id info)
          as [conns|] eqn:Hconns.
        -- destruct (list_mem c conns); [|discriminate].
           destruct (list_remove_first c conns) as [|c0 rest] eqn:Hrest;
             injection Hrem as <-; simpl.
           ++ destruct (decide (v = ConnectionManager.user_id info)) as [->|Hne];
                [now rewrite lookup_delete_eq|].
              rewrite lookup_delete_ne by congruence. apply IHne.
           ++ destruct (decide (v = ConnectionManager.user_id info)) as [->|Hne];
                [rewrite lookup_insert_eq; now intros [= <-]|].
              rewrite lookup_insert_ne by congruence. apply IHne.
        -- injection Hrem as <-. simpl. apply IHne.
    + unfold ConnectionManager.remove_connection in Hrem.
      unfold ConnectionManager.get_connection in Hinfo. rewrite Hinfo in Hrem.
      injection Hrem as <-. now split.
Qed.

Lemma built_with_fresh_ids_by_calls cm : built_with_fresh_ids cm -> built_by_calls cm.
Proof.
  induction 1; [constructor | now constructor | econstructor; eassumption].
Qed.

(** X1. On every registry built by [add_connection] and
    [remove_connection] calls, connection ids reused or not,
    [remove_connection] returns normally for every id: the [ValueError]
    of [list.remove] cannot occur, and the id has no record afterwards. *)
Theorem remove_connection_never_raises
    (cm : ConnectionManager.t) (connection_id : string) :
  built_by_calls cm ->
  exists cm',
    ConnectionManager.remove_connection connection_id cm = Some cm'
    /\ ConnectionManager.get_connection connection_id cm' = None
    /\ (ConnectionManager.get_connection connection_id cm = None -> cm' = cm).
Proof.
  intros Hbuilt. destruct (built_by_calls_inv cm Hbuilt) as [Hrec _].
  unfold ConnectionManager.remove_connection, ConnectionManager.get_connection in *.
  destruct (ConnectionManager.connections cm !! connection_id) as [info|] eqn:Hinfo;
    [|now exists cm].
  specialize (Hrec connection_id info Hinfo).
  unfold ConnectionManager.get_user_connections in Hrec.
  destruct (ConnectionManager.user_connections cm !! ConnectionManager.user_id info)
    as [conns|]; [|destruct Hrec].
  apply list_mem_in in Hrec. rewrite Hrec.
  destruct (list_remove_first connection_id conns); eexists;
    (split; [reflexivity|]); simpl; (split; [apply lookup_delete_eq | discriminate]).
Qed.

Lemma remove_connection_never_raises_witness :
  let cm := ConnectionManager.add_connection 1 1 "conn-1" 2 "sid-2"
              (ConnectionManager.add_connection 0 0 "conn-1" 1 "sid-1"
                 ConnectionManager.init) in
  built_by_calls cm
  /\ exists cm',
       ConnectionManager.remove_connection "conn-1" cm = Some cm'
       /\ ConnectionManager.get_connection "conn-1" cm' = None
       /\ (ConnectionManager.get_connection "conn-1" cm = None -> cm' = cm).
Proof.
  intros cm.
  assert (built_by_calls cm) as Hbuilt by (repeat apply calls_add; apply calls_init).
  split; [exact Hbuilt|].
  exact (remove_connection_never_raises cm "conn-1" Hbuilt).
Defined.

(** X2. On a registry built with fresh ids, registering a connection under
    an id not in use and removing it again gives back the registry as it
    was, both dictionaries included. *)
Theorem add_then_remove_connection_restores_registry
    (cm : ConnectionManager.t) (t_connected t_activity : Z)
    (connection_id : string) (user_id : Z) (sid : string) :
  built_with_fresh_ids cm ->
  ConnectionManager.get_connection connection_id cm = None ->
  ConnectionManager.remove_connection connection_id
    (ConnectionManager.add_connection t_connected t_activity
       connection_id user_id sid cm)
  = Some cm.
Proof.
  intros Hbuilt Hfresh.
  destruct (built_with_fresh_ids_ok cm Hbuilt) as [Hrec _].
  destruct (built_by_calls_inv cm (built_with_fresh_ids_by_calls cm Hbuilt)) as [_ Hne].
  assert (~ In connection_id (ConnectionManager.get_user_connections user_id cm)) as Hnot.
  { intros Hin. destruct (Hrec _ _ Hin) as (info & Hinfo & _). congruence. }
  unfold ConnectionManager.remove_connection, ConnectionManager.add_connection,
    ConnectionManager.get_connection, ConnectionManager.get_user_connections in *.
  destruct cm as [conns lists]; simpl in *.
  rewrite lookup_insert_eq; simpl. rewrite ?lookup_insert_eq.
  assert (forall l, ~ In connection_id l ->
            list_mem connection_id (l ++ [connection_id]) = true
            /\ list_remove_first connection_id (l ++ [connection_id]) = l) as Hlast.
  { intros l Hl. split; [apply list_mem_in, in_or_app; right; now left|].
    induction l as [|x l IH]; simpl; [now rewrite String.eqb_refl|].
    destruct (String.eqb_spec connection_id x) as [->|Hx]; [exfalso; apply Hl; now left|].
    f_equal. apply IH. intros H. apply Hl. now right. }
  destruct (lists !! user_id) as [l|] eqn:Hl.
  - destruct (Hlast l Hnot) as [-> ->].
    destruct l as [|x l]; [now specialize (Hne user_id [] Hl)|].
    rewrite insert_insert_eq, delete_insert_id by exact Hfresh.
    now rewrite insert_id by exact Hl.
  - simpl. rewrite String.eqb_refl.
    rewrite delete_insert_id by exact Hfresh. now rewrite delete_insert_id by exact Hl.
Qed.

Lemma add_then_remove_connection_restores_registry_witness :
  let cm := ConnectionManager.add_connection 0 0 "conn-1" 1 "sid-1"
              ConnectionManager.init in
  built_with_fresh_ids cm
  /\ ConnectionManager.get_connection "conn-2" cm = None
  /\ ConnectionManager.remove_connection "conn-2"
       (ConnectionManager.add_connection 3 3 "conn-2" 1 "sid-2" cm)
     = Some cm.
Proof.
  intros cm.
  assert (built_with_fresh_ids cm) as Hbuilt
    by (apply built_add; [apply built_init | reflexivity]).
  assert (ConnectionManager.get_connection "conn-2" cm = None) as Hfresh by reflexivity.
  split; [exact Hbuilt|]. split; [exact Hfresh|].
  exact (add_then_remove_connection_restores_registry cm 3 3 "conn-2" 1 "sid-2"
           Hbuilt Hfresh).
Defined.

(** X3. On a registry built with fresh ids the two dictionaries tell the
    same story: [is_user_online] answers [True] for a user exactly when
    some connection record names that user, and exactly when
    [get_user_connections] is not empty. *)
Theorem is_user_online_iff_a_record_names_the_user
    (cm : ConnectionManager.t) (user_id : Z) :
  built_with_fresh_ids cm ->
  (ConnectionManager.is_user_online user_id cm = true
   <-> exists c info,
         ConnectionManager.get_connection c cm = Some info
         /\ ConnectionManager.user_id info = user_id)
  /\ (ConnectionManager.is_user_online user_id cm = true
      <-> ConnectionManager.get_user_connections user_id cm <> []).
Proof.
  intros Hbuilt.
  destruct (built_with_fresh_ids_ok cm Hbuilt) as [Hlisted _].
  destruct (built_by_calls_inv cm (built_with_fresh_ids_by_calls cm Hbuilt)) as [Hrec _].
  assert (ConnectionManager.is_user_online user_id cm = true
          <-> ConnectionManager.get_user_connections user_id cm <> []) as Honline.
  { unfold ConnectionManager.is_user_online, ConnectionManager.get_user_connections.
    destruct (ConnectionManager.user_connections cm !! user_id) as [[|c l]|]; simpl;
      split; congruence || discriminate || reflexivity. }
  split; [|exact Honline]. rewrite Honline. split.
  - destruct (ConnectionManager.get_user_connections user_id cm) as [|c l] eqn:Hl;
      [congruence|]. intros _.
    destruct (Hlisted user_id c) as (info & Hinfo & Huser); [rewrite Hl; now left|].
    now exists c, info.
  - intros (c & info & Hinfo & <-) Hnil. specialize (Hrec c info Hinfo).
    rewrite Hnil in Hrec. destruct Hrec.
Qed.

Lemma is_user_online_iff_a_record_names_the_user_witness :
  let cm := ConnectionManager.add_connection 0 0 "conn-1" 1 "sid-1"
              ConnectionManager.init in
  built_with_fresh_ids cm
  /\ (ConnectionManager.is_user_online 1 cm = true
      <-> exists c info,
            ConnectionManager.get_connection c cm = Some info
            /\ ConnectionManager.user_id info = 1%Z)
  /\ (ConnectionManager.is_user_online 1 cm = true
      <-> ConnectionManager.get_user_connections 1 cm <> []).
Proof.
  intros cm.
  assert (built_with_fresh_ids cm) as Hbuilt
    by (apply built_add; [apply built_init | reflexivity]).
  split; [exact Hbuilt|].
  exact (is_user_online_iff_a_record_names_the_user cm 1 Hbuilt).
Defined.

Lemma sum_of_counts_insert (counts : gmap Z nat) u n :
  (sum_of_counts (<[u := n]> counts) + default 0 (counts !! u)
   = n + sum_of_counts counts)%nat.
Proof.
  unfold sum_of_counts.
  assert (forall (m : gmap Z nat) i x, m !! i = None ->
            map_fold (fun _ n acc => (n + acc)%nat) 0%nat (<[i := x]> m)
            = (x + map_fold (fun _ n acc => (n + acc)%nat) 0%nat m)%nat) as Hins.
  { intros m i x Hi. apply (map_fold_insert_L (fun _ n acc => (n + acc)%nat));
      [intros; lia | exact Hi]. }
  destruct (counts !! u) as [k|] eqn:Hk; simpl.
  - rewrite <- (insert_delete_eq counts u n).
    rewrite Hins by apply lookup_delete_eq.
    rewrite <- (insert_delete_id counts u k Hk) at 2.
    rewrite Hins by apply lookup_delete_eq. lia.
  - rewrite Hins by exact Hk. lia.
Qed.

Lemma sum_of_counts_delete (counts : gmap Z nat) u :
  (sum_of_counts (delete u counts) + default 0 (counts !! u)
   = sum_of_counts counts)%nat.
Proof.
  destruct (counts !! u) as [k|] eqn:Hk; simpl.
  - pose proof (sum_of_counts_insert (delete u counts) u k) as H.
    rewrite lookup_delete_eq, insert_delete_id in H by exact Hk. simpl in H. lia.
  - rewrite delete_id by exact Hk. lia.
Qed.

(** X4. On a registry built with fresh ids, the figures of [get_stats]
    agree: [total_connections] is the sum of [connections_by_user], and
    every user counted in [online_users] has at least one connection. *)
Theorem get_stats_totals_agree (cm : ConnectionManager.t) :
  built_with_fresh_ids cm ->
  ConnectionManager.total_connections (ConnectionManager.get_stats cm)
  = sum_of_counts (ConnectionManager.connections_by_user (ConnectionManager.get_stats cm))
  /\ (forall u n,
        ConnectionManager.connections_by_user (ConnectionManager.get_stats cm) !! u
        = Some n -> (1 <= n)%nat).
Proof.
  intros Hbuilt. split.
  - induction Hbuilt as [|cm t1 t2 c u sid Hbuilt IH Hfresh|cm c cm' Hbuilt IH Hrem].
    + reflexivity.
    + destruct (built_with_fresh_ids_ok cm Hbuilt) as [Hlisted _].
      unfold ConnectionManager.get_stats, ConnectionManager.add_connection in *.
      unfold ConnectionManager.get_connection in Hfresh. simpl in *.
      rewrite map_size_insert_None by exact Hfresh. rewrite fmap_insert.
      pose proof (sum_of_counts_insert
                    ((fun l : list string => length l)
                       <$> ConnectionManager.user_connections cm)
                    u (length (match ConnectionManager.user_connections cm !! u with
                               | Some conns => conns | None => [] end ++ [c]))) as Hsum.
      rewrite lookup_fmap in Hsum. rewrite List.length_app in Hsum. simpl in Hsum.
      destruct (ConnectionManager.user_connections cm !! u); simpl in Hsum;
        rewrite List.length_app; simpl; lia.
    + destruct (built_with_fresh_ids_ok cm Hbuilt) as [Hlisted Hnd].
      destruct (built_by_calls_inv cm (built_with_fresh_ids_by_calls cm Hbuilt))
        as [Hrec _].
      unfold ConnectionManager.remove_connection in Hrem.
      destruct (ConnectionManager.connections cm !! c) as [info|] eqn:Hinfo;
        [|injection Hrem as <-; exact IH].
      specialize (Hrec c info Hinfo).
      unfold ConnectionManager.get_user_connections in Hrec.
      destruct (ConnectionManager.user_connections cm !! ConnectionManager.user_id info)
        as [conns|] eqn:Hconns; [|destruct Hrec].
      apply list_mem_in in Hrec. rewrite Hrec in Hrem.
      pose proof (list_remove_first_length c conns Hrec) as Hlen.
      unfold ConnectionManager.get_stats in *; simpl in *.
      pose proof (map_size_delete_Some c (ConnectionManager.connections cm)
                    (ex_intro _ info Hinfo)) as Hsize.
      destruct (list_remove_first c conns) as [|c0 rest] eqn:Hrest;
        injection Hrem as <-; simpl.
      * rewrite fmap_delete.
        pose proof (sum_of_counts_delete
                      ((fun l : list string => length l)
                         <$> ConnectionManager.user_connections cm)
                      (ConnectionManager.user_id info)) as Hsum.
        rewrite lookup_fmap, Hconns in Hsum. simpl in Hsum, Hlen. lia.
      * rewrite fmap_insert.
        pose proof (sum_of_counts_insert
                      ((fun l : list string => length l)
                         <$> ConnectionManager.user_connections cm)
                      (ConnectionManager.user_id info) (length (c0 :: rest))) as Hsum.
        rewrite lookup_fmap, Hconns in Hsum. simpl in Hsum, Hlen. simpl. lia.
  - intros u n.
    destruct (built_by_calls_inv cm (built_with_fresh_ids_by_calls cm Hbuilt)) as [_ Hne].
    unfold ConnectionManager.get_stats; simpl. rewrite lookup_fmap.
    destruct (ConnectionManager.user_connections cm !! u) as [l|] eqn:Hl; [|discriminate].
    simpl. intros [= <-]. specialize (Hne u l Hl). destruct l; [congruence | simpl; lia].
Qed.

Lemma get_stats_totals_agree_witness :
  let cm := ConnectionManager.add_connection 1 1 "conn-2" 1 "sid-2"
              (ConnectionManager.add_connection 0 0 "conn-1" 1 "sid-1"
                 ConnectionManager.init) in
  built_with_fresh_ids cm
  /\ ConnectionManager.total_connections (ConnectionManager.get_stats cm)
     = sum_of_counts (ConnectionManager.connections_by_user (ConnectionManager.get_stats cm))
  /\ (forall u n,
        ConnectionManager.connections_by_user (ConnectionManager.get_stats cm) !! u
        = Some n -> (1 <= n)%nat).
Proof.
  intros cm.
  assert (built_with_fresh_ids cm) as Hbuilt
    by (apply built_add; [apply built_add; [apply built_init | reflexivity] | reflexivity]).
  split; [exact Hbuilt|].
  exact (get_stats_totals_agree cm Hbuilt).
Defined.

(** ** The hub beyond single direct messages *)

Lemma emit_to_connections_value cm message conns :
  CommunicationHub.emit_to_connections cm message conns
  = CommunicationHub.emit_value_to_connections cm (PDict message) conns.
Proof.
  induction conns as [|c conns IH]; simpl; [reflexivity|].
  destruct (ConnectionManager.get_connection c cm); now rewrite IH.
Qed.

Lemma send_content_to_user_online cm now user_id content db :
  ConnectionManager.get_user_connections user_id cm <> [] ->
  CommunicationHub.send_content_to_user cm now user_id content db
  = (Some (CommunicationHub.emit_value_to_connections cm content
             (ConnectionManager.get_user_connections user_id cm)), db).
Proof.
  intros Hconns. unfold CommunicationHub.send_content_to_user, CommunicationHub.send_to_user.
  destruct (ConnectionManager.get_user_connections user_id cm) as [|c conns] eqn:Hl;
    [congruence|].
  destruct content; try reflexivity.
  unfold sql_bind, sql_ret; simpl. now rewrite <- emit_to_connections_value.
Qed.

Lemma deliver_each_cons_online cm clock k user_id msg msgs db :
  ConnectionManager.get_user_connections user_id cm <> [] ->
  CommunicationHub.deliver_each cm clock k user_id (msg :: msgs) db
  = let db1 := db_after (OfflineQueue.mark_delivered (clock (S k)) (MessageStore.id msg))
                 db in
    (option_map
       (fun l => CommunicationHub.emit_value_to_connections cm (MessageStore.content msg)
                   (ConnectionManager.get_user_connections user_id cm) ++ l)
       (result_of (CommunicationHub.deliver_each cm clock (S (S k)) user_id msgs) db1),
     db_after (CommunicationHub.deliver_each cm clock (S (S k)) user_id msgs) db1).
Proof.
  intros Hconns. cbn [CommunicationHub.deliver_each]. unfold sql_bind.
  rewrite send_content_to_user_online by exact Hconns. reflexivity.
Qed.

Lemma deliver_each_online cm clock user_id msgs : forall k db,
  ConnectionManager.get_user_connections user_id cm <> [] ->
  result_of (CommunicationHub.deliver_each cm clock k user_id msgs) db
  = Some (flat_map
            (fun msg => CommunicationHub.emit_value_to_connections cm
                          (MessageStore.content msg)
                          (ConnectionManager.get_user_connections user_id cm)) msgs)
  /\ List.map msg_id
       (messages (db_after (CommunicationHub.deliver_each cm clock k user_id msgs) db))
     = List.map msg_id (messages db)
  /\ (forall u r',
        In r' (undelivered_rows u
                 (db_after (CommunicationHub.deliver_each cm clock k user_id msgs) db)) ->
        In r' (undelivered_rows u db)
        /\ ~ In (msg_id r') (List.map MessageStore.id msgs)).
Proof.
  induction msgs as [|msg msgs IH]; intros k db Hconns.
  - repeat split; [assumption | intros []].
  - specialize (IH (S (S k))
                  (db_after (OfflineQueue.mark_delivered (clock (S k))
                               (MessageStore.id msg)) db) Hconns).
    destruct IH as (IHres & IHids & IHund).
    unfold result_of, db_after at 1 2.
    rewrite deliver_each_cons_online by exact Hconns. cbn [fst snd].
    split; [now rewrite IHres|]. split.
    + rewrite IHids. apply mark_delivered_ids.
    + intros u r' Hin. apply IHund in Hin as [Hin Hnot].
      unfold undelivered_rows in Hin. apply filter_In in Hin as [Hin Hund].
      rewrite mark_delivered_messages in Hin.
      apply in_map_iff in Hin as (r & Hr & Hrin).
      destruct (has_id (MessageStore.id msg) r) eqn:Hid.
      * subst r'. rewrite set_delivered_not_undelivered in Hund. discriminate.
      * subst r'. split; [unfold undelivered_rows; apply filter_In; now split|].
        intros [Heq|Hrest]; [|now apply Hnot].
        unfold has_id in Hid. apply Z.eqb_neq in Hid. congruence.
Qed.

Lemma get_undelivered_messages_ids user_id db :
  List.map MessageStore.id (result_of (MessageStore.get_undelivered_messages user_id) db)
  = List.map msg_id (order_by_created_at (undelivered_rows user_id db)).
Proof.
  unfold MessageStore.get_undelivered_messages. run_sql.
  rewrite List.map_map. reflexivity.
Qed.

(** X5. [deliver_queued_messages] for a user whose id binds and for whom
    the registry lists at least one connection: the messages read are the
    dictionaries of the user's undelivered rows, taken in non-decreasing
    order of their creation time, and each is emitted in that order to
    each of the user's connections that has a record; afterwards the
    user's queue is empty, and no row was added to or deleted from the
    store. *)
Theorem deliver_queued_messages_empties_the_queue_of_an_online_user
    (cm : ConnectionManager.t) (clock : nat -> Z) (user_id : Z) (db : Database) :
  fits_int64 user_id = true ->
  ConnectionManager.get_user_connections user_id cm <> [] ->
  let queued := result_of (MessageStore.get_undelivered_messages user_id) db in
  let run := CommunicationHub.deliver_queued_messages cm clock user_id in
  (exists rows,
     Permutation rows (undelivered_rows user_id db)
     /\ StronglySorted created_le rows
     /\ queued = List.map stored_of_row rows)
  /\ result_of run db
     = Some (flat_map
               (fun msg => CommunicationHub.emit_value_to_connections cm
                             (MessageStore.content msg)
                             (ConnectionManager.get_user_connections user_id cm)) queued)
  /\ queue_size user_id (db_after run db) = 0%Z
  /\ List.map msg_id (messages (db_after run db)) = List.map msg_id (messages db).
Proof.
  intros _ Hconns queued run.
  destruct (deliver_each_online cm clock user_id queued 0 db Hconns)
    as (Hres & Hids & Hund).
  change (result_of run db)
    with (result_of (CommunicationHub.deliver_each cm clock 0 user_id queued) db).
  change (db_after run db)
    with (db_after (CommunicationHub.deliver_each cm clock 0 user_id queued) db).
  split.
  { exists (order_by_created_at (undelivered_rows user_id db)).
    split; [apply Permutation_sym, order_by_created_at_perm|].
    split; [apply order_by_created_at_sorted | reflexivity]. }
  split; [exact Hres|]. split; [|exact Hids].
  rewrite queue_size_eq.
  destruct (undelivered_rows user_id
              (db_after (CommunicationHub.deliver_each cm clock 0 user_id queued) db))
    as [|r rest] eqn:Hrows; [reflexivity|].
  exfalso. destruct (Hund user_id r) as [Hin Hnot]; [rewrite Hrows; now left|].
  apply Hnot. unfold queued. rewrite get_undelivered_messages_ids. apply in_map.
  eapply Permutation_in; [apply order_by_created_at_perm | exact Hin].
Qed.

Lemma deliver_queued_messages_empties_the_queue_of_an_online_user_witness :
  let cm := ConnectionManager.add_connection 0 0 "conn-1" 7 "sid-1"
              ConnectionManager.init in
  let db := db_after (MessageStore.save_message 1 (PInt 3) (Some 7%Z) None "direct"
                        (PDict [("content", PStr "hello")])) init_database in
  let queued := result_of (MessageStore.get_undelivered_messages 7) db in
  let run := CommunicationHub.deliver_queued_messages cm (fun k => Z.of_nat k) 7 in
  (exists rows,
     Permutation rows (undelivered_rows 7 db)
     /\ StronglySorted created_le rows
     /\ queued = List.map stored_of_row rows)
  /\ result_of run db
     = Some (flat_map
               (fun msg => CommunicationHub.emit_value_to_connections cm
                             (MessageStore.content msg)
                             (ConnectionManager.get_user_connections 7 cm)) queued)
  /\ queue_size 7 (db_after run db) = 0%Z
  /\ List.map msg_id (messages (db_after run db)) = List.map msg_id (messages db).
Proof.
  intros cm db.
  apply (deliver_queued_messages_empties_the_queue_of_an_online_user
           cm (fun k => Z.of_nat k) 7 db).
  - reflexivity.
  - vm_compute. discriminate.
Defined.

Lemma undelivered_rows_app user_id db db' extra :
  messages db' = messages db ++ extra ->
  undelivered_rows user_id db'
  = undelivered_rows user_id db ++ List.filter (undelivered_for user_id) extra.
Proof. intros H. unfold undelivered_rows. now rewrite H, List.filter_app. Qed.

(** X6. A room message is emitted once, to the room, whatever it holds.
    If its sender id binds it is then saved as one new row that carries
    the room id and no recipient (with the sender id as passed when that
    is [None] or an integer); if not, [save_message] raises after the
    emit and nothing is written.  Either way no user's offline queue
    changes, whoever is a member of the room and whether or not the
    members are connected. *)
Theorem send_to_room_never_queues_for_members
    (now : Z) (room_id : string) (message : pydict) (db : Database) :
  let sender := dict_get "sender_id" message in
  let call := CommunicationHub.send_to_room_or_raise now room_id message in
  let db' := db_after call db in
  issued_by (result_of call db)
  = [ {| event := "room_message"; payload := PDict message; to := ToSession room_id |} ]
  /\ (if binds sender then
        has_raised (result_of call db) = false
        /\ exists row,
             messages db' = messages db ++ [row]
             /\ same_but_sender row
                  (room_history_row (messages_seq db + 1) now room_id message)
             /\ (kept_by_integer_column sender = true ->
                 row = room_history_row (messages_seq db + 1) now room_id message)
      else has_raised (result_of call db) = true /\ db' = db)
  /\ (forall u,
        result_of (OfflineQueue.get_messages u) db'
        = result_of (OfflineQueue.get_messages u) db
        /\ queue_size u db' = queue_size u db)
  /\ rooms db' = rooms db /\ room_members db' = room_members db.
Proof.
  intros sender call db'.
  assert (call db
          = if binds sender
            then (Returned [ {| event := "room_message"; payload := PDict message;
                                to := ToSession room_id |} ] tt,
                  db_after (CommunicationHub.send_to_room now room_id message) db)
            else (Raised [ {| event := "room_message"; payload := PDict message;
                              to := ToSession room_id |} ] tt, db)) as Hcall.
  { unfold call, CommunicationHub.send_to_room_or_raise,
      MessageStore.save_message_or_raise. fold sender. rewrite andb_true_r.
    now destruct (binds sender). }
  assert (result_of call db
          = if binds sender
            then Returned [ {| event := "room_message"; payload := PDict message;
                               to := ToSession room_id |} ] tt
            else Raised [ {| event := "room_message"; payload := PDict message;
                             to := ToSession room_id |} ] tt) as Hres
    by (unfold result_of; rewrite Hcall; now destruct (binds sender)).
  assert (db' = if binds sender
                then db_after (CommunicationHub.send_to_room now room_id message) db
                else db) as Hdb
    by (unfold db', db_after; rewrite Hcall; now destruct (binds sender)).
  rewrite Hres. clearbody db'. clear Hcall Hres.
  destruct (binds sender); subst db'; cbn [issued_by has_raised].
  2:{ repeat split. }
  set (db1 := db_after (CommunicationHub.send_to_room now room_id message) db).
  assert (messages db1
          = messages db ++ [room_history_row (messages_seq db + 1) now room_id message])
    as Hmsgs by reflexivity.
  assert (rooms db1 = rooms db /\ room_members db1 = room_members db) as Hrooms
    by (split; reflexivity).
  split; [reflexivity|]. split; [|split; [|exact Hrooms]].
  - split; [reflexivity|]. eexists. split; [exact Hmsgs|].
    split; [apply same_but_sender_refl | reflexivity].
  - clearbody db1. intros u.
    assert (undelivered_rows u db1 = undelivered_rows u db) as Hrows.
    { rewrite (undelivered_rows_app u db db1 _ Hmsgs). simpl. apply app_nil_r. }
    split; [|now rewrite !queue_size_eq, Hrows].
    change (List.map queued_of_row (order_by_created_at (undelivered_rows u db1))
            = List.map queued_of_row (order_by_created_at (undelivered_rows u db))).
    now rewrite Hrows.
Qed.

Lemma send_to_user_offline_rows cm now user_id message db :
  ConnectionManager.get_user_connections user_id cm = [] ->
  result_of (CommunicationHub.send_to_user cm now user_id message) db = []
  /\ forall u,
       undelivered_rows u (db_after (CommunicationHub.send_to_user cm now user_id message) db)
       = undelivered_rows u db
         ++ (if (user_id =? u)%Z
             then [direct_row (messages_seq db + 1) now user_id message] else []).
Proof.
  intros Hoff. unfold result_of, db_after, CommunicationHub.send_to_user.
  rewrite Hoff. split; [reflexivity|]. intros u.
  erewrite undelivered_rows_app by reflexivity. f_equal. simpl.
  unfold undelivered_for; simpl. now destruct (user_id =? u)%Z.
Qed.

(** X7. The hub stores a direct message to a recipient without
    connections through [save_message], which has no size bound: after
    [n] such messages whose sender ids bind, to a recipient whose id
    binds, the size the offline queue reports for the recipient has grown
    by exactly [n], whatever the queue's [max_messages], and nothing was
    emitted; other recipients' queues are unchanged. *)
Theorem offline_direct_messages_accumulate_without_bound
    (cm : ConnectionManager.t) (clock : nat -> Z) (user_id : Z)
    (msgs : list pydict) (k : nat) (db : Database) :
  ConnectionManager.get_user_connections user_id cm = [] ->
  fits_int64 user_id = true ->
  forallb (fun m => binds (dict_get "sender_id" m)) msgs = true ->
  result_of (send_many cm clock k user_id msgs) db = []
  /\ queue_size user_id (db_after (send_many cm clock k user_id msgs) db)
     = (queue_size user_id db + Z.of_nat (length msgs))%Z
  /\ (forall u, u <> user_id ->
        undelivered_rows u (db_after (send_many cm clock k user_id msgs) db)
        = undelivered_rows u db).
Proof.
  intros Hoff _ _. revert k db. induction msgs as [|m msgs IH]; intros k db.
  - split; [reflexivity|]. split; [|reflexivity].
    change (db_after (send_many cm clock k user_id []) db) with db. simpl. lia.
  - specialize (IH (S k) (db_after (CommunicationHub.send_to_user cm (clock k) user_id m) db)).
    destruct IH as (IHres & IHsize & IHother).
    destruct (send_to_user_offline_rows cm (clock k) user_id m db Hoff) as [Hres Hrows].
    change (result_of (send_many cm clock k user_id (m :: msgs)) db)
      with (result_of (CommunicationHub.send_to_user cm (clock k) user_id m) db
            ++ result_of (send_many cm clock (S k) user_id msgs)
                 (db_after (CommunicationHub.send_to_user cm (clock k) user_id m) db)).
    change (db_after (send_many cm clock k user_id (m :: msgs)) db)
      with (db_after (send_many cm clock (S k) user_id msgs)
              (db_after (CommunicationHub.send_to_user cm (clock k) user_id m) db)).
    split; [now rewrite Hres, IHres|]. split.
    + rewrite IHsize, !queue_size_eq, Hrows, Z.eqb_refl, List.length_app. simpl length. lia.
    + intros u Hu. rewrite IHother by exact Hu. rewrite Hrows.
      destruct (Z.eqb_spec user_id u); [congruence | apply app_nil_r].
Qed.

Lemma offline_direct_messages_accumulate_without_bound_witness :
  let msgs := [[("sender_id", PInt 1); ("content", PStr "a")];
               [("sender_id", PInt 2); ("content", PStr "b")];
               [("content", PStr "c")]] in
  ConnectionManager.get_user_connections 99 ConnectionManager.init = []
  /\ result_of (send_many ConnectionManager.init (fun k => Z.of_nat k) 0 99 msgs)
       init_database = []
  /\ queue_size 99 (db_after (send_many ConnectionManager.init (fun k => Z.of_nat k) 0 99 msgs)
                      init_database)
     = (queue_size 99 init_database + Z.of_nat (length msgs))%Z
  /\ (forall u, u <> 99%Z ->
        undelivered_rows u
          (db_after (send_many ConnectionManager.init (fun k => Z.of_nat k) 0 99 msgs)
             init_database)
        = undelivered_rows u init_database).
Proof.
  intros msgs.
  assert (ConnectionManager.get_user_connections 99 ConnectionManager.init = []) as Hoff
    by reflexivity.
  split; [exact Hoff|].
  exact (offline_direct_messages_accumulate_without_bound ConnectionManager.init
           (fun k => Z.of_nat k) 99 msgs 0 init_database Hoff eq_refl eq_refl).
Defined.

(** ** The router *)

Lemma py_eq_str_in v s strs :
  py_eq_str v s = true -> In s strs -> py_in_strs v strs = true.
Proof.
  destruct v; simpl; try discriminate. intros Heq Hin.
  apply String.eqb_eq in Heq. subst s0. apply existsb_exists. exists s.
  split; [exact Hin | apply String.eqb_refl].
Qed.

(** X8. [route_message] acts only on the types [direct], [room] and
    [broadcast]; [validate_message] accepts none of these.  So every
    message [validate_message] accepts, handed to the router, is dropped:
    nothing is emitted and nothing is stored. *)
Theorem router_drops_every_valid_message
    (cm : ConnectionManager.t) (now : Z) (message : pydict) (db : Database) :
  (py_in_strs (dict_get "type" message) ["direct"; "room"; "broadcast"] = false ->
   MessageRouter.route_message cm now message db = (Some [], db))
  /\ (MessageHandler.validate_message (PDict message) = true ->
      MessageRouter.route_message cm now message db = (Some [], db))
  /\ (py_in_strs (dict_get "type" message) ["direct"; "room"; "broadcast"] = true ->
      MessageHandler.validate_message (PDict message) = false).
Proof.
  assert (py_in_strs (dict_get "type" message) ["direct"; "room"; "broadcast"] = false ->
          MessageRouter.route_message cm now message db = (Some [], db)) as Hother.
  { intros Hnot. unfold MessageRouter.route_message.
    destruct (py_eq_str (dict_get "type" message) "direct") eqn:Hd;
      [rewrite (py_eq_str_in _ _ ["direct"; "room"; "broadcast"] Hd) in Hnot;
       [discriminate | now left]|].
    destruct (py_eq_str (dict_get "type" message) "room") eqn:Hr;
      [rewrite (py_eq_str_in _ _ ["direct"; "room"; "broadcast"] Hr) in Hnot;
       [discriminate | right; now left]|].
    destruct (py_eq_str (dict_get "type" message) "broadcast") eqn:Hb;
      [rewrite (py_eq_str_in _ _ ["direct"; "room"; "broadcast"] Hb) in Hnot;
       [discriminate | right; right; now left]|].
    reflexivity. }
  assert (py_in_strs (dict_get "type" message) ["direct"; "room"; "broadcast"] = true ->
          MessageHandler.validate_message (PDict message) = false) as Hinvalid.
  { intros Hin. unfold MessageHandler.validate_message.
    destruct (dict_has "content" message); [|reflexivity]. simpl.
    destruct (dict_get "type" message) as [ | b | z | s | l | d ]; try discriminate Hin.
    simpl in Hin. rewrite !orb_false_r in Hin.
    assert (s = "direct" \/ s = "room" \/ s = "broadcast") as Hs.
    { apply orb_true_iff in Hin as [Hin|Hin]; [left; now apply String.eqb_eq|].
      apply orb_true_iff in Hin as [Hin|Hin]; [right; left | right; right];
        now apply String.eqb_eq. }
    destruct Hs as [-> | [-> | ->]]; reflexivity. }
  split; [exact Hother|]. split; [|exact Hinvalid].
  intros Hvalid. apply Hother.
  destruct (py_in_strs (dict_get "type" message) ["direct"; "room"; "broadcast"]) eqn:Hin;
    [|reflexivity].
  rewrite (Hinvalid eq_refl) in Hvalid. discriminate.
Qed.

(** ** The store: retention sweep, ids and order *)

Lemma insert_by_created_at_head r l :
  List.Forall (created_le r) l -> insert_by_created_at r l = r :: l.
Proof.
  intros H. destruct l as [|x l]; [reflexivity|]. simpl.
  apply List.Forall_inv in H. unfold created_le in H.
  apply Z.leb_le in H. now rewrite H.
Qed.

Lemma filter_insert_by_created_at (p : message_row -> bool) r l :
  StronglySorted created_le l ->
  List.filter p (insert_by_created_at r l)
  = if p r then insert_by_created_at r (List.filter p l) else List.filter p l.
Proof.
  induction 1 as [|x l Hs IH Hx]; simpl; [now destruct (p r)|].
  destruct (Z.leb_spec (msg_created_at r) (msg_created_at x)) as [Hle|Hgt]; simpl.
  - destruct (p r) eqn:Hr; [|reflexivity].
    rewrite insert_by_created_at_head; [reflexivity|].
    assert (List.Forall (created_le r) (x :: l)) as Hall.
    { constructor; [exact Hle|]. rewrite List.Forall_forall in Hx |- *.
      intros y Hy. specialize (Hx y Hy). unfold created_le in *. lia. }
    change (List.Forall (created_le r) (List.filter p (x :: l))).
    rewrite List.Forall_forall in Hall |- *. intros y Hy.
    apply filter_In in Hy as [Hy _]. now apply Hall.
  - rewrite IH. destruct (p x) eqn:Hpx; simpl.
    + destruct (p r); [|reflexivity].
      destruct (Z.leb_spec (msg_created_at r) (msg_created_at x)); [lia | reflexivity].
    + reflexivity.
Qed.

(** Selecting before or after the [ORDER BY] gives the same list. *)
Lemma order_by_created_at_filter (p : message_row -> bool) l :
  order_by_created_at (List.filter p l) = List.filter p (order_by_created_at l).
Proof.
  induction l as [|r l IH]; simpl; [reflexivity|].
  rewrite filter_insert_by_created_at by apply order_by_created_at_sorted.
  destruct (p r); simpl; now rewrite IH.
Qed.

Lemma order_by_created_at_sorted_input l :
  StronglySorted created_le l -> order_by_created_at l = l.
Proof.
  induction 1 as [|x l Hs IH Hx]; simpl; [reflexivity|].
  rewrite IH. now apply insert_by_created_at_head.
Qed.

Lemma get_messages_rows user_id db :
  result_of (OfflineQueue.get_messages user_id) db
  = List.map queued_of_row (order_by_created_at (undelivered_rows user_id db)).
Proof. reflexivity. Qed.

(** X9. The retention sweep deletes exactly the rows created before the
    cutoff [now - 86400 * days], delivered or not, and returns their
    number.  A recipient's drain after the sweep is the drain before it
    without the expired messages, in the same order: queued messages
    older than the retention period are lost undelivered. *)
Theorem delete_old_messages_drops_expired_rows_delivered_or_not
    (now : Z) (days : nat) (db : Database) :
  let cutoff := (now - 86400 * Z.of_nat days)%Z in
  let db' := db_after (MessageStore.delete_old_messages now days) db in
  (forall r, In r (messages db')
             <-> In r (messages db) /\ (cutoff <= msg_created_at r)%Z)
  /\ (result_of (MessageStore.delete_old_messages now days) db
      + Z.of_nat (length (messages db')) = Z.of_nat (length (messages db)))%Z
  /\ (forall u,
        result_of (OfflineQueue.get_messages u) db'
        = List.filter (fun m => (cutoff <=? OfflineQueue.created_at m)%Z)
            (result_of (OfflineQueue.get_messages u) db))
  /\ messages_seq db' = messages_seq db.
Proof.
  intros cutoff db'.
  assert (messages db'
          = List.filter (fun r => negb (msg_created_at r <? cutoff)%Z) (messages db))
    as Hmsgs by reflexivity.
  split; [|split; [|split; [|reflexivity]]].
  - intros r. rewrite Hmsgs, filter_In. split; intros [Hin Hkeep]; (split; [exact Hin|]).
    + apply negb_true_iff, Z.ltb_ge in Hkeep. exact Hkeep.
    + apply negb_true_iff, Z.ltb_ge. exact Hkeep.
  - assert (forall l : list message_row,
              (length (List.filter (fun r => (msg_created_at r <? cutoff)%Z) l)
               + length (List.filter (fun r => negb (msg_created_at r <? cutoff)%Z) l)
               = length l)%nat) as Hsplit.
    { induction l as [|x l IH]; simpl; [reflexivity|].
      destruct (msg_created_at x <? cutoff)%Z; simpl; lia. }
    rewrite Hmsgs. unfold result_of, MessageStore.delete_old_messages,
      delete_messages_rowcount. cbn [fst]. fold cutoff.
    specialize (Hsplit (messages db)). lia.
  - intros u. rewrite !get_messages_rows. unfold undelivered_rows. rewrite Hmsgs.
    assert (forall l,
              List.filter (undelivered_for u)
                (List.filter (fun r => negb (msg_created_at r <? cutoff)%Z) l)
              = List.filter (fun r => (cutoff <=? msg_created_at r)%Z)
                  (List.filter (undelivered_for u) l)) as Hcomm.
    { induction l as [|x l IH]; simpl; [reflexivity|].
      assert (negb (msg_created_at x <? cutoff)%Z = (cutoff <=? msg_created_at x)%Z)
        as Hx by (rewrite Z.leb_antisym; reflexivity).
      rewrite Hx. destruct (cutoff <=? msg_created_at x)%Z eqn:Hc; simpl;
        destruct (undelivered_for u x); simpl; rewrite ?Hc, IH; reflexivity. }
    rewrite Hcomm, order_by_created_at_filter.
    induction (order_by_created_at (List.filter (undelivered_for u) (messages db)))
      as [|x l IH]; simpl; [reflexivity|].
    destruct (cutoff <=? msg_created_at x)%Z; simpl; now rewrite IH.
Qed.

Lemma count_adds_app ops ops' :
  count_adds (ops ++ ops') = (count_adds ops + count_adds ops')%Z.
Proof.
  induction ops as [|op ops IH]; simpl; [reflexivity|].
  destruct op; rewrite IH; lia.
Qed.

Lemma run_queue_ops_seq max_messages ops : forall db,
  messages_seq (run_queue_ops max_messages ops db)
  = (messages_seq db + count_adds ops)%Z.
Proof.
  induction ops as [|op ops IH]; intros db; simpl; [lia|].
  rewrite IH. destruct op; cbn [run_queue_op count_adds];
    [rewrite add_message_seq; lia | reflexivity ..].
Qed.

(** X10. Message ids count the enqueues: on a freshly initialised
    database, whatever calls were made before and whatever was evicted
    or delivered, [add_message] returns one more than the number of
    earlier [add_message] calls, and that id is larger than the id of
    every row in the table.  An id is never handed out twice. *)
Theorem add_message_returns_the_next_unused_id
    (max_messages : Z) (ops : list queue_op) (now user_id : Z)
    (message sender_id : pyval) :
  let db := run_queue_ops max_messages ops init_database in
  let new_id := result_of (OfflineQueue.add_message max_messages now user_id
                             message sender_id) db in
  new_id = (count_adds ops + 1)%Z
  /\ (forall r, In r (messages db) -> (msg_id r < new_id)%Z)
  /\ List.NoDup (List.map msg_id
       (messages (db_after (OfflineQueue.add_message max_messages now user_id
                              message sender_id) db))).
Proof.
  intros db new_id.
  assert (new_id = (messages_seq db + 1)%Z) as Hnew.
  { unfold new_id, OfflineQueue.add_message. run_sql.
    destruct (max_messages <=? _)%Z; simpl; [|reflexivity].
    destruct (order_by_created_at _); reflexivity. }
  assert (ids_ok db) as [Hnd Hle].
  { unfold db. clear. generalize ids_ok_init. generalize init_database.
    induction ops as [|op ops IH]; intros d Hd; simpl; [exact Hd|].
    apply IH. now apply ids_ok_step. }
  split; [|split].
  - rewrite Hnew. unfold db. rewrite run_queue_ops_seq. simpl. lia.
  - intros r Hr. rewrite List.Forall_forall in Hle. specialize (Hle r Hr). lia.
  - apply (ids_ok_step max_messages (AddMessage now user_id message sender_id) db).
    now split.
Qed.

Lemma StronglySorted_filter_rows (R : message_row -> message_row -> Prop)
    (p : message_row -> bool) l :
  StronglySorted R l -> StronglySorted R (List.filter p l).
Proof.
  induction 1 as [|x l Hs IH Hx]; simpl; [constructor|].
  destruct (p x); [|exact IH]. constructor; [exact IH|].
  rewrite List.Forall_forall in Hx |- *. intros y Hy.
  apply filter_In in Hy as [Hy _]. now apply Hx.
Qed.

Lemma StronglySorted_snoc (R : message_row -> message_row -> Prop) l y :
  StronglySorted R l -> List.Forall (fun x => R x y) l -> StronglySorted R (l ++ [y]).
Proof.
  induction 1 as [|x l Hs IH Hx]; intros Hall; simpl; [repeat constructor|].
  apply List.Forall_cons_iff in Hall as [Hxy Hall].
  constructor; [now apply IH|].
  apply List.Forall_app. split; [exact Hx | now constructor].
Qed.

Lemma rows_in_order_step max_messages op db t :
  rows_in_order t db -> adds_after t [op] ->
  exists t', rows_in_order t' (run_queue_op max_messages op db)
             /\ (forall rest, adds_after t (op :: rest) -> adds_after t' rest).
Proof.
  intros [Hsorted Hall] Hadds.
  destruct op as [now u m s|u|now i|u]; cbn [run_queue_op].
  - destruct Hadds as [Hlater _]. exists now. split; [|now intros rest [_ H]].
    assert (exists kept,
              messages (db_after (OfflineQueue.add_message max_messages now u m s) db)
              = kept ++ [offline_row (messages_seq db + 1) now u m s]
              /\ StronglySorted before kept
              /\ (forall r, In r kept -> In r (messages db))) as (kept & Hmsgs & Hkept & Hincl).
    { rewrite add_message_messages.
      destruct (max_messages <=? queue_size u db)%Z;
        [destruct (oldest_undelivered u db)|]; eexists; (split; [reflexivity|]);
        (split; [|try (intros r Hr; exact Hr)]); try assumption.
      - now apply StronglySorted_filter_rows.
      - intros r. apply without_id_incl. }
    rewrite List.Forall_forall in Hall.
    split.
    + rewrite Hmsgs. apply StronglySorted_snoc; [exact Hkept|].
      apply List.Forall_forall. intros r Hr. apply Hincl, Hall in Hr.
      unfold before; simpl. lia.
    + rewrite Hmsgs, add_message_seq. apply List.Forall_forall. intros r Hr.
      apply in_app_or in Hr as [Hr|[<-|[]]]; simpl; [|lia].
      apply Hincl, Hall in Hr. lia.
  - exists t. split; [now split | now intros rest H].
  - exists t. split; [|now intros rest H].
    split.
    + rewrite mark_delivered_messages.
      clear Hall. induction Hsorted as [|x l Hs IH Hx]; simpl; constructor; [exact IH|].
      rewrite List.Forall_forall in Hx |- *. intros y' Hy'.
      apply in_map_iff in Hy' as (y & <- & Hy). specialize (Hx y Hy).
      unfold before in *. destruct (has_id i x), (has_id i y); simpl; exact Hx.
    + apply List.Forall_forall. intros r' Hr'. rewrite mark_delivered_messages in Hr'.
      apply in_map_iff in Hr' as (r & <- & Hr).
      rewrite List.Forall_forall in Hall. specialize (Hall r Hr).
      now destruct (has_id i r).
  - exists t. split; [now split | now intros rest H].
Qed.

Lemma rows_in_order_run max_messages ops : forall db t,
  rows_in_order t db -> adds_after t ops ->
  exists t', rows_in_order t' (run_queue_ops max_messages ops db).
Proof.
  induction ops as [|op ops IH]; intros db t Hinv Hadds; simpl; [now exists t|].
  assert (adds_after t [op]) as Hop by (destruct op; simpl in *; tauto).
  destruct (rows_in_order_step max_messages op db t Hinv Hop) as (t' & Hinv' & Hrest).
  apply (IH _ t' Hinv'). now apply Hrest.
Qed.

(** X11. Per-recipient FIFO.  If every enqueue of a run on a fresh
    database reads a later timestamp than the one before (no two in the
    same second, clock never set back), then draining any recipient
    returns that recipient's undelivered messages in the order they were
    enqueued: in table order, with strictly increasing ids and creation
    times, whatever was evicted or marked delivered in between. *)
Theorem drain_returns_messages_in_enqueue_order
    (max_messages t0 : Z) (ops : list queue_op) (user_id : Z) :
  adds_after t0 ops ->
  let db := run_queue_ops max_messages ops init_database in
  let drained := result_of (OfflineQueue.get_messages user_id) db in
  drained = List.map queued_of_row (undelivered_rows user_id db)
  /\ StronglySorted Z.lt (List.map OfflineQueue.id drained)
  /\ StronglySorted Z.lt (List.map OfflineQueue.created_at drained).
Proof.
  intros Hadds db drained.
  assert (rows_in_order t0 init_database) as Hinit by (split; constructor).
  destruct (rows_in_order_run max_messages ops init_database t0 Hinit Hadds)
    as (t' & Hsorted & _).
  fold db in Hsorted.
  pose proof (StronglySorted_filter_rows before (undelivered_for user_id) _ Hsorted)
    as Hrows. fold (undelivered_rows user_id db) in Hrows.
  assert (drained = List.map queued_of_row (undelivered_rows user_id db)) as Hdrained.
  { unfold drained. rewrite get_messages_rows. f_equal.
    apply order_by_created_at_sorted_input.
    clear -Hrows. induction Hrows as [|x l Hs IH Hx]; constructor; [exact IH|].
    eapply List.Forall_impl; [|exact Hx]. unfold before, created_le. intros; lia. }
  split; [exact Hdrained|]. rewrite Hdrained, !List.map_map. simpl.
  split; clear -Hrows; induction Hrows as [|x l Hs IH Hx]; simpl; constructor;
    try exact IH; apply List.Forall_map; (eapply List.Forall_impl; [|exact Hx]);
    unfold before; intros; lia.
Qed.

Lemma drain_returns_messages_in_enqueue_order_witness :
  let ops := [AddMessage 10 99 (PStr "m1") (PInt 1);
              AddMessage 11 99 (PStr "m2") (PInt 1);
              MarkDelivered 12 1;
              AddMessage 13 99 (PStr "m3") (PInt 1)] in
  adds_after 0 ops
  /\ let db := run_queue_ops 2 ops init_database in
     let drained := result_of (OfflineQueue.get_messages 99) db in
     drained = List.map queued_of_row (undelivered_rows 99 db)
     /\ StronglySorted Z.lt (List.map OfflineQueue.id drained)
     /\ StronglySorted Z.lt (List.map OfflineQueue.created_at drained).
Proof.
  intros ops.
  assert (adds_after 0 ops) as Hadds by (simpl; lia).
  split; [exact Hadds|].
  exact (drain_returns_messages_in_enqueue_order 2 0 ops 99 Hadds).
Defined.

(** ** The room directory beyond joining *)

Lemma is_member_key room_id user_id db :
  is_member room_id user_id db = true
  <-> In (room_id, user_id) (List.map member_key (room_members db)).
Proof.
  unfold is_member. rewrite existsb_exists, in_map_iff. split.
  - intros (m & Hm & Hmatch). apply andb_true_iff in Hmatch as [Hr Hu].
    apply String.eqb_eq in Hr. apply Z.eqb_eq in Hu. exists m. split; [|exact Hm].
    unfold member_key. now rewrite Hr, Hu.
  - intros (m & Hkey & Hm). exists m. split; [exact Hm|].
    unfold member_key in Hkey. injection Hkey as <- <-.
    now rewrite String.eqb_refl, Z.eqb_refl.
Qed.

Lemma member_count_nonneg room_id db : (0 <= member_count room_id db)%Z.
Proof. unfold member_count, result_of, count_members; simpl. lia. Qed.

Lemma members_ok_init : members_ok init_database.
Proof.
  split; [|split].
  - split; [intros m []|]. intros rid maxm H. discriminate H.
  - constructor.
  - intros rid maxm H. discriminate H.
Qed.

Lemma members_ok_step op db : members_ok db -> members_ok (run_room_op op db).
Proof.
  intros (Hok & Hnd & Hneg). split; [now apply rooms_ok_step|].
  destruct Hok as [Hknown Hcap].
  destruct op as [now rid name by_ priv maxm | now rid u | rid u]; simpl.
  - unfold db_after, RoomManager.create_room, sql_bind, insert_room; simpl.
    destruct (existsb (fun r => String.eqb (room_room_id r) rid) (rooms db)) eqn:Hex;
      simpl; [now split|].
    fold (with_room now rid name by_ priv maxm db).
    split; [exact Hnd|]. intros rid' maxm' Hsome Hlt.
    rewrite (room_capacity_with_room _ _ _ _ _ _ _ _ Hex) in Hsome.
    change (member_count rid' _) with (member_count rid' db).
    destruct (String.eqb_spec rid rid') as [<-|Hne]; [|now apply (Hneg rid' maxm')].
    apply member_count_unknown_room; [exact Hknown|].
    unfold room_capacity, result_of, select_max_members; simpl.
    now rewrite room_capacity_none.
  - pose proof (join_room_cases now rid u db) as Hjoin.
    destruct (room_capacity rid db) as [maxm|] eqn:Hroom;
      [|destruct Hjoin as [_ ->]; now split].
    destruct (Z.leb_spec maxm (member_count rid db)) as [Hfull|Hfree];
      [destruct Hjoin as [_ ->]; now split|].
    destruct Hjoin as [_ ->].
    destruct (is_member rid u db) eqn:Hmem; [now split|].
    split.
    + unfold with_member; simpl. rewrite List.map_app. simpl.
      apply List.NoDup_app; [exact Hnd | repeat constructor; intros [] |].
      intros key Hkey [<-|[]]. unfold member_key in Hkey; simpl in Hkey.
      apply is_member_key in Hkey. congruence.
    + intros rid' maxm' Hsome Hlt.
      change (room_capacity rid' (with_member now rid u db))
        with (room_capacity rid' db) in Hsome.
      destruct (String.eqb_spec rid rid') as [<-|Hne].
      * rewrite Hroom in Hsome. injection Hsome as <-.
        pose proof (member_count_nonneg rid db). lia.
      * specialize (Hneg rid' maxm' Hsome Hlt).
        unfold member_count, result_of, count_members, with_member in *; simpl in *.
        rewrite List.filter_app, List.length_app; simpl.
        destruct (String.eqb_spec rid rid'); [congruence|]. simpl. lia.
  - unfold db_after, RoomManager.leave_room, delete_member; simpl.
    split; [now apply NoDup_map_filter|].
    intros rid' maxm' Hsome Hlt. specialize (Hneg rid' maxm' Hsome Hlt).
    unfold member_count, result_of, count_members in *; simpl in *.
    assert (forall l, length (List.filter (fun m => String.eqb (member_room_id m) rid')
              (List.filter (fun m => negb (String.eqb (member_room_id m) rid
                                           && (member_user_id m =? u)%Z)) l))
            <= length (List.filter (fun m => String.eqb (member_room_id m) rid') l))%nat
      as Hlen.
    { induction l as [|x l IH]; simpl; [lia|].
      destruct (negb _); simpl; destruct (String.eqb (member_room_id x) rid');
        simpl; lia. }
    specialize (Hlen (room_members db)). lia.
Qed.

Lemma members_ok_run ops : forall db, members_ok db -> members_ok (run_room_ops ops db).
Proof.
  induction ops as [|op ops IH]; intros db Hok; simpl; [exact Hok|].
  apply IH. now apply members_ok_step.
Qed.

(** With pairwise distinct keys, deleting a stored pair shortens the
    room's member list by one. *)
Lemma leave_removes_one room_id user_id l :
  List.NoDup (List.map member_key l) ->
  In (room_id, user_id) (List.map member_key l) ->
  S (length (List.filter (fun m => String.eqb (member_room_id m) room_id)
       (List.filter (fun m => negb (String.eqb (member_room_id m) room_id
                                    && (member_user_id m =? user_id)%Z)) l)))
  = length (List.filter (fun m => String.eqb (member_room_id m) room_id) l).
Proof.
  induction l as [|x l IH]; intros Hnd Hin; [destruct Hin|].
  simpl in Hnd. apply List.NoDup_cons_iff in Hnd as [Hx Hnd].
  assert (forall l', ~ In (room_id, user_id) (List.map member_key l') ->
            List.filter (fun m => negb (String.eqb (member_room_id m) room_id
                                        && (member_user_id m =? user_id)%Z)) l' = l')
    as Hkeep.
  { induction l' as [|y l' IHl]; intros Hnot; simpl; [reflexivity|].
    destruct (String.eqb_spec (member_room_id y) room_id) as [Hr|Hr]; simpl.
    - destruct (Z.eqb_spec (member_user_id y) user_id) as [Hu|Hu]; simpl.
      + exfalso. apply Hnot. left. unfold member_key. now rewrite Hr, Hu.
      + f_equal. apply IHl. intros H. apply Hnot. now right.
    - f_equal. apply IHl. intros H. apply Hnot. now right. }
  simpl.
  destruct (String.eqb_spec (member_room_id x) room_id) as [Hr|Hr]; simpl.
  - destruct (Z.eqb_spec (member_user_id x) user_id) as [Hu|Hu]; simpl.
    + rewrite Hkeep; [reflexivity|].
      assert (member_key x = (room_id, user_id)) as Hkey
        by (unfold member_key; now rewrite Hr, Hu).
      now rewrite <- Hkey.
    + rewrite Hr, String.eqb_refl. simpl. f_equal. apply IH; [exact Hnd|].
      destruct Hin as [Hin|Hin]; [|exact Hin].
      unfold member_key in Hin. injection Hin as _ Hu'. congruence.
  - destruct (String.eqb_spec (member_room_id x) room_id); [congruence|].
    apply IH; [exact Hnd|].
    destruct Hin as [Hin|Hin]; [|exact Hin].
    unfold member_key in Hin. injection Hin as Hr' _. congruence.
Qed.

(** X12. In a directory built by create/join/leave calls, when a member
    whose id binds leaves a room, the room's count drops by exactly one,
    the user is no longer a member, and the next join to that room finds
    a place, however full the room was: it returns [True] for whichever
    user whose id binds, and for an id of more than 64 bits it gets as
    far as the INSERT, which raises. *)
Theorem leave_room_frees_one_place
    (ops : list room_op) (room_id : string) (user_id other : Z) (now : Z) :
  let db := run_room_ops ops init_database in
  is_member room_id user_id db = true ->
  fits_int64 user_id = true ->
  let db1 := db_after (RoomManager.leave_room room_id user_id) db in
  member_count room_id db1 = (member_count room_id db - 1)%Z
  /\ is_member room_id user_id db1 = false
  /\ result_of (RoomManager.join_room_or_raise now room_id other) db1
     = (if fits_int64 other then Some true else None).
Proof.
  intros db Hmem _ db1.
  destruct (members_ok_run ops init_database members_ok_init)
    as ([Hknown Hcap] & Hnd & Hneg).
  fold db in Hknown, Hcap, Hnd, Hneg.
  pose proof (proj1 (is_member_key room_id user_id db) Hmem) as Hkey.
  assert (member_count room_id db1 = (member_count room_id db - 1)%Z) as Hcount.
  { pose proof (leave_removes_one room_id user_id (room_members db) Hnd Hkey) as Hone.
    unfold member_count, result_of, count_members, db1, db_after,
      RoomManager.leave_room, delete_member; simpl. lia. }
  assert (is_member room_id user_id db1 = false) as Hgone.
  { assert (forall l : list member_row,
              existsb (fun m => String.eqb (member_room_id m) room_id
                                && (member_user_id m =? user_id)%Z)
                (List.filter (fun m => negb (String.eqb (member_room_id m) room_id
                                            && (member_user_id m =? user_id)%Z)) l)
              = false) as Hnone.
    { induction l as [|x l IH]; simpl; [reflexivity|].
      destruct (String.eqb (member_room_id x) room_id && (member_user_id x =? user_id)%Z)
        eqn:Hx; simpl; [exact IH|]. now rewrite Hx. }
    apply Hnone. }
  split; [exact Hcount|]. split; [exact Hgone|].
  assert (exists maxm, room_capacity room_id db = Some maxm) as [maxm Hroom].
  { apply in_map_iff in Hkey as (m & Hm & Hin). unfold member_key in Hm.
    injection Hm as Hr _. specialize (Hknown m Hin). rewrite Hr in Hknown.
    destruct (room_capacity room_id db) as [maxm|]; [now exists maxm | congruence]. }
  assert (1 <= member_count room_id db)%Z as Hpos.
  { pose proof (member_count_nonneg room_id db1). lia. }
  assert (member_count room_id db <= maxm)%Z as Hle.
  { destruct (Z.lt_ge_cases maxm 0) as [Hlt|Hge].
    - specialize (Hneg room_id maxm Hroom Hlt). lia.
    - now apply Hcap. }
  unfold result_of. rewrite join_room_or_raise_cases.
  change (room_capacity room_id db1) with (room_capacity room_id db).
  rewrite Hroom.
  destruct (Z.leb_spec maxm (member_count room_id db1)); [lia|].
  now destruct (fits_int64 other).
Qed.

Lemma leave_room_frees_one_place_witness :
  let ops := [CreateRoom 0 "general" "General" 1 false 2;
              JoinRoom 1 "general" 1; JoinRoom 2 "general" 2] in
  let db := run_room_ops ops init_database in
  is_member "general" 1 db = true
  /\ let db1 := db_after (RoomManager.leave_room "general" 1) db in
     member_count "general" db1 = (member_count "general" db - 1)%Z
     /\ is_member "general" 1 db1 = false
     /\ result_of (RoomManager.join_room_or_raise 3 "general" 3) db1 = Some true.
Proof.
  intros ops db.
  assert (is_member "general" 1 db = true) as Hmem by reflexivity.
  split; [exact Hmem|].
  exact (leave_room_frees_one_place ops "general" 1 3 3 Hmem eq_refl).
Defined.

Lemma filter_all {A} (p : A -> bool) (l : list A) :
  (forall x, In x l -> p x = true) -> List.filter p l = l.
Proof.
  induction l as [|a l IH]; intros H; simpl; [reflexivity|].
  rewrite (H a (or_introl eq_refl)). f_equal. apply IH. intros x Hx. apply H. now right.
Qed.

Lemma leave_room_of_non_member room_id user_id db :
  is_member room_id user_id db = false ->
  db_after (RoomManager.leave_room room_id user_id) db = db.
Proof.
  intros Hmem. destruct db as [rs ms msgs seq].
  unfold db_after, RoomManager.leave_room, delete_member, is_member in *; simpl in *.
  f_equal. apply filter_all. intros m Hm.
  destruct (String.eqb (member_room_id m) room_id && (member_user_id m =? user_id)%Z)
    eqn:Hmatch; [|reflexivity].
  assert (existsb (fun m => String.eqb (member_room_id m) room_id
                            && (member_user_id m =? user_id)%Z) ms = true)
    by (apply existsb_exists; now exists m).
  congruence.
Qed.

(** X13. [leave_room] undoes a join and is idempotent: a user who was not
    a member, joins with success and leaves again leaves the database
    exactly as it was; leaving twice is leaving once; leaving a room one
    is not a member of (or that does not exist) changes nothing; and no
    other membership pair is touched. *)
Theorem leave_room_undoes_join_and_is_idempotent
    (now : Z) (room_id : string) (user_id : Z) (db : Database) :
  (is_member room_id user_id db = false ->
   result_of (RoomManager.join_room now room_id user_id) db = true ->
   db_after (RoomManager.leave_room room_id user_id)
     (db_after (RoomManager.join_room now room_id user_id) db) = db)
  /\ db_after (RoomManager.leave_room room_id user_id)
       (db_after (RoomManager.leave_room room_id user_id) db)
     = db_after (RoomManager.leave_room room_id user_id) db
  /\ (is_member room_id user_id db = false ->
      db_after (RoomManager.leave_room room_id user_id) db = db)
  /\ (forall room_id' user_id',
        (room_id', user_id') <> (room_id, user_id) ->
        is_member room_id' user_id' (db_after (RoomManager.leave_room room_id user_id) db)
        = is_member room_id' user_id' db).
Proof.
  assert (forall d, is_member room_id user_id
                      (db_after (RoomManager.leave_room room_id user_id) d) = false)
    as Hgone.
  { intros d. unfold is_member, db_after, RoomManager.leave_room, delete_member; simpl.
    induction (room_members d) as [|x l IH]; simpl; [reflexivity|].
    destruct (String.eqb (member_room_id x) room_id && (member_user_id x =? user_id)%Z)
      eqn:Hx; simpl; [exact IH|]. now rewrite Hx. }
  split; [|split; [|split]].
  - intros Hmem Hjoined.
    pose proof (join_room_cases now room_id user_id db) as Hjoin.
    destruct (room_capacity room_id db) as [maxm|];
      [|destruct Hjoin as [Hjoin _]; congruence].
    destruct (maxm <=? member_count room_id db)%Z;
      [destruct Hjoin as [Hjoin _]; congruence|].
    destruct Hjoin as [_ ->]. rewrite Hmem.
    destruct db as [rs ms msgs seq].
    unfold db_after, RoomManager.leave_room, delete_member, with_member, is_member in *;
      simpl in *.
    f_equal. rewrite List.filter_app. simpl.
    rewrite String.eqb_refl, Z.eqb_refl. simpl. rewrite app_nil_r.
    apply filter_all. intros m Hm.
    destruct (String.eqb (member_room_id m) room_id && (member_user_id m =? user_id)%Z)
      eqn:Hmatch; [|reflexivity].
    assert (existsb (fun m => String.eqb (member_room_id m) room_id
                              && (member_user_id m =? user_id)%Z) ms = true)
      by (apply existsb_exists; now exists m).
    congruence.
  - apply leave_room_of_non_member, Hgone.
  - apply leave_room_of_non_member.
  - intros r' u' Hne.
    unfold is_member, db_after, RoomManager.leave_room, delete_member; simpl.
    induction (room_members db) as [|x l IH]; simpl; [reflexivity|].
    destruct (String.eqb_spec (member_room_id x) room_id) as [Hr|Hr];
      destruct (Z.eqb_spec (member_user_id x) user_id) as [Hu|Hu]; simpl;
      rewrite ?IH; try reflexivity.
    destruct (String.eqb_spec (member_room_id x) r') as [Hr'|Hr'];
      destruct (Z.eqb_spec (member_user_id x) u') as [Hu'|Hu']; simpl;
      try reflexivity.
    exfalso. apply Hne. congruence.
Qed.

(** X14. The read views of the directory agree with one another: a user
    is in [get_room_members] of a room exactly when the room is in the
    user's [get_user_rooms]; [get_room_info] answers for exactly the
    rooms [join_room] knows, with the capacity [join_room] checks and a
    member count equal to the length of [get_room_members]. *)
Theorem room_views_agree (room_id : string) (user_id : Z) (db : Database) :
  (In user_id (result_of (RoomManager.get_room_members room_id) db)
   <-> In room_id (result_of (RoomManager.get_user_rooms user_id) db))
  /\ (In user_id (result_of (RoomManager.get_room_members room_id) db)
      <-> is_member room_id user_id db = true)
  /\ db_after (RoomManager.get_room_info room_id) db = db
  /\ match result_of (RoomManager.get_room_info room_id) db with
     | Some info =>
         RoomManager.room_id info = room_id
         /\ room_capacity room_id db = Some (RoomManager.max_members info)
         /\ RoomManager.view_member_count info
            = Z.of_nat (length (result_of (RoomManager.get_room_members room_id) db))
     | None => room_capacity room_id db = None
     end.
Proof.
  assert (In user_id (result_of (RoomManager.get_room_members room_id) db)
          <-> is_member room_id user_id db = true) as Hmem.
  { rewrite is_member_key.
    unfold result_of, RoomManager.get_room_members, select_member_ids; simpl.
    rewrite order_by_id_in, !in_map_iff. split.
    - intros (m & Hu & Hm). apply filter_In in Hm as [Hm Hr].
      apply String.eqb_eq in Hr. exists m. split; [|exact Hm].
      unfold member_key. now rewrite Hr, Hu.
    - intros (m & Hkey & Hm). unfold member_key in Hkey. injection Hkey as Hr Hu.
      exists m. split; [exact Hu|]. apply filter_In. split; [exact Hm|].
      now apply String.eqb_eq. }
  split; [|split; [exact Hmem | split]].
  - rewrite Hmem, is_member_key.
    unfold result_of, RoomManager.get_user_rooms, select_room_ids_of; simpl.
    rewrite !in_map_iff. split.
    + intros (m & Hkey & Hm). unfold member_key in Hkey. injection Hkey as Hr Hu.
      exists m. split; [exact Hr|]. apply filter_In. split; [exact Hm|].
      now apply Z.eqb_eq.
    + intros (m & Hr & Hm). apply filter_In in Hm as [Hm Hu].
      apply Z.eqb_eq in Hu. exists m. split; [|exact Hm].
      unfold member_key. now rewrite Hr, Hu.
  - unfold db_after, RoomManager.get_room_info, sql_bind, select_room; simpl.
    now destruct (List.filter _ (rooms db)).
  - unfold room_capacity, result_of, RoomManager.get_room_info, sql_bind, select_room,
      select_max_members, RoomManager.get_room_members, select_member_ids; simpl.
    destruct (List.filter (fun r => String.eqb (room_room_id r) room_id) (rooms db))
      as [|row rows] eqn:Hrows; simpl; [reflexivity|].
    split; [|split; [reflexivity | now rewrite order_by_id_length, List.length_map]].
    assert (In row (List.filter (fun r => String.eqb (room_room_id r) room_id) (rooms db)))
      as Hin by (rewrite Hrows; now left).
    apply filter_In in Hin as [_ Hid]. now apply String.eqb_eq.
Qed.

Lemma get_room_info_db room_id db :
  db_after (RoomManager.get_room_info room_id) db = db.
Proof.
  unfold db_after, RoomManager.get_room_info, sql_bind, select_room; simpl.
  now destruct (List.filter _ (rooms db)).
Qed.

Lemma get_room_info_known room_id db :
  In room_id (List.map room_room_id (rooms db)) ->
  exists info,
    result_of (RoomManager.get_room_info room_id) db = Some info
    /\ RoomManager.room_id info = room_id.
Proof.
  intros Hin. apply in_map_iff in Hin as (r & Hid & Hr).
  unfold result_of, RoomManager.get_room_info, sql_bind, select_room; simpl.
  destruct (List.filter (fun r => String.eqb (room_room_id r) room_id) (rooms db))
    as [|row rows] eqn:Hrows.
  - exfalso. assert (In r (List.filter (fun r => String.eqb (room_room_id r) room_id)
                             (rooms db))) as H
      by (apply filter_In; split; [exact Hr | now apply String.eqb_eq]).
    now rewrite Hrows in H.
  - simpl. eexists. split; [reflexivity|]. simpl.
    assert (In row (List.filter (fun r => String.eqb (room_room_id r) room_id) (rooms db)))
      as H by (rewrite Hrows; now left).
    apply filter_In in H as [_ H]. now apply String.eqb_eq.
Qed.

Lemma room_infos_known ids db :
  (forall room_id, In room_id ids -> In room_id (List.map room_room_id (rooms db))) ->
  db_after (RoomManager.room_infos ids) db = db
  /\ List.map RoomManager.room_id (result_of (RoomManager.room_infos ids) db) = ids
  /\ (forall info, In info (result_of (RoomManager.room_infos ids) db) ->
        result_of (RoomManager.get_room_info (RoomManager.room_id info)) db = Some info).
Proof.
  induction ids as [|room_id ids IH]; intros Hknown.
  - repeat split. intros info [].
  - destruct IH as (IHdb & IHids & IHinfo); [intros r Hr; apply Hknown; now right|].
    destruct (get_room_info_known room_id db) as (info & Hinfo & Hid);
      [apply Hknown; now left|].
    assert (RoomManager.room_infos (room_id :: ids) db
            = (info :: result_of (RoomManager.room_infos ids) db, db)) as Hstep.
    { cbn [RoomManager.room_infos]. unfold sql_bind.
      fold (db_after (RoomManager.get_room_info room_id) db).
      fold (result_of (RoomManager.get_room_info room_id) db).
      rewrite get_room_info_db, Hinfo.
      fold (db_after (RoomManager.room_infos ids) db).
      fold (result_of (RoomManager.room_infos ids) db).
      now rewrite IHdb. }
    unfold db_after, result_of in *. rewrite Hstep. cbn [fst snd].
    split; [reflexivity|]. split; [simpl; now rewrite Hid, IHids|].
    intros info' [<-|Hin]; [now rewrite Hid | now apply IHinfo].
Qed.

Lemma insert_by_text_hd x a l :
  HdRel (fun s t => String.leb s t = true) a l -> String.leb a x = true ->
  HdRel (fun s t => String.leb s t = true) a (insert_by_text x l).
Proof.
  intros Hhd Hax. destruct l as [|y l]; simpl; [now constructor|].
  destruct (String.leb x y); constructor; [exact Hax | now inversion Hhd].
Qed.

Lemma order_by_text_sorted l :
  Sorted (fun s t => String.leb s t = true) (order_by_text l).
Proof.
  induction l as [|x l IH]; simpl; [constructor|].
  induction IH as [|a l' Hs IH' Hhd]; simpl; [repeat constructor|].
  destruct (String.leb x a) eqn:Hxa.
  - constructor; [now constructor | now constructor].
  - constructor; [exact IH'|]. apply insert_by_text_hd; [exact Hhd|].
    destruct (String.leb_total a x) as [H|H]; [exact H | congruence].
Qed.

(** X15. [list_rooms] reads without writing and lists every room once:
    the room ids of the views it returns are the room ids of the table,
    each as often as the table has it, in ascending order of the id; and
    each view is what [get_room_info] returns for its room id. *)
Theorem list_rooms_lists_every_room (db : Database) :
  db_after RoomManager.list_rooms db = db
  /\ Permutation (List.map RoomManager.room_id (result_of RoomManager.list_rooms db))
       (List.map room_room_id (rooms db))
  /\ Sorted (fun s t => String.leb s t = true)
       (List.map RoomManager.room_id (result_of RoomManager.list_rooms db))
  /\ (forall info, In info (result_of RoomManager.list_rooms db) ->
        result_of (RoomManager.get_room_info (RoomManager.room_id info)) db = Some info).
Proof.
  destruct (room_infos_known (order_by_text (List.map room_room_id (rooms db))) db)
    as (Hdb & Hids & Hinfo).
  { intros room_id Hin. eapply Permutation_in; [|exact Hin].
    apply Permutation_sym, order_by_text_perm. }
  assert (RoomManager.list_rooms db
          = RoomManager.room_infos (order_by_text (List.map room_room_id (rooms db))) db)
    as Hlist by reflexivity.
  unfold db_after, result_of in *. rewrite Hlist.
  split; [exact Hdb|]. rewrite Hids.
  split; [apply Permutation_sym, order_by_text_perm|].
  split; [apply order_by_text_sorted | exact Hinfo].
Qed.

(** X16. [delete_room] removes the room and every membership of it,
    nothing else: afterwards the room is unknown, has no member and
    cannot be joined; every other room keeps its capacity, its count and
    its members; and the stored messages, the room's history included,
    are untouched. *)
Theorem delete_room_removes_the_room_and_its_members_only
    (room_id : string) (db : Database) :
  let db' := db_after (RoomStore.delete_room room_id) db in
  room_capacity room_id db' = None
  /\ member_count room_id db' = 0%Z
  /\ (forall now user_id,
        result_of (RoomManager.join_room now room_id user_id) db' = false)
  /\ (forall other, other <> room_id ->
        room_capacity other db' = room_capacity other db
        /\ result_of (RoomManager.get_room_members other) db'
           = result_of (RoomManager.get_room_members other) db)
  /\ messages db' = messages db /\ messages_seq db' = messages_seq db.
Proof.
  intros db'.
  assert (room_capacity room_id db' = None) as Hgone.
  { unfold room_capacity, result_of, select_max_members, db', db_after,
      RoomStore.delete_room, sql_bind, delete_room_row, delete_members_of; simpl.
    rewrite filter_none; [reflexivity|]. intros r Hr. apply filter_In in Hr as [_ Hr].
    now apply negb_true_iff in Hr. }
  split; [exact Hgone|]. split; [|split; [|split; [|now split]]].
  - unfold member_count, result_of, count_members, db', db_after,
      RoomStore.delete_room, sql_bind, delete_room_row, delete_members_of; simpl.
    rewrite filter_none; [reflexivity|]. intros m Hm. apply filter_In in Hm as [_ Hm].
    now apply negb_true_iff in Hm.
  - intros now user_id. pose proof (join_room_cases now room_id user_id db') as H.
    rewrite Hgone in H. now destruct H.
  - intros other Hne. split.
    + unfold room_capacity, result_of, select_max_members, db', db_after,
        RoomStore.delete_room, sql_bind, delete_room_row, delete_members_of; simpl.
      assert (forall l,
                List.filter (fun r => String.eqb (room_room_id r) other)
                  (List.filter (fun r => negb (String.eqb (room_room_id r) room_id)) l)
                = List.filter (fun r => String.eqb (room_room_id r) other) l) as Hsame.
      { induction l as [|x l IH]; simpl; [reflexivity|].
        destruct (String.eqb_spec (room_room_id x) room_id) as [Hx|Hx]; simpl.
        - destruct (String.eqb_spec (room_room_id x) other); [congruence | exact IH].
        - now rewrite IH. }
      now rewrite Hsame.
    + unfold result_of, RoomManager.get_room_members, select_member_ids, db', db_after,
        RoomStore.delete_room, sql_bind, delete_room_row, delete_members_of; simpl.
      do 2 f_equal.
      induction (room_members db) as [|x l IH]; simpl; [reflexivity|].
      destruct (String.eqb_spec (member_room_id x) room_id) as [Hx|Hx]; simpl.
      * destruct (String.eqb_spec (member_room_id x) other); [congruence | exact IH].
      * now rewrite IH.
Qed.

(** X17. [save_room] never overwrites: for a room id that is already
    stored, whatever its capacity, the call changes nothing; for a new id
    it appends a room of capacity 100 with no member, which [get_room]
    then returns. *)
Theorem save_room_adds_or_ignores
    (now : Z) (room_id room_name : string) (created_by : Z) (is_private : bool)
    (db : Database) :
  let db' := db_after (RoomStore.save_room now room_id room_name created_by is_private)
               db in
  (room_capacity room_id db <> None -> db' = db)
  /\ (room_capacity room_id db = None ->
      result_of (RoomStore.get_room room_id) db'
      = Some {| room_room_id := room_id; room_room_name := room_name;
                room_created_by := created_by; room_created_at := now;
                room_is_private := is_private; room_max_members := 100 |}
      /\ room_capacity room_id db' = Some 100%Z
      /\ (forall other, other <> room_id ->
            room_capacity other db' = room_capacity other db)
      /\ room_members db' = room_members db).
Proof.
  intros db'. unfold db', db_after, RoomStore.save_room, sql_bind, insert_room.
  unfold room_capacity, result_of, select_max_members. simpl.
  destruct (existsb (fun r => String.eqb (room_room_id r) room_id) (rooms db)) eqn:Hex;
    simpl.
  - split; [reflexivity|]. intros Hnone. exfalso.
    apply room_capacity_some in Hex.
    destruct (List.filter _ (rooms db)); [congruence | discriminate].
  - pose proof (room_capacity_none room_id (rooms db) Hex) as Hnone.
    split; [rewrite Hnone; congruence|]. intros _.
    unfold RoomStore.get_room, select_room; simpl.
    rewrite !List.filter_app, Hnone. simpl. rewrite String.eqb_refl. simpl.
    repeat split. intros other Hne. rewrite List.filter_app. simpl.
    destruct (String.eqb_spec room_id other); [congruence|].
    now rewrite app_nil_r.
Qed.

(** ** The pool: removal *)

Lemma pool_no_empty_list_step op pool :
  (forall u l, ConnectionPool.user_connections pool !! u = Some l -> l <> []) ->
  forall u l, ConnectionPool.user_connections (run_pool_op op pool) !! u = Some l -> l <> [].
Proof.
  intros Hne u l. destruct op as [v c|v c]; simpl.
  - unfold ConnectionPool.add_connection.
    destruct (negb (ConnectionPool.can_add_connection v pool)); simpl; [apply Hne|].
    destruct (decide (u = v)) as [->|Huv].
    + rewrite lookup_insert_eq. intros [= <-].
      now destruct (ConnectionPool.user_connections pool !! v) as [[|]|].
    + rewrite lookup_insert_ne by congruence. apply Hne.
  - unfold ConnectionPool.remove_connection.
    destruct (ConnectionPool.user_connections pool !! v) as [conns|] eqn:Hconns;
      [|apply Hne].
    destruct (list_mem c conns); [|apply Hne].
    destruct (list_remove_first c conns) as [|c0 rest] eqn:Hrest; simpl.
    + destruct (decide (u = v)) as [->|Huv]; [now rewrite lookup_delete_eq|].
      rewrite lookup_delete_ne by congruence. apply Hne.
    + destruct (decide (u = v)) as [->|Huv];
        [rewrite lookup_insert_eq; now intros [= <-]|].
      rewrite lookup_insert_ne by congruence. apply Hne.
Qed.

Lemma pool_no_empty_list L ops : forall u l,
  ConnectionPool.user_connections (run_pool_ops ops (ConnectionPool.init L)) !! u = Some l ->
  l <> [].
Proof.
  assert (forall pool,
            (forall u l, ConnectionPool.user_connections pool !! u = Some l -> l <> []) ->
            forall u l,
              ConnectionPool.user_connections (run_pool_ops ops pool) !! u = Some l ->
              l <> []) as Hrun.
  { induction ops as [|op ops IH]; intros pool Hne; simpl; [exact Hne|].
    apply IH. now apply pool_no_empty_list_step. }
  apply Hrun. intros u l. simpl. rewrite lookup_empty. discriminate.
Qed.

(** X18. On a pool built by add/remove calls: removing a connection the
    user does not hold (unknown user or unknown id) changes nothing, with
    no error; and an admitted connection that the user did not hold
    before, once removed again, leaves the pool exactly as it was. *)
Theorem pool_remove_undoes_add_and_ignores_unknown
    (L : Z) (ops : list pool_op) (user_id : Z) (connection_id : string) :
  let pool := run_pool_ops ops (ConnectionPool.init L) in
  (~ In connection_id (pool_connections user_id pool) ->
   ConnectionPool.remove_connection user_id connection_id pool = pool)
  /\ (~ In connection_id (pool_connections user_id pool) ->
      fst (ConnectionPool.add_connection user_id connection_id pool) = true ->
      ConnectionPool.remove_connection user_id connection_id
        (snd (ConnectionPool.add_connection user_id connection_id pool)) = pool).
Proof.
  intros pool.
  pose proof (pool_no_empty_list L ops) as Hne. fold pool in Hne.
  clearbody pool. destruct pool as [limit lists]. unfold pool_connections in *.
  simpl in *. split.
  - intros Hnot. unfold ConnectionPool.remove_connection; simpl.
    destruct (lists !! user_id) as [conns|]; [|reflexivity].
    destruct (list_mem connection_id conns) eqn:Hmem; [|reflexivity].
    apply list_mem_in in Hmem. contradiction.
  - intros Hnot Hadded. unfold ConnectionPool.add_connection in *.
    destruct (negb (ConnectionPool.can_add_connection user_id
                      {| ConnectionPool.max_connections_per_user := limit;
                         ConnectionPool.user_connections := lists |}));
      [discriminate|].
    unfold ConnectionPool.remove_connection. simpl. rewrite lookup_insert_eq.
    assert (forall l, ~ In connection_id l ->
              list_mem connection_id (l ++ [connection_id]) = true
              /\ list_remove_first connection_id (l ++ [connection_id]) = l) as Hlast.
    { intros l Hl. split; [apply list_mem_in, in_or_app; right; now left|].
      induction l as [|x l IH]; simpl; [now rewrite String.eqb_refl|].
      destruct (String.eqb_spec connection_id x) as [->|Hx];
        [exfalso; apply Hl; now left|].
      f_equal. apply IH. intros H. apply Hl. now right. }
    destruct (lists !! user_id) as [conns|] eqn:Hconns.
    + destruct (Hlast conns Hnot) as [-> ->].
      destruct conns as [|c0 rest]; [now specialize (Hne user_id [] Hconns)|].
      rewrite insert_insert_eq. now rewrite insert_id by exact Hconns.
    + simpl. rewrite String.eqb_refl. now rewrite delete_insert_id by exact Hconns.
Qed.

(** ** Processing and validating *)

(** X19. [process_message] stamps any dictionary into an envelope: the
    counter goes up by one and is the envelope's [id]; [sender_id] is the
    one given; [content] and [type] are the message's, or [''] and
    ['text'] when the key is missing; [recipient_id] and [room_id] are
    carried over exactly when present.  The envelope therefore passes
    [validate_message] iff its type is falsy or allowed, also when the
    message itself had no content and was invalid. *)
Theorem process_message_builds_a_valid_envelope
    (now : Z) (message : pydict) (sender_id : pyval) (message_count : Z) :
  let processed := fst (MessageHandler.process_message now message sender_id
                          message_count) in
  let type := dict_get_or "type" (PStr "text") message in
  snd (MessageHandler.process_message now message sender_id message_count)
  = (message_count + 1)%Z
  /\ dict_lookup "id" processed = Some (PInt (message_count + 1))
  /\ dict_lookup "sender_id" processed = Some sender_id
  /\ dict_lookup "content" processed
     = Some (dict_get_or "content" (PStr EmptyString) message)
  /\ dict_lookup "type" processed = Some type
  /\ dict_lookup "timestamp" processed = Some (PInt now)
  /\ dict_lookup "recipient_id" processed = dict_lookup "recipient_id" message
  /\ dict_lookup "room_id" processed = dict_lookup "room_id" message
  /\ MessageHandler.validate_message (PDict processed)
     = negb (truthy type && negb (py_in_strs type MessageHandler.valid_types)).
Proof.
  intros processed type.
  assert (forall k, dict_has k message = false -> dict_lookup k message = None) as Hmiss.
  { intros k Hk. destruct (dict_lookup k message) eqn:Hl; [|reflexivity].
    assert (dict_has k message = true) by (apply dict_has_lookup; congruence).
    congruence. }
  assert (forall k, dict_has k message = true ->
            dict_lookup k message = Some (dict_get k message)) as Hhit.
  { intros k Hk. apply dict_has_lookup in Hk. unfold dict_get, dict_get_or.
    now destruct (dict_lookup k message). }
  assert (forall k, k <> "recipient_id" -> k <> "room_id" ->
            dict_lookup k processed
            = dict_lookup k
                [("id", PInt (message_count + 1)); ("sender_id", sender_id);
                 ("content", dict_get_or "content" (PStr EmptyString) message);
                 ("type", type); ("timestamp", PInt now)]) as Hbase.
  { intros k Hk1 Hk2. unfold processed, MessageHandler.process_message. cbn [fst].
    destruct (dict_has "recipient_id" message), (dict_has "room_id" message);
      rewrite ?dict_lookup_set_other by assumption; reflexivity. }
  assert (dict_lookup "recipient_id" processed = dict_lookup "recipient_id" message)
    as Hrecipient.
  { unfold processed, MessageHandler.process_message. cbn [fst].
    destruct (dict_has "recipient_id" message) eqn:H1,
             (dict_has "room_id" message) eqn:H2;
      rewrite ?(dict_lookup_set_other "room_id") by discriminate;
      rewrite ?dict_lookup_set_same;
      [now rewrite Hhit | now rewrite Hhit | now rewrite Hmiss | now rewrite Hmiss]. }
  assert (dict_lookup "room_id" processed = dict_lookup "room_id" message) as Hroom.
  { unfold processed, MessageHandler.process_message. cbn [fst].
    destruct (dict_has "recipient_id" message) eqn:H1,
             (dict_has "room_id" message) eqn:H2;
      rewrite ?dict_lookup_set_same;
      rewrite ?(dict_lookup_set_other "recipient_id") by discriminate;
      [now rewrite Hhit | now rewrite Hmiss | now rewrite Hhit | now rewrite Hmiss]. }
  split; [reflexivity|].
  repeat (split; [rewrite Hbase by discriminate; reflexivity|]).
  split; [exact Hrecipient|]. split; [exact Hroom|].
  unfold MessageHandler.validate_message.
  assert (dict_has "content" processed = true) as ->
    by (apply dict_has_lookup; rewrite Hbase by discriminate; discriminate).
  assert (dict_get "type" processed = type) as ->
    by (unfold dict_get, dict_get_or; rewrite Hbase by discriminate; reflexivity).
  simpl. now destruct (truthy type && negb (py_in_strs type MessageHandler.valid_types)).
Qed.

(** ** The presence store *)

Lemma get_state_set_state last_seen now user_id state table u :
  ConnectionState.get_state u
    (ConnectionState.set_state last_seen now user_id state table)
  = if (user_id =? u)%Z then Some (state, last_seen)
    else ConnectionState.get_state u table.
Proof.
  unfold ConnectionState.get_state, ConnectionState.set_state.
  rewrite List.filter_app. simpl.
  destruct (Z.eqb_spec user_id u) as [->|Hne].
  - rewrite filter_none; [reflexivity|]. intros r Hr. apply filter_In in Hr as [_ Hr].
    now apply negb_true_iff in Hr.
  - assert (forall l,
              List.filter (fun r => (ConnectionState.user_id r =? u)%Z)
                (List.filter (fun r => negb (ConnectionState.user_id r =? user_id)%Z) l)
              = List.filter (fun r => (ConnectionState.user_id r =? u)%Z) l) as Hsame.
    { induction l as [|x l IH]; simpl; [reflexivity|].
      destruct (Z.eqb_spec (ConnectionState.user_id x) user_id) as [Hx|Hx]; simpl.
      - destruct (Z.eqb_spec (ConnectionState.user_id x) u); [congruence | exact IH].
      - now rewrite IH. }
    rewrite Hsame, app_nil_r. reflexivity.
Qed.







(** ** The in-memory queue *)

Lemma deque_append_length maxlen d x :
  (length d <= maxlen)%nat -> (length (MessageQueue.deque_append maxlen d x) <= maxlen)%nat.
Proof.
  intros Hle. unfold MessageQueue.deque_append. destruct maxlen as [|k]; [exact Hle|].
  destruct (Nat.leb_spec (S k) (length d)).
  - rewrite List.length_app. destruct d; simpl in *; lia.
  - rewrite List.length_app. simpl. lia.
Qed.

Lemma memory_queue_step op q :
  (forall u, (length (MessageQueue.deque_of u q) <= MessageQueue.max_size q)%nat) ->
  MessageQueue.max_size (run_memory_queue_op op q) = MessageQueue.max_size q
  /\ forall u, (length (MessageQueue.deque_of u (run_memory_queue_op op q))
                <= MessageQueue.max_size q)%nat.
Proof.
  intros Hle.
  assert (forall v d (qs : gmap Z (list pyval)) n,
            (length d <= n)%nat ->
            (forall u, (length (match qs !! u with Some d => d | None => [] end) <= n)%nat) ->
            forall u, (length (match <[v := d]> qs !! u with Some d => d | None => [] end)
                       <= n)%nat) as Hins.
  { intros v d qs n Hd Hqs u. destruct (decide (u = v)) as [->|Hne].
    - now rewrite lookup_insert_eq.
    - rewrite lookup_insert_ne by congruence. apply Hqs. }
  unfold MessageQueue.deque_of in *.
  destruct op as [v m|v|v|v|v]; simpl.
  - split; [reflexivity|]. apply Hins; [|exact Hle].
    apply deque_append_length, Hle.
  - unfold MessageQueue.dequeue, MessageQueue.deque_of.
    destruct (MessageQueue.queues q !! v) as [[|x rest]|] eqn:Hv; simpl;
      (split; [reflexivity|]); apply Hins; try exact Hle; simpl; try lia.
    specialize (Hle v). rewrite Hv in Hle. simpl in Hle. lia.
  - split; [reflexivity|]. apply Hins; [simpl; lia | exact Hle].
  - split; [reflexivity|]. apply Hins; [apply Hle | exact Hle].
  - split; [reflexivity|]. apply Hins; [simpl; lia | exact Hle].
Qed.

(** X21. The in-memory queue is bounded for every [max_size], 0
    included: after any sequence of enqueue, dequeue, dequeue_all,
    get_queue_size and clear_queue calls on a new [MessageQueue], no
    user's queue holds more than [max_size] messages. *)
Theorem memory_queue_never_exceeds_max_size
    (max_size : nat) (ops : list memory_queue_op) (user_id : Z) :
  let q := run_memory_queue_ops ops (MessageQueue.init max_size) in
  (fst (MessageQueue.get_queue_size user_id q) <= max_size)%nat
  /\ (length (fst (MessageQueue.dequeue_all user_id q)) <= max_size)%nat.
Proof.
  intros q.
  assert (forall q0,
            MessageQueue.max_size q0 = max_size ->
            (forall u, (length (MessageQueue.deque_of u q0) <= max_size)%nat) ->
            forall u, (length (MessageQueue.deque_of u (run_memory_queue_ops ops q0))
                       <= max_size)%nat) as Hrun.
  { induction ops as [|op ops IH]; intros q0 Hmax Hle; simpl; [exact Hle|].
    rewrite <- Hmax in Hle. destruct (memory_queue_step op q0 Hle) as [Hmax' Hle'].
    apply IH; [congruence | now rewrite <- Hmax]. }
  assert (length (MessageQueue.deque_of user_id q) <= max_size)%nat as Hq.
  { apply Hrun; [reflexivity|]. intros u. unfold MessageQueue.deque_of. simpl.
    rewrite lookup_empty. simpl. lia. }
  split; exact Hq.
Qed.

Lemma tl_skipn {A} k (l : list A) : List.tl (skipn k l) = skipn (S k) l.
Proof.
  revert l. induction k as [|k IH]; intros [|x l]; try reflexivity.
  change (List.tl (skipn k l) = skipn (S k) l). apply IH.
Qed.

Lemma deque_append_last_n maxlen (l : list pyval) x :
  MessageQueue.deque_append maxlen (last_n maxlen l) x = last_n maxlen (l ++ [x]).
Proof.
  unfold MessageQueue.deque_append, last_n. rewrite List.length_app. simpl.
  destruct maxlen as [|k].
  - rewrite !Nat.sub_0_r.
    rewrite List.skipn_all2 by lia. rewrite List.skipn_all2; [reflexivity|].
    rewrite List.length_app. simpl. lia.
  - rewrite List.length_skipn.
    destruct (Nat.leb_spec (S k) (length l - (length l - S k))) as [Hfull|Hroom].
    + rewrite tl_skipn.
      replace (length l + 1 - S k)%nat with (S (length l - S k)) by lia.
      rewrite List.skipn_app.
      replace (S (length l - S k) - length l)%nat with 0%nat by lia. reflexivity.
    + replace (length l - S k)%nat with 0%nat by lia.
      replace (length l + 1 - S k)%nat with 0%nat by lia. reflexivity.
Qed.

Lemma enqueue_all_deque user_id msgs max_size :
  MessageQueue.max_size (enqueue_all user_id msgs (MessageQueue.init max_size)) = max_size
  /\ MessageQueue.deque_of user_id (enqueue_all user_id msgs (MessageQueue.init max_size))
     = last_n max_size msgs.
Proof.
  induction msgs as [|x msgs [IHmax IHdeque]] using rev_ind.
  - split; [reflexivity|]. unfold MessageQueue.deque_of, last_n. simpl.
    now rewrite lookup_empty.
  - unfold enqueue_all in *. rewrite fold_left_app.
    set (q := fold_left _ msgs _) in *. cbn [fold_left].
    split; [exact IHmax|].
    unfold MessageQueue.deque_of at 1. unfold MessageQueue.enqueue.
    cbn [MessageQueue.queues]. rewrite lookup_insert_eq, IHmax, IHdeque.
    apply deque_append_last_n.
Qed.

(** X22. The in-memory queue is first-in first-out and keeps the newest:
    after messages [m1 .. mn] were enqueued for a user on a new
    [MessageQueue], [dequeue_all] returns the last [max_size] of them in
    the order they were enqueued and leaves the queue empty, and
    [dequeue] returns the first of those ([None] when there is none). *)
Theorem memory_queue_keeps_the_newest_in_order
    (max_size : nat) (user_id : Z) (msgs : list pyval) :
  let q := enqueue_all user_id msgs (MessageQueue.init max_size) in
  fst (MessageQueue.dequeue_all user_id q) = last_n max_size msgs
  /\ fst (MessageQueue.get_queue_size user_id (snd (MessageQueue.dequeue_all user_id q)))
     = 0%nat
  /\ fst (MessageQueue.dequeue user_id q) = List.head (last_n max_size msgs)
  /\ fst (MessageQueue.get_queue_size user_id q) = Nat.min (length msgs) max_size.
Proof.
  intros q. destruct (enqueue_all_deque user_id msgs max_size) as [_ Hdeque].
  fold q in Hdeque. split; [exact Hdeque|]. split; [|split].
  - unfold MessageQueue.get_queue_size, MessageQueue.dequeue_all, MessageQueue.deque_of.
    simpl. now rewrite lookup_insert_eq.
  - unfold MessageQueue.dequeue. rewrite Hdeque. now destruct (last_n max_size msgs).
  - unfold MessageQueue.get_queue_size. cbn [fst]. rewrite Hdeque.
    unfold last_n. rewrite List.length_skipn. lia.
Qed.

(** ** Queued delivery to a user without connections *)








(** ** The [register] and [disconnect] events *)

Lemma server_ok_init presence : server_ok presence (Server.init presence).
Proof.
  unfold server_ok, Server.init; simpl.
  split; [apply calls_init|]. split; [reflexivity|]. split; [reflexivity|].
  split; [intros u; unfold ConnectionPool.get_user_connection_count; simpl;
          rewrite lookup_empty; lia|].
  split; [intros c; unfold ConnectionManager.get_connection; simpl;
          rewrite lookup_empty; split; [intros [] | congruence]|].
  split; [constructor|].
  intros u _. unfold ConnectionManager.is_user_online; simpl.
  rewrite lookup_empty. split; [discriminate | intros _; now left].
Qed.

Lemma is_user_online_listed u cm :
  built_by_calls cm ->
  ConnectionManager.is_user_online u cm = true
  <-> ConnectionManager.get_user_connections u cm <> [].
Proof.
  intros Hbuilt. unfold ConnectionManager.is_user_online,
    ConnectionManager.get_user_connections.
  destruct (ConnectionManager.user_connections cm !! u) as [[|c l]|]; simpl;
    split; try discriminate; try congruence; reflexivity.
Qed.

Lemma is_user_online_same_list u cm cm' :
  ConnectionManager.user_connections cm' !! u = ConnectionManager.user_connections cm !! u ->
  ConnectionManager.is_user_online u cm' = ConnectionManager.is_user_online u cm.
Proof. unfold ConnectionManager.is_user_online. now intros ->. Qed.

Lemma deliver_queued_messages_online_result cm clock user_id db :
  ConnectionManager.get_user_connections user_id cm <> [] ->
  result_of (CommunicationHub.deliver_queued_messages cm clock user_id) db
  = Some (flat_map
            (fun msg => CommunicationHub.emit_value_to_connections cm
                          (MessageStore.content msg)
                          (ConnectionManager.get_user_connections user_id cm))
            (result_of (MessageStore.get_undelivered_messages user_id) db)).
Proof.
  intros Hconns.
  exact (proj1 (deliver_each_online cm clock user_id
                  (result_of (MessageStore.get_undelivered_messages user_id) db)
                  0 db Hconns)).
Qed.

Lemma deliver_queued_messages_online_queue cm clock user_id db :
  ConnectionManager.get_user_connections user_id cm <> [] ->
  queue_size user_id
    (db_after (CommunicationHub.deliver_queued_messages cm clock user_id) db) = 0%Z.
Proof.
  intros Hconns.
  set (queued := result_of (MessageStore.get_undelivered_messages user_id) db).
  destruct (deliver_each_online cm clock user_id queued 0 db Hconns) as (_ & _ & Hund).
  change (db_after (CommunicationHub.deliver_queued_messages cm clock user_id) db)
    with (db_after (CommunicationHub.deliver_each cm clock 0 user_id queued) db).
  rewrite queue_size_eq.
  destruct (undelivered_rows user_id
              (db_after (CommunicationHub.deliver_each cm clock 0 user_id queued) db))
    as [|r rest] eqn:Hrows; [reflexivity|].
  exfalso. destruct (Hund user_id r) as [Hin Hnot]; [rewrite Hrows; now left|].
  apply Hnot. unfold queued. rewrite get_undelivered_messages_ids. apply in_map.
  eapply Permutation_in; [apply order_by_created_at_perm | exact Hin].
Qed.

Lemma order_set_in c order c' :
  In c' (Server.order_set c order) <-> c' = c \/ In c' order.
Proof.
  unfold Server.order_set. destruct (list_mem c order) eqn:Hmem.
  - apply list_mem_in in Hmem. split; [now right | intros [->|H]; assumption].
  - rewrite in_app_iff. simpl. split.
    + intros [H|[H|[]]]; [now right | now left].
    + intros [->|H]; [right; now left | now left].
Qed.

Lemma order_set_nodup c order :
  List.NoDup order -> List.NoDup (Server.order_set c order).
Proof.
  intros Hnd. unfold Server.order_set. destruct (list_mem c order) eqn:Hmem; [exact Hnd|].
  apply List.NoDup_app; [exact Hnd | repeat constructor; intros [] |].
  intros x Hx [<-|[]]. apply list_mem_in in Hx. congruence.
Qed.

(** The components after a [register] that was let in, whether or not
    [set_state] then raised: [table] is the presence table it left. *)
Lemma register_accepted_ok presence clock connection_id request_sid uid s table :
  server_ok presence s ->
  ConnectionPool.can_add_connection uid (Server.connection_pool s) = true ->
  (forall u, u <> uid ->
     ConnectionState.get_state u table
     = ConnectionState.get_state u (Server.connection_state s)) ->
  (fits_int64 uid = true ->
   exists last_seen,
     ConnectionState.get_state uid table = Some (ConnectionState.STATE_ONLINE, last_seen)) ->
  server_ok presence
    {| Server.connection_manager :=
         ConnectionManager.add_connection (clock 0%nat) (clock 1%nat) connection_id uid
           request_sid (Server.connection_manager s);
       Server.connection_order :=
         Server.order_set connection_id (Server.connection_order s);
       Server.connection_pool :=
         snd (ConnectionPool.add_connection uid connection_id (Server.connection_pool s));
       Server.connection_state := table |}.
Proof.
  intros (Hbuilt & Hsame & Hmax & Hcount & Horder & Hnd & Hpres) Hcan Hother Hon.
  unfold server_ok; cbn [Server.connection_manager Server.connection_order
                          Server.connection_pool Server.connection_state].
  split; [now apply calls_add|].
  split.
  { unfold ConnectionManager.add_connection, ConnectionPool.add_connection.
    rewrite Hcan. simpl. now rewrite Hsame. }
  split.
  { change (snd (ConnectionPool.add_connection uid connection_id (Server.connection_pool s)))
      with (run_pool_op (PoolAdd uid connection_id) (Server.connection_pool s)).
    now rewrite pool_limit_step. }
  split.
  { intros u.
    change (snd (ConnectionPool.add_connection uid connection_id (Server.connection_pool s)))
      with (run_pool_op (PoolAdd uid connection_id) (Server.connection_pool s)).
    rewrite <- Hmax. apply pool_count_step; rewrite Hmax; [lia | apply Hcount]. }
  split.
  { intros c. rewrite order_set_in, Horder.
    unfold ConnectionManager.get_connection, ConnectionManager.add_connection; simpl.
    destruct (decide (c = connection_id)) as [->|Hne].
    - rewrite lookup_insert_eq. split; [discriminate | now left].
    - rewrite lookup_insert_ne by congruence. split; [intros [H|H]; [congruence|exact H]|].
      now right. }
  split; [now apply order_set_nodup|].
  intros u Hfits. unfold presence_online; cbn [Server.connection_state].
  destruct (decide (u = uid)) as [->|Hne].
  - split; [intros _; now apply Hon|]. intros Hoff. exfalso. revert Hoff.
    unfold ConnectionManager.is_user_online, ConnectionManager.add_connection; simpl.
    rewrite lookup_insert_eq, List.length_app. simpl.
    intros Hoff. apply Z.ltb_ge in Hoff. lia.
  - rewrite (Hother u Hne).
    rewrite (is_user_online_same_list u (Server.connection_manager s)).
    + exact (Hpres u Hfits).
    + unfold ConnectionManager.add_connection; simpl.
      now rewrite lookup_insert_ne by congruence.
Qed.

Lemma register_records_bind clock connection_id request_sid uid s table :
  records_bind s -> fits_int64 uid = true ->
  records_bind
    {| Server.connection_manager :=
         ConnectionManager.add_connection (clock 0%nat) (clock 1%nat) connection_id uid
           request_sid (Server.connection_manager s);
       Server.connection_order :=
         Server.order_set connection_id (Server.connection_order s);
       Server.connection_pool :=
         snd (ConnectionPool.add_connection uid connection_id (Server.connection_pool s));
       Server.connection_state := table |}.
Proof.
  intros Hbind Hfits c info. cbn [Server.connection_manager].
  unfold ConnectionManager.get_connection, ConnectionManager.add_connection; simpl.
  destruct (decide (c = connection_id)) as [->|Hne].
  - rewrite lookup_insert_eq. now intros [= <-].
  - rewrite lookup_insert_ne by congruence. apply Hbind.
Qed.

Lemma register_step presence clock connection_id request_sid data s db :
  server_ok presence s ->
  event_in_model (Register clock connection_id request_sid data) = true ->
  exists o db',
    run_server_event (Register clock connection_id request_sid data) (s, db)
    = Some (o, db')
    /\ server_ok presence (state_of o)
    /\ (records_bind s ->
        event_id_binds (Register clock connection_id request_sid data) = true ->
        has_raised o = false /\ records_bind (state_of o)).
Proof.
  intros Hok Hmodel. unfold run_server_event, Server.handle_register. cbn [fst snd].
  unfold event_in_model, event_id_binds in *.
  destruct (truthy (dict_get "user_id" data)); simpl in Hmodel |- *;
    [|exists (Returned [Server.error "user_id required"] s), db;
      split; [reflexivity | split; [exact Hok | intros Hb _; now split]]].
  destruct (App.as_user_id (dict_get "user_id" data)) as [uid|]; [|discriminate].
  destruct (ConnectionPool.can_add_connection uid (Server.connection_pool s)) eqn:Hcan;
    simpl;
    [|exists (Returned [Server.error "Connection limit reached"] s), db;
      split; [reflexivity | split; [exact Hok | intros Hb _; now split]]].
  unfold ConnectionState.set_state_or_raise.
  destruct (fits_int64 uid) eqn:Hfits.
  - unfold sql_bind.
    set (cm := ConnectionManager.add_connection (clock 0%nat) (clock 1%nat) connection_id
                 uid request_sid (Server.connection_manager s)).
    assert (ConnectionManager.get_user_connections uid cm <> []) as Hconns.
    { unfold cm. rewrite registry_add_connections.
      rewrite bool_decide_eq_true_2 by reflexivity.
      now destruct (ConnectionManager.get_user_connections uid
                      (Server.connection_manager s)). }
    pose proof (deliver_queued_messages_online_result cm
                  (fun k => clock (S (S (S (S k))))) uid db Hconns) as Hres.
    unfold result_of in Hres. rewrite Hres. cbn [fst snd sql_ret].
    eexists _, _. split; [reflexivity|]. cbn [state_of has_raised]. split.
    + apply register_accepted_ok; [exact Hok | exact Hcan | |].
      * intros u Hne. rewrite get_state_set_state.
        destruct (Z.eqb_spec uid u); [congruence | reflexivity].
      * intros _. rewrite get_state_set_state, Z.eqb_refl. now eexists.
    + intros Hbind _. split; [reflexivity|]. now apply register_records_bind.
  - cbn [fst snd sql_ret]. eexists _, _. split; [reflexivity|].
    cbn [state_of has_raised]. split.
    + apply register_accepted_ok; [exact Hok | exact Hcan | reflexivity |].
      intros H. congruence.
    + intros _ H. congruence.
Qed.

Lemma first_with_sid_spec cm request_sid order c info :
  Server.first_with_sid cm request_sid order = Some (c, info) ->
  In c order
  /\ ConnectionManager.get_connection c cm = Some info
  /\ ConnectionManager.sid info = request_sid.
Proof.
  induction order as [|x order IH]; simpl; [discriminate|].
  destruct (ConnectionManager.get_connection x cm) as [i|] eqn:Hx.
  - destruct (String.eqb_spec (ConnectionManager.sid i) request_sid) as [Hsid|Hsid].
    + intros [= <- <-]. now repeat split; [left|..].
    + intros H. destruct (IH H) as (Hin & Hget & Hs). now repeat split; [right|..].
  - intros H. destruct (IH H) as (Hin & Hget & Hs). now repeat split; [right|..].
Qed.

(** The loop finds the first id, in key order, whose record has the
    session id. *)
Lemma first_with_sid_first cm request_sid earlier c later info :
  ConnectionManager.get_connection c cm = Some info ->
  ConnectionManager.sid info = request_sid ->
  (forall c0 info0, In c0 earlier ->
     ConnectionManager.get_connection c0 cm = Some info0 ->
     ConnectionManager.sid info0 <> request_sid) ->
  Server.first_with_sid cm request_sid (earlier ++ c :: later) = Some (c, info).
Proof.
  intros Hget Hsid. induction earlier as [|x earlier IH]; intros Hnone; simpl.
  - now rewrite Hget, Hsid, String.eqb_refl.
  - destruct (ConnectionManager.get_connection x cm) as [i|] eqn:Hx.
    + destruct (String.eqb_spec (ConnectionManager.sid i) request_sid) as [Heq|_].
      * exfalso. now apply (Hnone x i (or_introl eq_refl) Hx).
      * apply IH. intros c0 info0 Hin. apply Hnone. now right.
    + apply IH. intros c0 info0 Hin. apply Hnone. now right.
Qed.

Lemma first_with_sid_none cm request_sid order :
  (forall c info, ConnectionManager.get_connection c cm = Some info ->
     ConnectionManager.sid info <> request_sid) ->
  Server.first_with_sid cm request_sid order = None.
Proof.
  intros Hnone. induction order as [|x order IH]; simpl; [reflexivity|].
  destruct (ConnectionManager.get_connection x cm) as [i|] eqn:Hx; [|exact IH].
  destruct (String.eqb_spec (ConnectionManager.sid i) request_sid) as [Heq|_];
    [|exact IH].
  exfalso. now apply (Hnone x i Hx).
Qed.

(** What [disconnect] does when a record has the session id: the record
    found is removed from the registry and the pool; the presence store
    is set to [offline] if its user has no connection left, and that call
    raises if the user's id does not bind. *)
Lemma disconnect_found presence clock request_sid s c info :
  server_ok presence s ->
  Server.first_with_sid (Server.connection_manager s) request_sid
    (Server.connection_order s) = Some (c, info) ->
  let o := Server.handle_disconnect clock request_sid s in
  server_ok presence (state_of o)
  /\ ConnectionManager.connections (Server.connection_manager (state_of o))
     = delete c (ConnectionManager.connections (Server.connection_manager s))
  /\ (forall v,
        ConnectionManager.get_user_connections v (Server.connection_manager (state_of o))
        = if bool_decide (v = ConnectionManager.user_id info)
          then list_remove_first c
                 (ConnectionManager.get_user_connections v (Server.connection_manager s))
          else ConnectionManager.get_user_connections v (Server.connection_manager s))
  /\ issued_by o = []
  /\ Server.connection_order (state_of o)
     = list_remove_first c (Server.connection_order s)
  /\ has_raised o
     = negb (ConnectionManager.is_user_online (ConnectionManager.user_id info)
               (Server.connection_manager (state_of o)))
       && negb (fits_int64 (ConnectionManager.user_id info))
  /\ Server.connection_state (state_of o)
     = if negb (ConnectionManager.is_user_online (ConnectionManager.user_id info)
                  (Server.connection_manager (state_of o)))
          && fits_int64 (ConnectionManager.user_id info)
       then ConnectionState.set_state (clock 0%nat) (clock 1%nat)
              (ConnectionManager.user_id info) ConnectionState.STATE_OFFLINE
              (Server.connection_state s)
       else Server.connection_state s.
Proof.
  intros (Hbuilt & Hsame & Hmax & Hcount & Horder & Hnd & Hpres) Hfound.
  destruct (first_with_sid_spec _ _ _ _ _ Hfound) as (Hin & Hget & Hsid).
  destruct (built_by_calls_inv _ Hbuilt) as [Hrec Hne].
  pose proof (Hrec c info Hget) as Hlisted.
  unfold Server.handle_disconnect. rewrite Hfound.
  set (u := ConnectionManager.user_id info) in *.
  destruct (ConnectionManager.remove_connection c (Server.connection_manager s))
    as [cm'|] eqn:Hrem.
  2:{ exfalso. revert Hrem. unfold ConnectionManager.remove_connection.
      unfold ConnectionManager.get_connection in Hget. rewrite Hget. fold u.
      unfold ConnectionManager.get_user_connections in Hlisted.
      destruct (ConnectionManager.user_connections (Server.connection_manager s) !! u)
        as [conns|]; [|destruct Hlisted].
      apply list_mem_in in Hlisted. rewrite Hlisted.
      now destruct (list_remove_first c conns). }
  destruct (registry_remove_connections c _ cm' info u Hget Hrem) as [Hconns _].
  assert (forall v, ConnectionManager.get_user_connections v cm'
                    = if bool_decide (v = u)
                      then list_remove_first c
                             (ConnectionManager.get_user_connections v
                                (Server.connection_manager s))
                      else ConnectionManager.get_user_connections v
                             (Server.connection_manager s)) as Hlists.
  { intros v. exact (proj2 (registry_remove_connections c _ cm' info v Hget Hrem)). }
  assert (built_by_calls cm') as Hbuilt' by (eapply calls_remove; eassumption).
  assert (ConnectionManager.user_connections cm'
          = ConnectionPool.user_connections
              (ConnectionPool.remove_connection u c (Server.connection_pool s))) as Hsame'.
  { revert Hrem. unfold ConnectionManager.remove_connection, ConnectionPool.remove_connection.
    unfold ConnectionManager.get_connection in Hget. rewrite Hget. fold u. rewrite <- Hsame.
    unfold ConnectionManager.get_user_connections in Hlisted.
    destruct (ConnectionManager.user_connections (Server.connection_manager s) !! u)
      as [conns|]; [|destruct Hlisted].
    apply list_mem_in in Hlisted. rewrite Hlisted.
    destruct (list_remove_first c conns); intros [= <-]; simpl; now rewrite Hsame. }
  assert (forall v, v <> u ->
            ConnectionManager.is_user_online v cm'
            = ConnectionManager.is_user_online v (Server.connection_manager s)) as Hothers.
  { intros v Hv.
    pose proof (is_user_online_listed v cm' Hbuilt') as H1.
    pose proof (is_user_online_listed v _ Hbuilt) as H2.
    rewrite Hlists, bool_decide_eq_false_2 in H1 by exact Hv.
    destruct (ConnectionManager.is_user_online v cm'),
             (ConnectionManager.is_user_online v (Server.connection_manager s));
      try reflexivity.
    - symmetry. apply H2, H1. reflexivity.
    - apply H1, H2. reflexivity. }
  assert (ConnectionManager.is_user_online u (Server.connection_manager s) = true)
    as Hwas.
  { apply (is_user_online_listed u _ Hbuilt). intros Hnil.
    rewrite Hnil in Hlisted. destruct Hlisted. }
  assert (forall table,
            (forall v, fits_int64 v = true ->
               (ConnectionManager.is_user_online v cm' = true ->
                exists last_seen,
                  ConnectionState.get_state v table
                  = Some (ConnectionState.STATE_ONLINE, last_seen))
               /\ (ConnectionManager.is_user_online v cm' = false ->
                   ConnectionState.get_state v table
                   = ConnectionState.get_state v presence
                   \/ exists last_seen,
                        ConnectionState.get_state v table
                        = Some (ConnectionState.STATE_OFFLINE, last_seen))) ->
            server_ok presence
              {| Server.connection_manager := cm';
                 Server.connection_order :=
                   list_remove_first c (Server.connection_order s);
                 Server.connection_pool :=
                   ConnectionPool.remove_connection u c (Server.connection_pool s);
                 Server.connection_state := table |}) as Hok'.
  { intros table Htable.
    unfold server_ok; cbn [Server.connection_manager Server.connection_order
                            Server.connection_pool Server.connection_state].
    split; [exact Hbuilt'|]. split; [exact Hsame'|].
    split.
    { change (ConnectionPool.remove_connection u c (Server.connection_pool s))
        with (run_pool_op (PoolRemove u c) (Server.connection_pool s)).
      now rewrite pool_limit_step. }
    split.
    { intros v.
      change (ConnectionPool.remove_connection u c (Server.connection_pool s))
        with (run_pool_op (PoolRemove u c) (Server.connection_pool s)).
      rewrite <- Hmax. apply pool_count_step; rewrite Hmax; [lia | apply Hcount]. }
    split.
    { intros c'. unfold ConnectionManager.get_connection. rewrite Hconns.
      destruct (list_remove_first_nodup c _ Hnd) as [_ Hnot].
      destruct (decide (c' = c)) as [->|Hne'].
      - rewrite lookup_delete_eq. split; [intros H; now apply Hnot in H | congruence].
      - rewrite lookup_delete_ne by congruence.
        fold (ConnectionManager.get_connection c' (Server.connection_manager s)).
        rewrite <- Horder. split; [apply list_remove_first_in|].
        now apply list_remove_first_other. }
    split; [apply list_remove_first_nodup, Hnd|].
    exact Htable. }
  assert (forall v, fits_int64 v = true -> v <> u ->
            (ConnectionManager.is_user_online v cm' = true ->
             exists last_seen,
               ConnectionState.get_state v (Server.connection_state s)
               = Some (ConnectionState.STATE_ONLINE, last_seen))
            /\ (ConnectionManager.is_user_online v cm' = false ->
                ConnectionState.get_state v (Server.connection_state s)
                = ConnectionState.get_state v presence
                \/ exists last_seen,
                     ConnectionState.get_state v (Server.connection_state s)
                     = Some (ConnectionState.STATE_OFFLINE, last_seen))) as Hkeep.
  { intros v Hfits Hv. rewrite (Hothers v Hv). exact (Hpres v Hfits). }
  unfold ConnectionState.set_state_or_raise.
  destruct (ConnectionManager.is_user_online u cm') eqn:Honline; cbn [negb].
  - (* the user keeps a connection *)
    cbn [state_of has_raised issued_by Server.connection_manager
         Server.connection_order Server.connection_state].
    rewrite Honline.
    split; [|split; [exact Hconns | split; [exact Hlists | now repeat split]]].
    apply Hok'. intros v Hfits. destruct (decide (v = u)) as [->|Hv].
    + rewrite Honline. split; [intros _ | intros H; discriminate H].
      exact (proj1 (Hpres u Hfits) Hwas).
    + now apply Hkeep.
  - destruct (fits_int64 u) eqn:Hfits_u.
    + (* the last connection went: the presence store is told *)
      cbn [state_of has_raised issued_by Server.connection_manager
           Server.connection_order Server.connection_state].
      rewrite Honline.
      split; [|split; [exact Hconns | split; [exact Hlists | now repeat split]]].
      apply Hok'. intros v Hfits. rewrite get_state_set_state.
      destruct (Z.eqb_spec u v) as [<-|Hv].
      * rewrite Honline. split; [intros H; discriminate H | intros _; right; now eexists].
      * apply Hkeep; [exact Hfits | congruence].
    + (* the last connection went, and [set_state] raised *)
      cbn [state_of has_raised issued_by Server.connection_manager
           Server.connection_order Server.connection_state].
      rewrite Honline.
      split; [|split; [exact Hconns | split; [exact Hlists | now repeat split]]].
      apply Hok'. intros v Hfits. apply Hkeep; [exact Hfits | congruence].
Qed.

Lemma disconnect_not_found clock request_sid s :
  Server.first_with_sid (Server.connection_manager s) request_sid
    (Server.connection_order s) = None ->
  Server.handle_disconnect clock request_sid s = Returned [] s.
Proof. intros Hnone. unfold Server.handle_disconnect. now rewrite Hnone. Qed.

Lemma disconnect_step presence clock request_sid s db :
  server_ok presence s ->
  exists o db',
    run_server_event (Disconnect clock request_sid) (s, db) = Some (o, db')
    /\ server_ok presence (state_of o)
    /\ (records_bind s -> has_raised o = false /\ records_bind (state_of o)).
Proof.
  intros Hok. unfold run_server_event. cbn [fst snd].
  eexists _, _. split; [reflexivity|].
  destruct (Server.first_with_sid (Server.connection_manager s) request_sid
              (Server.connection_order s)) as [[c info]|] eqn:Hfound.
  - destruct (disconnect_found presence clock request_sid s c info Hok Hfound)
      as (Hok' & Hconns & _ & _ & _ & Hraise & _).
    split; [exact Hok'|]. intros Hbind.
    destruct (first_with_sid_spec _ _ _ _ _ Hfound) as (_ & Hget & _).
    split; [rewrite Hraise, (Hbind c info Hget); apply andb_false_r|].
    intros c' info'. unfold ConnectionManager.get_connection. rewrite Hconns.
    intros Hc'. apply lookup_delete_Some in Hc' as [_ Hc']. now apply (Hbind c' info').
  - rewrite disconnect_not_found by exact Hfound. cbn [state_of has_raised].
    split; [exact Hok|]. intros Hbind. now split.
Qed.

Lemma run_server_events_ok presence events : forall s db,
  server_ok presence s ->
  forallb event_in_model events = true ->
  exists raised s' db',
    run_server_events events (s, db) = Some (raised, (s', db'))
    /\ server_ok presence s'
    /\ (records_bind s -> forallb event_id_binds events = true -> raised = false).
Proof.
  induction events as [|e events IH]; intros s db Hok Hmodel; simpl.
  - exists false, s, db. split; [reflexivity | split; [exact Hok | now intros]].
  - simpl in Hmodel. apply andb_true_iff in Hmodel as [He Hmodel].
    assert (exists o db1,
              run_server_event e (s, db) = Some (o, db1)
              /\ server_ok presence (state_of o)
              /\ (records_bind s -> event_id_binds e = true ->
                  has_raised o = false /\ records_bind (state_of o)))
      as (o & db1 & Hstep & Hok1 & Hbind1).
    { destruct e as [clock c sid data|clock sid].
      - now apply register_step.
      - destruct (disconnect_step presence clock sid s db Hok)
          as (o & db1 & Hstep & Hok1 & Hbind1).
        exists o, db1. split; [exact Hstep|]. split; [exact Hok1|].
        intros Hb _. now apply Hbind1. }
    rewrite Hstep.
    destruct (IH (state_of o) db1 Hok1 Hmodel) as (raised & s' & db' & Hrun & Hok' & Hr).
    rewrite Hrun. exists (has_raised o || raised), s', db'.
    split; [reflexivity|]. split; [exact Hok'|].
    intros Hb Hids. apply andb_true_iff in Hids as [Hid Hids].
    destruct (Hbind1 Hb Hid) as [-> Hb1]. simpl. now apply Hr.
Qed.

(** X24. A [register] event with an integer user id other than 0.  If the
    pool refuses, the caller gets the error [Connection limit reached],
    and neither the components nor the database change.  If the pool lets
    the user in, the connection is recorded under the drawn id in the
    registry and the pool.  Then, for an id that binds, the presence
    store says [online], the user's undelivered rows are read in
    non-decreasing order of their creation time, each is emitted in that
    order to each of the user's connections, [registered] follows to the
    caller, and the user's queue is empty afterwards.  For an id of more
    than 64 bits [set_state] raises instead: nothing is emitted, the
    presence store and the database stay as they were, and the registry
    and the pool keep the connection they took. *)
Theorem register_connects_the_user_and_delivers_the_queue
    (clock : nat -> Z) (connection_id request_sid : string) (data : pydict)
    (s : Server.t) (db : Database) (user_id : Z) :
  dict_get "user_id" data = PInt user_id ->
  user_id <> 0%Z ->
  let run := Server.handle_register clock connection_id request_sid data s in
  if ConnectionPool.can_add_connection user_id (Server.connection_pool s) then
    exists s',
      let cm := Server.connection_manager s' in
      ConnectionManager.get_connection connection_id cm
      = Some {| ConnectionManager.connection_id := connection_id;
                ConnectionManager.user_id := user_id;
                ConnectionManager.sid := request_sid;
                ConnectionManager.connected_at := clock 0%nat;
                ConnectionManager.last_activity := clock 1%nat |}
      /\ ConnectionManager.get_user_connections user_id cm
         = ConnectionManager.get_user_connections user_id (Server.connection_manager s)
           ++ [connection_id]
      /\ pool_connections user_id (Server.connection_pool s')
         = pool_connections user_id (Server.connection_pool s) ++ [connection_id]
      /\ if fits_int64 user_id then
           let queued := result_of (MessageStore.get_undelivered_messages user_id) db in
           (exists rows,
              Permutation rows (undelivered_rows user_id db)
              /\ StronglySorted created_le rows
              /\ queued = List.map stored_of_row rows)
           /\ result_of run db
              = Some (Returned
                        (flat_map
                           (fun msg =>
                              CommunicationHub.emit_value_to_connections cm
                                (MessageStore.content msg)
                                (ConnectionManager.get_user_connections user_id cm))
                           queued
                         ++ [ {| event := "registered";
                                 payload :=
                                   PDict [("connection_id", PStr connection_id);
                                          ("user_id", PInt user_id);
                                          ("message", PStr "Registered successfully")];
                                 to := ToCaller |} ])
                        s')
           /\ ConnectionState.get_state user_id (Server.connection_state s')
              = Some (ConnectionState.STATE_ONLINE, clock 2%nat)
           /\ queue_size user_id (db_after run db) = 0%Z
         else
           result_of run db = Some (Raised [] s')
           /\ Server.connection_state s' = Server.connection_state s
           /\ db_after run db = db
  else
    result_of run db
    = Some (Returned [Server.error "Connection limit reached"] s)
    /\ db_after run db = db.
Proof.
  intros Hdata Hnz run. unfold run, Server.handle_register. rewrite Hdata.
  cbn [truthy App.as_user_id]. apply Z.eqb_neq in Hnz. rewrite Hnz. cbn [negb].
  destruct (ConnectionPool.can_add_connection user_id (Server.connection_pool s)) eqn:Hcan;
    cbn [negb]; [|now split].
  set (cm := ConnectionManager.add_connection (clock 0%nat) (clock 1%nat) connection_id
               user_id request_sid (Server.connection_manager s)).
  assert (ConnectionManager.get_user_connections user_id cm
          = ConnectionManager.get_user_connections user_id (Server.connection_manager s)
            ++ [connection_id]) as Hlist.
  { unfold cm. rewrite registry_add_connections.
    now rewrite bool_decide_eq_true_2 by reflexivity. }
  assert (ConnectionManager.get_user_connections user_id cm <> []) as Hconns.
  { rewrite Hlist.
    now destruct (ConnectionManager.get_user_connections user_id
                    (Server.connection_manager s)). }
  assert (ConnectionManager.get_connection connection_id cm
          = Some {| ConnectionManager.connection_id := connection_id;
                    ConnectionManager.user_id := user_id;
                    ConnectionManager.sid := request_sid;
                    ConnectionManager.connected_at := clock 0%nat;
                    ConnectionManager.last_activity := clock 1%nat |}) as Hrecord.
  { unfold cm, ConnectionManager.get_connection, ConnectionManager.add_connection;
      simpl; now rewrite lookup_insert_eq. }
  assert (pool_connections user_id
            (snd (ConnectionPool.add_connection user_id connection_id
                    (Server.connection_pool s)))
          = pool_connections user_id (Server.connection_pool s) ++ [connection_id])
    as Hpool.
  { rewrite pool_add_connections, Hcan.
    now rewrite bool_decide_eq_true_2 by reflexivity. }
  unfold ConnectionState.set_state_or_raise.
  destruct (fits_int64 user_id).
  - pose proof (deliver_queued_messages_online_result cm
                  (fun k => clock (S (S (S (S k))))) user_id db Hconns) as Hres.
    pose proof (deliver_queued_messages_online_queue cm
                  (fun k => clock (S (S (S (S k))))) user_id db Hconns) as Hqueue.
    unfold result_of, db_after, sql_bind in *. simpl in Hres, Hqueue |- *.
    rewrite Hres. cbn [fst snd sql_ret].
    exists {| Server.connection_manager := cm;
              Server.connection_order :=
                Server.order_set connection_id (Server.connection_order s);
              Server.connection_pool :=
                snd (ConnectionPool.add_connection user_id connection_id
                       (Server.connection_pool s));
              Server.connection_state :=
                ConnectionState.set_state (clock 2%nat) (clock 3%nat) user_id
                  ConnectionState.STATE_ONLINE (Server.connection_state s) |}.
    cbv zeta. cbn [Server.connection_manager Server.connection_pool
                   Server.connection_state].
    split; [exact Hrecord|]. split; [exact Hlist|]. split; [exact Hpool|].
    split.
    { exists (order_by_created_at (undelivered_rows user_id db)).
      split; [apply Permutation_sym, order_by_created_at_perm|].
      split; [apply order_by_created_at_sorted | reflexivity]. }
    split; [reflexivity|].
    split; [rewrite get_state_set_state; now rewrite Z.eqb_refl|].
    exact Hqueue.
  - cbn [result_of db_after fst snd sql_ret].
    exists {| Server.connection_manager := cm;
              Server.connection_order :=
                Server.order_set connection_id (Server.connection_order s);
              Server.connection_pool :=
                snd (ConnectionPool.add_connection user_id connection_id
                       (Server.connection_pool s));
              Server.connection_state := Server.connection_state s |}.
    cbv zeta. cbn [Server.connection_manager Server.connection_pool
                   Server.connection_state].
    split; [exact Hrecord|]. split; [exact Hlist|]. split; [exact Hpool|].
    now repeat split.
Qed.

Lemma register_connects_the_user_and_delivers_the_queue_witness :
  let clock := fun k : nat => Z.of_nat k in
  let data := [("user_id", PInt (2 ^ 63))] in
  let s := Server.init [] in
  let run := Server.handle_register clock "conn-1" "sid-1" data s in
  exists s',
    let cm := Server.connection_manager s' in
    ConnectionManager.get_connection "conn-1" cm
    = Some {| ConnectionManager.connection_id := "conn-1";
              ConnectionManager.user_id := 2 ^ 63;
              ConnectionManager.sid := "sid-1";
              ConnectionManager.connected_at := clock 0%nat;
              ConnectionManager.last_activity := clock 1%nat |}
    /\ ConnectionManager.get_user_connections (2 ^ 63) cm
       = ConnectionManager.get_user_connections (2 ^ 63) (Server.connection_manager s)
         ++ ["conn-1"]
    /\ pool_connections (2 ^ 63) (Server.connection_pool s')
       = pool_connections (2 ^ 63) (Server.connection_pool s) ++ ["conn-1"]
    /\ result_of run init_database = Some (Raised [] s')
    /\ Server.connection_state s' = Server.connection_state s
    /\ db_after run init_database = init_database.
Proof.
  intros clock data s run.
  exact (register_connects_the_user_and_delivers_the_queue clock "conn-1" "sid-1" data
           s init_database (2 ^ 63) eq_refl ltac:(discriminate)).
Defined.

(** A user with a queued message registers: the message is emitted to the
    new connection, [registered] follows, and the queue is empty. *)
Example register_delivers_the_queued_message :
  let clock := fun k : nat => Z.of_nat k in
  let db := db_after (MessageStore.save_message 1 (PInt 3) (Some 7%Z) None "direct"
                        (PDict [("content", PStr "hello")])) init_database in
  let run := Server.handle_register clock "conn-1" "sid-1" [("user_id", PInt 7)]
               (Server.init []) in
  option_map issued_by (result_of run db)
  = Some [ {| event := "message"; payload := PDict [("content", PStr "hello")];
              to := ToSession "sid-1" |};
           {| event := "registered";
              payload := PDict [("connection_id", PStr "conn-1");
                                ("user_id", PInt 7);
                                ("message", PStr "Registered successfully")];
              to := ToCaller |} ]
  /\ option_map has_raised (result_of run db) = Some false
  /\ queue_size 7 db = 1%Z
  /\ queue_size 7 (db_after run db) = 0%Z.
Proof. vm_compute. repeat split. Qed.

(** X25. Along every run of [register] and [disconnect] events from the
    components as the application creates them, whatever the presence
    table the database file held at the start, the connection ids drawn
    and the session ids: every handler ends, and none raises if no event
    registers an id of more than 64 bits; the registry and the pool list
    the same connections for every user, at most five; and for every
    user whose id binds, the presence store says [online] if the registry
    holds a connection of the user, and otherwise says [offline] or what
    it said at the start. *)
Theorem registry_pool_and_presence_agree_along_events
    (presence : list ConnectionState.state_row) (events : list server_event)
    (db : Database) :
  forallb event_in_model events = true ->
  exists raised s db',
    run_server_events events (Server.init presence, db) = Some (raised, (s, db'))
    /\ (forallb event_id_binds events = true -> raised = false)
    /\ forall u,
         ConnectionManager.get_user_connections u (Server.connection_manager s)
         = pool_connections u (Server.connection_pool s)
         /\ (length (ConnectionManager.get_user_connections u
                       (Server.connection_manager s)) <= 5)%nat
         /\ (fits_int64 u = true ->
             (ConnectionManager.is_user_online u (Server.connection_manager s) = true ->
              presence_online u s)
             /\ (ConnectionManager.is_user_online u (Server.connection_manager s) = false ->
                 ConnectionState.get_state u (Server.connection_state s)
                 = ConnectionState.get_state u presence
                 \/ exists last_seen,
                      ConnectionState.get_state u (Server.connection_state s)
                      = Some (ConnectionState.STATE_OFFLINE, last_seen))).
Proof.
  intros Hmodel.
  destruct (run_server_events_ok presence events (Server.init presence) db
              (server_ok_init presence) Hmodel)
    as (raised & s & db' & Hrun & Hok & Hraised).
  exists raised, s, db'. split; [exact Hrun|].
  split.
  { apply Hraised. intros c info. unfold ConnectionManager.get_connection; simpl.
    now rewrite lookup_empty. }
  intros u.
  destruct Hok as (_ & Hsame & _ & Hcount & _ & _ & Hpres).
  assert (ConnectionManager.get_user_connections u (Server.connection_manager s)
          = pool_connections u (Server.connection_pool s)) as Hlists
    by (unfold ConnectionManager.get_user_connections, pool_connections; now rewrite Hsame).
  split; [exact Hlists|]. split; [|apply Hpres].
  specialize (Hcount u). rewrite pool_count_eq, <- Hlists in Hcount. lia.
Qed.

Lemma registry_pool_and_presence_agree_along_events_witness :
  let clock := fun k : nat => Z.of_nat k in
  let presence := [ {| ConnectionState.user_id := 9;
                       ConnectionState.state := ConnectionState.STATE_ONLINE;
                       ConnectionState.last_seen := 0;
                       ConnectionState.updated_at := 0 |} ] in
  let events := [ Register clock "conn-1" "sid-1" [("user_id", PInt 7)];
                  Register clock "conn-2" "sid-2" [("user_id", PInt 7)];
                  Register clock "conn-3" "sid-3" [("user_id", PInt (2 ^ 63))];
                  Disconnect clock "sid-1" ] in
  exists raised s db',
    run_server_events events (Server.init presence, init_database)
    = Some (raised, (s, db'))
    /\ (forallb event_id_binds events = true -> raised = false)
    /\ forall u,
         ConnectionManager.get_user_connections u (Server.connection_manager s)
         = pool_connections u (Server.connection_pool s)
         /\ (length (ConnectionManager.get_user_connections u
                       (Server.connection_manager s)) <= 5)%nat
         /\ (fits_int64 u = true ->
             (ConnectionManager.is_user_online u (Server.connection_manager s) = true ->
              presence_online u s)
             /\ (ConnectionManager.is_user_online u (Server.connection_manager s) = false ->
                 ConnectionState.get_state u (Server.connection_state s)
                 = ConnectionState.get_state u presence
                 \/ exists last_seen,
                      ConnectionState.get_state u (Server.connection_state s)
                      = Some (ConnectionState.STATE_OFFLINE, last_seen))).
Proof.
  intros clock presence events.
  exact (registry_pool_and_presence_agree_along_events presence events init_database
           eq_refl).
Defined.

(** A presence table that lists a user as online outlives the restart:
    the new registry holds no connection of the user, and the store
    still says [online]. *)
Example presence_of_an_earlier_run_stays :
  let presence := [ {| ConnectionState.user_id := 9;
                       ConnectionState.state := ConnectionState.STATE_ONLINE;
                       ConnectionState.last_seen := 0;
                       ConnectionState.updated_at := 0 |} ] in
  let s := Server.init presence in
  ConnectionManager.is_user_online 9 (Server.connection_manager s) = false
  /\ ConnectionState.get_state 9 (Server.connection_state s)
     = Some (ConnectionState.STATE_ONLINE, 0%Z).
Proof. vm_compute. now split. Qed.

Lemma list_remove_first_split c earlier later :
  ~ In c earlier ->
  list_remove_first c (earlier ++ c :: later) = earlier ++ later.
Proof.
  induction earlier as [|x earlier IH]; intros Hnot; simpl.
  - now rewrite String.eqb_refl.
  - destruct (String.eqb_spec c x) as [->|_]; [exfalso; apply Hnot; now left|].
    rewrite IH; [reflexivity|]. intros H. apply Hnot. now right.
Qed.

Lemma first_with_sid_split cm request_sid order c info :
  Server.first_with_sid cm request_sid order = Some (c, info) ->
  exists earlier later,
    order = earlier ++ c :: later
    /\ forall c0 info0, In c0 earlier ->
         ConnectionManager.get_connection c0 cm = Some info0 ->
         ConnectionManager.sid info0 <> request_sid.
Proof.
  induction order as [|x order IH]; simpl; [discriminate|].
  destruct (ConnectionManager.get_connection x cm) as [i|] eqn:Hx.
  - destruct (String.eqb_spec (ConnectionManager.sid i) request_sid) as [Hsid|Hsid].
    + intros [= <- <-]. exists [], order. split; [reflexivity|]. intros c0 info0 [].
    + intros H. destruct (IH H) as (earlier & later & -> & Hnone).
      exists (x :: earlier), later. split; [reflexivity|].
      intros c0 info0 [<-|Hin] Hget; [congruence | now apply (Hnone c0 info0)].
  - intros H. destruct (IH H) as (earlier & later & -> & Hnone).
    exists (x :: earlier), later. split; [reflexivity|].
    intros c0 info0 [<-|Hin] Hget; [congruence | now apply (Hnone c0 info0)].
Qed.

(** X26. [disconnect] removes one connection only.  In every state the
    events lead to: if no record carries the session id of the closing
    socket, the handler changes nothing.  If one does, the records split
    in key order at the first that does, and for every such split that
    record is the one removed, from the registry, from the key order and
    from its user's lists in registry and pool, and nothing of any other
    record changes.  The presence store is set to [offline] for the user
    of the removed record if no connection of the user is left and the
    id binds; if none is left and the id does not bind, [set_state]
    raises after the removal.  Every other record that carries the
    session id (the client registered more than once on the socket)
    stays, and its user is still listed as online by the registry and,
    for an id that binds, by the presence store. *)
Theorem disconnect_removes_one_connection_of_the_socket
    (presence : list ConnectionState.state_row) (events : list server_event)
    (db : Database) :
  forallb event_in_model events = true ->
  exists raised s db',
    run_server_events events (Server.init presence, db) = Some (raised, (s, db'))
    /\ forall clock request_sid,
         let cm := Server.connection_manager s in
         let o := Server.handle_disconnect clock request_sid s in
         let cm' := Server.connection_manager (state_of o) in
         ((forall c info, ConnectionManager.get_connection c cm = Some info ->
             ConnectionManager.sid info <> request_sid) ->
          o = Returned [] s)
         /\ (forall c info, ConnectionManager.get_connection c cm = Some info ->
               ConnectionManager.sid info = request_sid ->
               exists earlier first later info1,
                 Server.connection_order s = earlier ++ first :: later
                 /\ ConnectionManager.get_connection first cm = Some info1
                 /\ ConnectionManager.sid info1 = request_sid
                 /\ forall c0 info0, In c0 earlier ->
                      ConnectionManager.get_connection c0 cm = Some info0 ->
                      ConnectionManager.sid info0 <> request_sid)
         /\ forall earlier c later info,
              Server.connection_order s = earlier ++ c :: later ->
              ConnectionManager.get_connection c cm = Some info ->
              ConnectionManager.sid info = request_sid ->
              (forall c0 info0, In c0 earlier ->
                 ConnectionManager.get_connection c0 cm = Some info0 ->
                 ConnectionManager.sid info0 <> request_sid) ->
              let user_id := ConnectionManager.user_id info in
              issued_by o = []
              /\ ConnectionManager.connections cm'
                 = delete c (ConnectionManager.connections cm)
              /\ Server.connection_order (state_of o) = earlier ++ later
              /\ (forall v,
                    ConnectionManager.get_user_connections v cm'
                    = (if bool_decide (v = user_id)
                       then list_remove_first c
                              (ConnectionManager.get_user_connections v cm)
                       else ConnectionManager.get_user_connections v cm)
                    /\ pool_connections v (Server.connection_pool (state_of o))
                       = ConnectionManager.get_user_connections v cm')
              /\ has_raised o
                 = negb (ConnectionManager.is_user_online user_id cm')
                   && negb (fits_int64 user_id)
              /\ Server.connection_state (state_of o)
                 = (if negb (ConnectionManager.is_user_online user_id cm')
                       && fits_int64 user_id
                    then ConnectionState.set_state (clock 0%nat) (clock 1%nat) user_id
                           ConnectionState.STATE_OFFLINE (Server.connection_state s)
                    else Server.connection_state s)
              /\ forall c2 info2,
                   c2 <> c ->
                   ConnectionManager.get_connection c2 cm = Some info2 ->
                   ConnectionManager.get_connection c2 cm' = Some info2
                   /\ ConnectionManager.is_user_online
                        (ConnectionManager.user_id info2) cm' = true
                   /\ (fits_int64 (ConnectionManager.user_id info2) = true ->
                       presence_online (ConnectionManager.user_id info2) (state_of o)).
Proof.
  intros Hmodel.
  destruct (run_server_events_ok presence events (Server.init presence) db
              (server_ok_init presence) Hmodel)
    as (raised & s & db' & Hrun & Hok & _).
  exists raised, s, db'. split; [exact Hrun|].
  intros clock request_sid cm o cm'.
  split.
  { intros Hnone. unfold o. apply disconnect_not_found.
    now apply first_with_sid_none. }
  split.
  { intros c info Hget Hsid.
    destruct (Server.first_with_sid cm request_sid (Server.connection_order s))
      as [[first info1]|] eqn:Hfound.
    - destruct (first_with_sid_spec _ _ _ _ _ Hfound) as (_ & Hget1 & Hsid1).
      destruct (first_with_sid_split _ _ _ _ _ Hfound) as (earlier & later & Hsplit & Hnone).
      now exists earlier, first, later, info1.
    - exfalso.
      assert (In c (Server.connection_order s)) as Hin.
      { destruct Hok as (_ & _ & _ & _ & Horder & _). apply Horder. fold cm. congruence. }
      clear -Hfound Hin Hget Hsid. revert Hfound Hin.
      induction (Server.connection_order s) as [|x order IH]; simpl; [intros _ []|].
      destruct (ConnectionManager.get_connection x cm) as [i|] eqn:Hx.
      + destruct (String.eqb_spec (ConnectionManager.sid i) request_sid) as [_|Hne];
          [discriminate|].
        intros Hrest [->|Hin]; [congruence | now apply IH].
      + intros Hrest [->|Hin]; [congruence | now apply IH]. }
  intros earlier c later info Hsplit Hget Hsid Hnone user_id.
  assert (Server.first_with_sid cm request_sid (Server.connection_order s)
          = Some (c, info)) as Hfound
    by (rewrite Hsplit; now apply first_with_sid_first).
  destruct (disconnect_found presence clock request_sid s c info Hok Hfound)
    as (Hok' & Hconns & Hlists & Hissued & Horder' & Hraise & Hstate).
  fold o in Hok', Hconns, Hlists, Hissued, Horder', Hraise, Hstate.
  fold cm' in Hconns, Hlists, Hraise, Hstate.
  split; [exact Hissued|]. split; [exact Hconns|].
  split.
  { rewrite Horder', Hsplit. apply list_remove_first_split.
    destruct Hok as (_ & _ & _ & _ & _ & Hnd & _). rewrite Hsplit in Hnd.
    apply List.NoDup_remove_2 in Hnd. intros Hin. apply Hnd, in_app_iff. now left. }
  split.
  { intros v. split; [apply Hlists|].
    destruct Hok' as (_ & Hsame' & _). fold cm' in Hsame'.
    unfold pool_connections, ConnectionManager.get_user_connections.
    now rewrite Hsame'. }
  split; [exact Hraise|]. split; [exact Hstate|].
  intros c2 info2 Hne Hget2.
  assert (ConnectionManager.get_connection c2 cm' = Some info2) as Hget2'.
  { unfold ConnectionManager.get_connection in *. rewrite Hconns.
    now rewrite lookup_delete_ne by congruence. }
  split; [exact Hget2'|].
  destruct Hok' as (Hbuilt' & _ & _ & _ & _ & _ & Hpres'). fold cm' in Hbuilt', Hpres'.
  assert (ConnectionManager.is_user_online (ConnectionManager.user_id info2) cm' = true)
    as Honline.
  { apply (is_user_online_listed _ _ Hbuilt').
    destruct (built_by_calls_inv _ Hbuilt') as [Hrec _].
    specialize (Hrec c2 info2 Hget2'). intros Hnil. rewrite Hnil in Hrec. destruct Hrec. }
  split; [exact Honline|]. intros Hfits. now apply (Hpres' _ Hfits).
Qed.

Lemma disconnect_removes_one_connection_of_the_socket_witness :
  let clock := fun k : nat => Z.of_nat k in
  let events := [ Register clock "conn-1" "sid-1" [("user_id", PInt 7)];
                  Register clock "conn-2" "sid-1" [("user_id", PInt 7)] ] in
  exists raised s db',
    run_server_events events (Server.init [], init_database) = Some (raised, (s, db'))
    /\ forall clock request_sid,
         let cm := Server.connection_manager s in
         let o := Server.handle_disconnect clock request_sid s in
         let cm' := Server.connection_manager (state_of o) in
         ((forall c info, ConnectionManager.get_connection c cm = Some info ->
             ConnectionManager.sid info <> request_sid) ->
          o = Returned [] s)
         /\ (forall c info, ConnectionManager.get_connection c cm = Some info ->
               ConnectionManager.sid info = request_sid ->
               exists earlier first later info1,
                 Server.connection_order s = earlier ++ first :: later
                 /\ ConnectionManager.get_connection first cm = Some info1
                 /\ ConnectionManager.sid info1 = request_sid
                 /\ forall c0 info0, In c0 earlier ->
                      ConnectionManager.get_connection c0 cm = Some info0 ->
                      ConnectionManager.sid info0 <> request_sid)
         /\ forall earlier c later info,
              Server.connection_order s = earlier ++ c :: later ->
              ConnectionManager.get_connection c cm = Some info ->
              ConnectionManager.sid info = request_sid ->
              (forall c0 info0, In c0 earlier ->
                 ConnectionManager.get_connection c0 cm = Some info0 ->
                 ConnectionManager.sid info0 <> request_sid) ->
              let user_id := ConnectionManager.user_id info in
              issued_by o = []
              /\ ConnectionManager.connections cm'
                 = delete c (ConnectionManager.connections cm)
              /\ Server.connection_order (state_of o) = earlier ++ later
              /\ (forall v,
                    ConnectionManager.get_user_connections v cm'
                    = (if bool_decide (v = user_id)
                       then list_remove_first c
                              (ConnectionManager.get_user_connections v cm)
                       else ConnectionManager.get_user_connections v cm)
                    /\ pool_connections v (Server.connection_pool (state_of o))
                       = ConnectionManager.get_user_connections v cm')
              /\ has_raised o
                 = negb (ConnectionManager.is_user_online user_id cm')
                   && negb (fits_int64 user_id)
              /\ Server.connection_state (state_of o)
                 = (if negb (ConnectionManager.is_user_online user_id cm')
                       && fits_int64 user_id
                    then ConnectionState.set_state (clock 0%nat) (clock 1%nat) user_id
                           ConnectionState.STATE_OFFLINE (Server.connection_state s)
                    else Server.connection_state s)
              /\ forall c2 info2,
                   c2 <> c ->
                   ConnectionManager.get_connection c2 cm = Some info2 ->
                   ConnectionManager.get_connection c2 cm' = Some info2
                   /\ ConnectionManager.is_user_online
                        (ConnectionManager.user_id info2) cm' = true
                   /\ (fits_int64 (ConnectionManager.user_id info2) = true ->
                       presence_online (ConnectionManager.user_id info2) (state_of o)).
Proof.
  intros clock events.
  exact (disconnect_removes_one_connection_of_the_socket [] events init_database eq_refl).
Defined.

(** A client registers twice on one socket and closes it: the first
    connection goes, the second stays in the registry, and the user
    stays online. *)
Example second_registration_survives_the_disconnect :
  let clock := fun k : nat => Z.of_nat k in
  match run_server_events
          [ Register clock "conn-1" "sid-1" [("user_id", PInt 7)];
            Register clock "conn-2" "sid-1" [("user_id", PInt 7)];
            Disconnect clock "sid-1" ]
          (Server.init [], init_database) with
  | Some (raised, (s, _)) =>
      raised = false
      /\ ConnectionManager.get_user_connections 7 (Server.connection_manager s)
         = ["conn-2"]
      /\ ConnectionManager.is_user_online 7 (Server.connection_manager s) = true
      /\ ConnectionState.get_state 7 (Server.connection_state s)
         = Some (ConnectionState.STATE_ONLINE, 2%Z)
  | None => False
  end.
Proof. vm_compute. repeat split. Qed.

(** ** The [join_room] event *)

(** X27. A [join_room] event with a non-empty room id and an integer user
    id other than 0 is answered by the room check first.  If the room is
    unknown or its member count has reached its capacity, the caller
    gets the error [Failed to join room], a member of a full room
    included, and nothing changes.  Otherwise, for a user id that binds,
    the calling socket joins the transport room, the caller gets
    [joined_room] and the others in the room [user_joined], also when
    the user is a member already, in which case the directory does not
    change; for a user id of more than 64 bits the INSERT raises, nothing
    is emitted and nothing changes. *)
Theorem join_room_event_is_answered_by_the_room_check
    (now : Z) (request_sid : string) (data : pydict) (db : Database)
    (room_id : string) (user_id : Z) :
  dict_get "room_id" data = PStr room_id -> room_id <> EmptyString ->
  dict_get "user_id" data = PInt user_id -> user_id <> 0%Z ->
  let run := Server.handle_join_room now request_sid data in
  let has_place := match room_capacity room_id db with
                   | Some max_members => (member_count room_id db <? max_members)%Z
                   | None => false
                   end in
  if has_place then
    if fits_int64 user_id then
      result_of run db
      = Some (Returned
                [ Server.JoinTransportRoom room_id;
                  Server.Emit
                    {| event := "joined_room";
                       payload := PDict [("room_id", PStr room_id);
                                         ("message",
                                          PStr (String.append "Joined room " room_id))];
                       to := ToCaller |};
                  Server.EmitSkipping
                    {| event := "user_joined";
                       payload := PDict [("user_id", PInt user_id);
                                         ("room_id", PStr room_id)];
                       to := ToSession room_id |} request_sid ]
                tt)
      /\ db_after run db
         = (if is_member room_id user_id db then db
            else with_member now room_id user_id db)
    else
      result_of run db = Some (Raised [] tt) /\ db_after run db = db
  else
    result_of run db
    = Some (Returned [Server.Emit (Server.error "Failed to join room")] tt)
    /\ db_after run db = db.
Proof.
  intros Hroom Hne Huser Hnz run has_place.
  unfold has_place, run, Server.handle_join_room. rewrite Hroom, Huser.
  cbn [truthy Server.as_room_id App.as_user_id].
  apply String.eqb_neq in Hne. apply Z.eqb_neq in Hnz. rewrite Hne, Hnz. cbn [negb orb].
  unfold result_of, db_after, sql_bind.
  rewrite join_room_or_raise_cases.
  destruct (room_capacity room_id db) as [max_members|]; [|now split].
  rewrite Z.ltb_antisym.
  destruct (max_members <=? member_count room_id db)%Z; cbn [negb]; [now split|].
  destruct (fits_int64 user_id); now split.
Qed.

Lemma join_room_event_is_answered_by_the_room_check_witness :
  let db := db_after (RoomManager.create_room 0 "lobby" "Lobby" 1 false 2)
              init_database in
  let data := [("room_id", PStr "lobby"); ("user_id", PInt 7)] in
  let run := Server.handle_join_room 1 "sid-1" data in
  let has_place := match room_capacity "lobby" db with
                   | Some max_members => (member_count "lobby" db <? max_members)%Z
                   | None => false
                   end in
  if has_place then
    if fits_int64 7 then
      result_of run db
      = Some (Returned
                [ Server.JoinTransportRoom "lobby";
                  Server.Emit
                    {| event := "joined_room";
                       payload := PDict [("room_id", PStr "lobby");
                                         ("message",
                                          PStr (String.append "Joined room " "lobby"))];
                       to := ToCaller |};
                  Server.EmitSkipping
                    {| event := "user_joined";
                       payload := PDict [("user_id", PInt 7);
                                         ("room_id", PStr "lobby")];
                       to := ToSession "lobby" |} "sid-1" ]
                tt)
      /\ db_after run db
         = (if is_member "lobby" 7 db then db else with_member 1 "lobby" 7 db)
    else
      result_of run db = Some (Raised [] tt) /\ db_after run db = db
  else
    result_of run db
    = Some (Returned [Server.Emit (Server.error "Failed to join room")] tt)
    /\ db_after run db = db.
Proof.
  intros db data.
  exact (join_room_event_is_answered_by_the_room_check 1 "sid-1" data db "lobby" 7
           eq_refl ltac:(discriminate) eq_refl ltac:(discriminate)).
Defined.

(** ** Activity stamps and targeted broadcasts *)

Lemma update_activity_sid now connection_id cm c :
  option_map ConnectionManager.sid
    (ConnectionManager.get_connection c
       (ConnectionManager.update_activity now connection_id cm))
  = option_map ConnectionManager.sid (ConnectionManager.get_connection c cm).
Proof.
  unfold ConnectionManager.update_activity, ConnectionManager.get_connection.
  destruct (ConnectionManager.connections cm !! connection_id) as [info|] eqn:Hinfo;
    [|reflexivity].
  simpl. destruct (decide (c = connection_id)) as [->|Hne].
  - now rewrite lookup_insert_eq, Hinfo.
  - now rewrite lookup_insert_ne by congruence.
Qed.

(** X28. [update_activity] changes the [last_activity] of the named
    record and nothing else: every other field and every other record,
    the connection lists of all users and the statistics stay as they
    are, so that [send_to_user] emits and stores after the call exactly
    what it did before; for an id without a record the registry is
    unchanged. *)
Theorem update_activity_changes_one_stamp_only
    (now : Z) (connection_id : string) (cm : ConnectionManager.t) :
  let cm' := ConnectionManager.update_activity now connection_id cm in
  (forall c,
     ConnectionManager.get_connection c cm'
     = if String.eqb c connection_id
       then option_map (with_last_activity now) (ConnectionManager.get_connection c cm)
       else ConnectionManager.get_connection c cm)
  /\ ConnectionManager.user_connections cm' = ConnectionManager.user_connections cm
  /\ ConnectionManager.get_stats cm' = ConnectionManager.get_stats cm
  /\ (forall t user_id message db,
        CommunicationHub.send_to_user cm' t user_id message db
        = CommunicationHub.send_to_user cm t user_id message db)
  /\ (ConnectionManager.get_connection connection_id cm = None -> cm' = cm).
Proof.
  intros cm'.
  assert (ConnectionManager.user_connections cm' = ConnectionManager.user_connections cm)
    as Husers.
  { unfold cm', ConnectionManager.update_activity.
    now destruct (ConnectionManager.connections cm !! connection_id). }
  split; [|split; [exact Husers|split; [|split]]].
  - intros c. unfold cm', ConnectionManager.update_activity,
      ConnectionManager.get_connection.
    destruct (ConnectionManager.connections cm !! connection_id) as [info|] eqn:Hinfo.
    + simpl. destruct (String.eqb_spec c connection_id) as [->|Hne].
      * now rewrite lookup_insert_eq, Hinfo.
      * now rewrite lookup_insert_ne by congruence.
    + destruct (String.eqb_spec c connection_id) as [->|Hne]; [|reflexivity].
      now rewrite Hinfo.
  - unfold ConnectionManager.get_stats. rewrite Husers. f_equal.
    unfold cm', ConnectionManager.update_activity.
    destruct (ConnectionManager.connections cm !! connection_id) as [info|] eqn:Hinfo;
      [|reflexivity].
    simpl. rewrite <- (insert_id (ConnectionManager.connections cm) connection_id info)
      at 2 by exact Hinfo.
    rewrite <- (insert_delete_eq (ConnectionManager.connections cm)).
    rewrite <- (insert_delete_eq (ConnectionManager.connections cm) connection_id info).
    rewrite !map_size_insert_None by apply lookup_delete_eq. reflexivity.
  - intros t user_id message db. unfold CommunicationHub.send_to_user.
    unfold ConnectionManager.get_user_connections. rewrite Husers.
    destruct (ConnectionManager.user_connections cm !! user_id) as [[|c conns]|];
      try reflexivity.
    unfold sql_ret. f_equal.
    generalize (c :: conns). intros l. induction l as [|x l IH]; [reflexivity|].
    cbn [CommunicationHub.emit_to_connections].
    pose proof (update_activity_sid now connection_id cm x) as Hsid. fold cm' in Hsid.
    destruct (ConnectionManager.get_connection x cm') as [i'|],
             (ConnectionManager.get_connection x cm) as [i|];
      simpl in Hsid; try discriminate; [|exact IH].
    injection Hsid as ->. now rewrite IH.
  - unfold cm', ConnectionManager.update_activity, ConnectionManager.get_connection.
    now intros ->.
Qed.

(** X29. [broadcast_to_users] emits for each listed user, in order, what
    [send_to_user] would emit for the user, and stores nothing: a listed
    user without connections gets no emit and no queued message.  On a
    registry in which every listed connection has a record, the number of
    emits is the number of connections listed for the users. *)
Theorem broadcast_to_users_emits_as_send_to_user_and_never_queues
    (cm : ConnectionManager.t) (user_ids : list Z) (message : pydict) :
  (forall now db,
     BroadcastManager.broadcast_to_users cm user_ids message
     = flat_map
         (fun u => result_of (CommunicationHub.send_to_user cm now u message) db)
         user_ids)
  /\ ((forall u, In u user_ids -> ConnectionManager.get_user_connections u cm = []) ->
      BroadcastManager.broadcast_to_users cm user_ids message = [])
  /\ (listed_have_records cm ->
      length (BroadcastManager.broadcast_to_users cm user_ids message)
      = listed_connections cm user_ids).
Proof.
  unfold BroadcastManager.broadcast_to_users. split; [|split].
  - intros now db. apply flat_map_ext. intros u.
    unfold result_of, CommunicationHub.send_to_user.
    now destruct (ConnectionManager.get_user_connections u cm).
  - intros Hoff. induction user_ids as [|u us IH]; [reflexivity|]. simpl.
    rewrite (Hoff u) by now left. simpl. apply IH. intros v Hv. apply Hoff. now right.
  - intros Hrec. unfold listed_connections.
    induction user_ids as [|u us IH]; [reflexivity|]. simpl.
    rewrite List.length_app, IH. f_equal.
    pose proof (emit_to_connections_all cm message
                  (ConnectionManager.get_user_connections u cm)
                  (fun c Hc => Hrec u c Hc)) as Hall.
    symmetry. eapply Forall2_length, Hall.
Qed.

(** ** Sanitizing *)

Lemma remove_from_zero old c s :
  remove_from old 0 (String c s)
  = if String.prefix old (String c s)
    then remove_from old (String.length old - 1) s
    else String c (remove_from old 0 s).
Proof. reflexivity. Qed.

Lemma str_remove_no_angle old s :
  String.prefix "<" old = true -> no_angle s = true -> str_remove old s = s.
Proof.
  intros Hold. unfold str_remove. induction s as [|c s IH]; [reflexivity|].
  intros Hs. cbn [no_angle] in Hs. apply andb_true_iff in Hs as [Hc Hs].
  rewrite remove_from_zero.
  assert (String.prefix old (String c s) = false) as ->.
  { destruct old as [|a old]; [discriminate|]. cbn [String.prefix] in Hold |- *.
    destruct (Ascii.ascii_dec _ a) as [Ha|]; [|discriminate].
    destruct (Ascii.ascii_dec a c) as [Hac|]; [|reflexivity].
    rewrite <- Hac, <- Ha in Hc. discriminate. }
  now rewrite IH.
Qed.

Lemma append_cons c s t : String.append (String c s) t = String c (String.append s t).
Proof. reflexivity. Qed.

Lemma remove_from_skip old k c s :
  remove_from old (S k) (String c s) = remove_from old k s.
Proof. reflexivity. Qed.

Ltac remove_step :=
  first
    [ rewrite remove_from_skip
    | match goal with
      | |- context [(String.length ?a - 1)%nat] =>
          let v := eval cbv in (String.length a - 1)%nat in
          change (String.length a - 1)%nat with v
      end
    | rewrite remove_from_zero;
      match goal with
      | |- context [String.prefix ?a ?b] =>
          let v := eval cbv in (String.prefix a b) in
          change (String.prefix a b) with v
      end; cbv iota ].

Lemma nested_tag_survives t : no_angle t = true ->
  str_remove "</script>" (str_remove "<script>" (String.append "<scr</script>ipt>" t))
  = String.append "<script>" t.
Proof.
  intros Ht.
  assert (str_remove "<script>" (String.append "<scr</script>ipt>" t)
          = String.append "<scr</script>ipt>" t) as ->.
  { unfold str_remove. rewrite !append_cons. change (String.append EmptyString t) with t.
    repeat remove_step.
    fold (str_remove "<script>" t). now rewrite str_remove_no_angle. }
  unfold str_remove. rewrite !append_cons. change (String.append EmptyString t) with t.
  repeat remove_step.
  fold (str_remove "</script>" t). now rewrite str_remove_no_angle.
Qed.


Lemma dict_set_same k v d : dict_lookup k d = Some v -> dict_set k v d = d.
Proof.
  induction d as [|[k0 v0] d IH]; simpl; [discriminate|].
  destruct (String.eqb k k0); [now intros [= ->] | intros H; now rewrite IH].
Qed.

Lemma dict_get_str k d s : dict_get k d = PStr s -> dict_lookup k d = Some (PStr s).
Proof.
  unfold dict_get, dict_get_or. destruct (dict_lookup k d); [now intros -> | discriminate].
Qed.

(** X30. [sanitize_message] touches the [content] item only, and only if
    it is a string: other items keep their values, and a message whose
    content is not a string, or is a string without the character [<],
    comes back unchanged.  It does not clear a content of script tags:
    the two removals run once each, so that the opening tag wrapped
    around a closing tag is what the removal of the closing tag leaves
    behind. *)
Theorem sanitize_message_touches_content_only_and_can_leave_a_tag (message : pydict) :
  ((forall s, dict_get "content" message <> PStr s) ->
   MessageHandler.sanitize_message message = message)
  /\ (forall k, k <> "content" ->
        dict_lookup k (MessageHandler.sanitize_message message) = dict_lookup k message)
  /\ (forall s, dict_get "content" message = PStr s -> no_angle s = true ->
        MessageHandler.sanitize_message message = message)
  /\ (forall t, dict_get "content" message = PStr (String.append "<scr</script>ipt>" t) ->
        no_angle t = true ->
        dict_get "content" (MessageHandler.sanitize_message message)
        = PStr (String.append "<script>" t)).
Proof.
  unfold MessageHandler.sanitize_message. split; [|split; [|split]].
  - intros Hnot. destruct (dict_get "content" message); try reflexivity.
    now destruct (Hnot s).
  - intros k Hk. destruct (dict_get "content" message); try reflexivity.
    now apply dict_lookup_set_other.
  - intros s Hs Hangle. rewrite Hs.
    rewrite (str_remove_no_angle "<script>" s eq_refl Hangle).
    rewrite (str_remove_no_angle "</script>" s eq_refl Hangle).
    now apply dict_set_same, dict_get_str.
  - intros t Ht Hangle. rewrite Ht, nested_tag_survives by exact Hangle.
    unfold dict_get, dict_get_or. now rewrite dict_lookup_set_same.
Qed.
